(** * rss-spider-catl: the daily feed spiders and the weekly aggregator

    A shallow embedding of the four scripts of the repository
    ([spider_yesterday.py], [spider_yesterday_matoday.py],
    [spider_yesterday_1012.py], [weekly_aggregate.py]) and the properties
    of their text repair, title choice, date resolution, window filter,
    de-duplication and week computation.

    Python values are modelled as the interpreter has them: a [str] is a
    sequence of Unicode code points, [None] is [option], an exception is
    the [Raise] case of the result type [py]. *)

From Stdlib Require Import ZArith NArith Lia String Ascii.
From stdpp Require Import base option list strings gmap sorting.

Local Open Scope N_scope.

(** ** Python strings *)

Module PyStr.

(** A Python [str]: a sequence of code points. *)
Definition str := list N.

(** An ASCII literal of the source as a [str]. *)
Fixpoint lit (s : string) : str :=
  match s with
  | EmptyString => []
  | String c s' => N_of_ascii c :: lit s'
  end.

(** [Py_UNICODE_ISSPACE]: what [str.strip], [str.split] and the regex
    class [\s] take for white space. *)
Definition isspace (c : N) : bool :=
  ((0x09 <=? c) && (c <=? 0x0D)) || ((0x1C <=? c) && (c <=? 0x20))
  || (c =? 0x85) || (c =? 0xA0) || (c =? 0x1680)
  || ((0x2000 <=? c) && (c <=? 0x200A))
  || (c =? 0x2028) || (c =? 0x2029) || (c =? 0x202F) || (c =? 0x205F)
  || (c =? 0x3000).

Fixpoint lstrip (s : str) : str :=
  match s with
  | c :: s' => if isspace c then lstrip s' else s
  | [] => []
  end.

Definition rstrip (s : str) : str := reverse (lstrip (reverse s)).

(** [s.strip()] *)
Definition strip (s : str) : str := rstrip (lstrip s).

(** [s.split()]: the maximal runs of non-blank characters.  [cur] is the
    word being read, last character first. *)
Fixpoint split_go (cur : str) (s : str) : list str :=
  match s with
  | [] => match cur with [] => [] | _ => [reverse cur] end
  | c :: s' =>
      if isspace c
      then match cur with
           | [] => split_go [] s'
           | _ => reverse cur :: split_go [] s'
           end
      else split_go (c :: cur) s'
  end.

Definition split (s : str) : list str := split_go [] s.

(** [prefixb k s]: [s.startswith(k)]. *)
Fixpoint prefixb (k s : str) : bool :=
  match k, s with
  | [], _ => true
  | a :: k', b :: s' => (a =? b) && prefixb k' s'
  | _ :: _, [] => false
  end.

(** [k in s] for strings: [k] starts at some position of [s]. *)
Fixpoint occursb (k s : str) : bool :=
  prefixb k s || match s with [] => false | _ :: s' => occursb k s' end.

(** [s.replace(k, v)] for a non-empty [k]: scan from the left, replace
    every occurrence found and resume after it.  [skip] counts the
    characters of the occurrence still to pass over. *)
Fixpoint replace_go (k v : str) (skip : nat) (s : str) : str :=
  match s with
  | [] => []
  | c :: s' =>
      match skip with
      | S n => replace_go k v n s'
      | O => if prefixb k s
             then v ++ replace_go k v (length k - 1) s'
             else c :: replace_go k v 0 s'
      end
  end.

(** [s.replace(k, v)]; with an empty [k] Python puts [v] before every
    character and at the end. *)
Definition replace (k v s : str) : str :=
  match k with
  | [] => v ++ concat (map (fun c => c :: v) s)
  | _ => replace_go k v 0 s
  end.

(** [s.lower()] of ASCII text. *)
Definition ascii_lower (s : str) : str :=
  (λ c, if (0x41 <=? c) && (c <=? 0x5A) then c + 32 else c) <$> s.

End PyStr.
Import PyStr.

(** ** The text sanitizer of [spider_yesterday_1012.py]: [fix_mojibake] *)

(** The dict [repl] of [fix_mojibake], in its insertion order, which is the
    order [repl.items()] iterates in.  The keys are the code points of the
    source literals. *)
Definition repl : list (str * str) :=
  [ ([0x9225; 0xFFFD], lit "'");
    ([0x9225],         lit "'");
    ([0xE2; 0x80; 0x99], lit "'");
    ([0xE2; 0x80; 0x93], lit "-");
    ([0xE2; 0x80; 0x94], lit "-");
    ([0xE2; 0x80; 0x9C], [0x22]);
    ([0xE2; 0x80; 0x9D], [0x22]) ].

(** [for k, v in repl.items(): s = s.replace(k, v)] *)
Definition apply_repl (table : list (str * str)) (s : str) : str :=
  fold_left (fun acc kv => replace kv.1 kv.2 acc) table s.

Definition fix_mojibake (s : str) : str :=
  match s with
  | [] => s
  | _ => apply_repl repl s
  end.

(** A rule [(k, v)] is well behaved with respect to the keys [K] of the
    whole table when [k] is not empty and [v] is a single character that
    is part of no key. *)
Definition rule_ok (K : list str) (kv : str * str) : Prop :=
  kv.1 ≠ [] ∧ ∃ c, kv.2 = [c] ∧ ∀ k, k ∈ K → c ∉ k.

(** Text none of whose characters is part of a key. *)
Definition plain (K : list str) (s : str) : Prop :=
  ∀ x k, x ∈ s → k ∈ K → x ∉ k.

(** ** Results and exceptions *)

(** The exceptions the scripts can meet.  [OutOfFuel] is no exception of
    Python: it marks a loop of the model that was given too few steps. *)
Inductive exn :=
| ValueError
| OverflowError
| KeyError (column : string)
| AttributeError (attribute : string)
| TypeError
| EmptyDataError
| OutOfFuel.

(** The outcome of running Python code: a value, or a raised exception. *)
Inductive py (A : Type) :=
| Ok (a : A)
| Raise (e : exn).
Arguments Ok {A} a.
Arguments Raise {A} e.

Global Instance py_ret : MRet py := λ A a, Ok a.
Global Instance py_bind : MBind py := λ A B f m,
  match m with Ok a => f a | Raise e => Raise e end.

(** [try: m  except Exception: h] *)
Definition try_except {A} (m : py A) (h : py A) : py A :=
  match m with Ok a => Ok a | Raise _ => h end.

Definition raises {A} (m : py A) : Prop := ∃ e, m = Raise e.

(** ** Dates and times: Python's [datetime] module *)

Module PyDate.
Local Open Scope Z_scope.

Record date := mkdate { year : Z; month : Z; day : Z }.

Inductive tz := UTC.

(** A [datetime]; [tzinfo = None] is a naive one. *)
Record datetime := mkdatetime {
  dt_date : date;
  hour : Z; minute : Z; second : Z; microsecond : Z;
  tzinfo : option tz }.

Global Instance date_eq_dec : EqDecision date.
Proof. solve_decision. Defined.
Global Instance tz_eq_dec : EqDecision tz.
Proof. solve_decision. Defined.
Global Instance datetime_eq_dec : EqDecision datetime.
Proof. solve_decision. Defined.

Definition MINYEAR := 1.
Definition MAXYEAR := 9999.
Definition MAXORDINAL := 3652059.

Definition is_leap (y : Z) : bool :=
  (y mod 4 =? 0) && (negb (y mod 100 =? 0) || (y mod 400 =? 0)).

Definition DAYS_IN_MONTH : list Z :=
  [-1; 31; 28; 31; 30; 31; 30; 31; 31; 30; 31; 30; 31].

Definition DAYS_BEFORE_MONTH : list Z :=
  [-1; 0; 31; 59; 90; 120; 151; 181; 212; 243; 273; 304; 334].

Definition days_before_year (y : Z) : Z :=
  let y := y - 1 in y * 365 + y / 4 - y / 100 + y / 400.

Definition days_in_month (y m : Z) : Z :=
  if (m =? 2) && is_leap y then 29 else nth (Z.to_nat m) DAYS_IN_MONTH 0.

Definition days_before_month (y m : Z) : Z :=
  nth (Z.to_nat m) DAYS_BEFORE_MONTH 0 + (if (2 <? m) && is_leap y then 1 else 0).

(** [_ymd2ord]: 0001-01-01 is day 1. *)
Definition ymd2ord (y m d : Z) : Z :=
  days_before_year y + days_before_month y m + d.

Definition toordinal (d : date) : Z := ymd2ord (year d) (month d) (day d).

Definition DI400Y := days_before_year 401.
Definition DI100Y := days_before_year 101.
Definition DI4Y := days_before_year 5.

(** [_ord2ymd] *)
Definition ord2ymd (n : Z) : date :=
  let n := n - 1 in
  let n400 := n / DI400Y in let n := n mod DI400Y in
  let y := n400 * 400 + 1 in
  let n100 := n / DI100Y in let n := n mod DI100Y in
  let n4 := n / DI4Y in let n := n mod DI4Y in
  let n1 := n / 365 in let n := n mod 365 in
  let y := y + n100 * 100 + n4 * 4 + n1 in
  if (n1 =? 4) || (n100 =? 4) then mkdate (y - 1) 12 31
  else
    let leapyear := (n1 =? 3) && (negb (n4 =? 24) || (n100 =? 3)) in
    let m := Z.shiftr (n + 50) 5 in
    let preceding :=
      nth (Z.to_nat m) DAYS_BEFORE_MONTH 0 + (if (2 <? m) && leapyear then 1 else 0) in
    if n <? preceding
    then
      let m := m - 1 in
      let preceding :=
        preceding - (nth (Z.to_nat m) DAYS_IN_MONTH 0
                     + (if (m =? 2) && leapyear then 1 else 0)) in
      mkdate y m (n - preceding + 1)
    else mkdate y m (n - preceding + 1).

(** The range checks of the constructors. *)
Definition valid_dateb (y m d : Z) : bool :=
  (MINYEAR <=? y) && (y <=? MAXYEAR) && (1 <=? m) && (m <=? 12)
  && (1 <=? d) && (d <=? days_in_month y m).

Definition valid_timeb (hh mm ss us : Z) : bool :=
  (0 <=? hh) && (hh <=? 23) && (0 <=? mm) && (mm <=? 59)
  && (0 <=? ss) && (ss <=? 59) && (0 <=? us) && (us <=? 999999).

(** [date(y, m, d)] *)
Definition new_date (y m d : Z) : py date :=
  if valid_dateb y m d then Ok (mkdate y m d) else Raise ValueError.

(** [datetime(y, m, d, hh, mm, ss, tzinfo=tz)] *)
Definition new_datetime (y m d hh mm ss : Z) (tzi : option tz) : py datetime :=
  if valid_dateb y m d && valid_timeb hh mm ss 0
  then Ok (mkdatetime (mkdate y m d) hh mm ss 0 tzi)
  else Raise ValueError.

(** [date.fromordinal(n)] *)
Definition fromordinal (n : Z) : py date :=
  if (1 <=? n) && (n <=? MAXORDINAL) then Ok (ord2ymd n) else Raise ValueError.

(** [d + timedelta(days=k)]; [d - timedelta(days=k)] is [add_days d (-k)]. *)
Definition add_days (d : date) (k : Z) : py date :=
  let o := toordinal d + k in
  if (0 <? o) && (o <=? MAXORDINAL) then Ok (ord2ymd o) else Raise OverflowError.

(** [d1 <= d2] on dates. *)
Definition date_leb (d1 d2 : date) : bool := toordinal d1 <=? toordinal d2.

(** [_isoweek1monday] *)
Definition isoweek1monday (y : Z) : Z :=
  let firstday := ymd2ord y 1 1 in
  let firstweekday := (firstday + 6) mod 7 in
  let week1monday := firstday - firstweekday in
  if 3 <? firstweekday then week1monday + 7 else week1monday.

Record IsoCalendarDate := mkiso { iso_year : Z; iso_week : Z; iso_weekday : Z }.

(** [date.isocalendar()] *)
Definition isocalendar (d : date) : IsoCalendarDate :=
  let y := year d in
  let week1monday := isoweek1monday y in
  let today := toordinal d in
  let week := (today - week1monday) / 7 in
  let wday := (today - week1monday) mod 7 in
  if week <? 0 then
    let y := y - 1 in
    let week1monday := isoweek1monday y in
    mkiso y ((today - week1monday) / 7 + 1) ((today - week1monday) mod 7 + 1)
  else if (52 <=? week) && (isoweek1monday (y + 1) <=? today) then
    mkiso (y + 1) 1 (wday + 1)
  else mkiso y (week + 1) (wday + 1).

(** The instant of a UTC date-time in microseconds from 0001-01-01, the
    order pandas sorts time stamps by. *)
Definition timestamp (t : datetime) : Z :=
  (((toordinal (dt_date t) * 24 + hour t) * 60 + minute t) * 60 + second t)
  * 1000000 + microsecond t.

End PyDate.
Import PyDate.

(** ** What the scripts take from their libraries *)

(** The Unicode tables of the interpreter and the library calls whose code
    is no part of the repository.  [None] stands for "no match" of a
    search and for "raised an exception" of a parser. *)
Class Libs := {
  (** [s.lower()] *)
  str_lower : str → str;
  (** the value of a decimal digit (category Nd), for [\d] and [int] *)
  unicode_decimal : N → option Z;
  (** [c.isalnum()], the letters and digits of the regex class [\w] *)
  unicode_alnum : N → bool;
  (** [html.unescape(s)] *)
  html_unescape : str → str;
  (** [ALT_IMG_RE.search(html)] and its group [alt] *)
  ALT_IMG_RE_search : str → option str;
  (** [pd.to_datetime(d, utc=True, errors="raise").to_pydatetime()] *)
  pd_to_datetime : str → option datetime;
  (** [dateutil.parser.parse(s)] *)
  dateutil_parse : str → option datetime;
}.

(** What the properties below need to know of them. *)
Class LibsLaws (L : Libs) : Prop := {
  (** ASCII digits are decimal digits with their value *)
  decimal_ascii : ∀ c, 0x30 ≤ c ≤ 0x39 → unicode_decimal c = Some (Z.of_N c - 48)%Z;
  (** on ASCII text [lower] changes the capital letters only *)
  lower_ascii : ∀ s, Forall (λ c, c < 0x80) s → str_lower s = ascii_lower s;
  (** [utc=True] makes the parsed time stamp UTC-aware *)
  pd_to_datetime_utc : ∀ s t, pd_to_datetime s = Some t → tzinfo t = Some UTC;
}.

(** ** Regular expressions of the scripts *)

Module Re.

(** The longest prefix of [s] whose characters satisfy [p], and the rest. *)
Fixpoint span (p : N → bool) (s : str) : str * str :=
  match s with
  | c :: s' => if p c then let '(a, b) := span p s' in (c :: a, b) else ([], s)
  | [] => ([], [])
  end.

(** As [span], for at most [n] characters: a greedy [{1,n}] or [{n}]. *)
Fixpoint span_upto (n : nat) (p : N → bool) (s : str) : str * str :=
  match n, s with
  | S n', c :: s' =>
      if p c then let '(a, b) := span_upto n' p s' in (c :: a, b) else ([], s)
  | _, _ => ([], s)
  end.

(** How [re.IGNORECASE] folds a character before it compares it with an
    ASCII letter: the upper-case ASCII letters, and the four other
    characters the flag lets match ASCII letters. *)
Definition fold_case (x : N) : N :=
  if (0x41 <=? x) && (x <=? 0x5A) then x + 32
  else if (x =? 0x130) || (x =? 0x131) then 0x69
  else if x =? 0x17F then 0x73
  else if x =? 0x212A then 0x6B
  else x.

(** A literal word at the start of [s]; what follows it. *)
Fixpoint literal (fold : N → N) (w s : str) : option str :=
  match w, s with
  | [], _ => Some s
  | a :: w', b :: s' => if fold a =? fold b then literal fold w' s' else None
  | _ :: _, [] => None
  end.

(** [\s+] at the start of [s]: the blanks and what follows them. *)
Definition blanks (s : str) : option (str * str) :=
  let '(w, r) := span isspace s in
  match w with [] => None | _ => Some (w, r) end.

(** [[A-Za-z]] under [re.IGNORECASE] *)
Definition ascii_letter_ci (x : N) : bool :=
  let y := fold_case x in (0x61 <=? y) && (y <=? 0x7A).

Definition ascii_digit (x : N) : bool := (0x30 <=? x) && (x <=? 0x39).

(** The first position of [s] from which [m] matches. *)
Fixpoint search {A} (m : str → option A) (s : str) : option A :=
  match m s with
  | Some g => Some g
  | None => match s with [] => None | _ :: s' => search m s' end
  end.

Section WithLibs.
Context `{L : Libs}.

Definition decimal (x : N) : bool := bool_decide (is_Some (unicode_decimal x)).

(** [\w]: letters, digits and the underscore. *)
Definition word_char (x : N) : bool := unicode_alnum x || (x =? 0x5F).

(** [AVAILABLE_ONLINE_RE] of [spider_yesterday_1012.py] from the start of
    [s]: group 1.  Each repetition runs over a class that the pattern's
    next item cannot match, so taking the longest run is all a
    backtracking matcher can do. *)
Definition AVAILABLE_ONLINE_RE_match (s : str) : option str :=
  r ← literal fold_case (lit "Available") s;
  '(_, r) ← blanks r;
  r ← literal fold_case (lit "online") r;
  '(_, r) ← blanks r;
  let '(d, r) := span_upto 2 decimal r in
  if bool_decide (d = []) then None else
  '(w1, r) ← blanks r;
  let '(mon, r) := span ascii_letter_ci r in
  if bool_decide (mon = []) then None else
  '(w2, r) ← blanks r;
  let '(y, r) := span_upto 4 decimal r in
  if bool_decide (length y = 4%nat) then Some (d ++ w1 ++ mon ++ w2 ++ y) else None.

(** [AVAILABLE_ONLINE_RE.search(text)] and its group 1. *)
Definition AVAILABLE_ONLINE_RE_search (s : str) : option str :=
  search AVAILABLE_ONLINE_RE_match s.

(** The pattern of [spider_yesterday_matoday.py],
    [Available online\s+([0-9]{1,2}\s+\w+\s+[0-9]{4})], without flags. *)
Definition matoday_re_match (s : str) : option str :=
  r ← literal id (lit "Available online") s;
  '(_, r) ← blanks r;
  let '(d, r) := span_upto 2 ascii_digit r in
  if bool_decide (d = []) then None else
  '(w1, r) ← blanks r;
  let '(mon, r) := span word_char r in
  if bool_decide (mon = []) then None else
  '(w2, r) ← blanks r;
  let '(y, r) := span_upto 4 ascii_digit r in
  if bool_decide (length y = 4%nat) then Some (d ++ w1 ++ mon ++ w2 ++ y) else None.

Definition matoday_re_search (s : str) : option str := search matoday_re_match s.

End WithLibs.

(** [TAG_RE.sub("", s)] with [TAG_RE = <[^>]+>].  A tag opens at a [<]
    that is followed by a character other than [>] and, later, by a [>];
    [in_tag] says that the scan is inside one. *)
Definition opens_tag (s : str) : bool :=
  match s with
  | x :: r => negb (x =? 0x3E) && existsb (N.eqb 0x3E) r
  | [] => false
  end.

Fixpoint TAG_RE_sub (in_tag : bool) (s : str) : str :=
  match s with
  | [] => []
  | c :: s' =>
      if in_tag then TAG_RE_sub (negb (c =? 0x3E)) s'
      else if (c =? 0x3C) && opens_tag s' then TAG_RE_sub true s'
      else c :: TAG_RE_sub false s'
  end.

(** [re.sub(r"\s+", " ", s)]; [blank] says that the last character read
    was a blank. *)
Fixpoint collapse_blanks (blank : bool) (s : str) : str :=
  match s with
  | [] => []
  | c :: s' =>
      if isspace c
      then if blank then collapse_blanks true s' else 0x20 :: collapse_blanks true s'
      else c :: collapse_blanks false s'
  end.

End Re.

(** ** Feed entries, as [feedparser] hands them over *)

(** [time.struct_time], the nine-tuple of [published_parsed]. *)
Record struct_time := mktime {
  tm_year : Z; tm_mon : Z; tm_mday : Z; tm_hour : Z; tm_min : Z; tm_sec : Z;
  tm_wday : Z; tm_yday : Z; tm_isdst : Z }.

(** An entry: a dict all of whose keys may be missing ([None]).
    [content] lists [c.get("value")] of the blocks of [entry.content]. *)
Record entry := mkentry {
  title : option str;
  link : option str;
  summary : option str;
  description : option str;
  content : list (option str);
  published_parsed : option struct_time;
  updated_parsed : option struct_time;
  published : option str;
  updated : option str }.

(** A parsed feed: [feed.feed.get("title")] and [feed.entries]. *)
Record feed := mkfeed { feed_title : option str; entries : list entry }.

(** [x or ""] *)
Definition or_empty (x : option str) : str := default [] x.

(** [datetime(t[0], ..., t[5], tzinfo=timezone.utc)], the call with the
    first six fields of [t] unpacked. *)
Definition datetime_of_struct_time (t : struct_time) : py datetime :=
  new_datetime (tm_year t) (tm_mon t) (tm_mday t) (tm_hour t) (tm_min t) (tm_sec t)
    (Some UTC).

(** ** [spider_yesterday_1012.py]: the functions *)

Definition GENERIC_TITLES : gset str :=
  {[ lit "graphical abstract"; lit "table of contents"; lit "toc";
     lit "cover image"; lit "no title" ]}.

Definition MONTHS : gmap str Z :=
  list_to_map
    [ (lit "january", 1%Z); (lit "february", 2%Z); (lit "march", 3%Z);
      (lit "april", 4%Z); (lit "may", 5%Z); (lit "june", 6%Z);
      (lit "july", 7%Z); (lit "august", 8%Z); (lit "september", 9%Z);
      (lit "october", 10%Z); (lit "november", 11%Z); (lit "december", 12%Z) ].

(** [max(l, key=len)]: the first of the longest; [best] is the longest so far. *)
Fixpoint max_by_len_from (best : str) (l : list str) : str :=
  match l with
  | [] => best
  | x :: l' =>
      if (length best <? length x)%nat then max_by_len_from x l'
      else max_by_len_from best l'
  end.

Definition max_by_len (l : list str) : py str :=
  match l with
  | [] => Raise ValueError
  | x :: l' => Ok (max_by_len_from x l')
  end.

(** [r] is the first of the longest strings of [l]. *)
Definition longest_first (r : str) (l : list str) : Prop :=
  ∃ l1 l2, l = l1 ++ r :: l2
    ∧ (∀ z, z ∈ l1 → (length z < length r)%nat)
    ∧ (∀ z, z ∈ l2 → (length z ≤ length r)%nat).

Section Spider1012.
Context `{L : Libs}.

Definition clean_html_text (s : str) : str :=
  match s with
  | [] => []
  | _ =>
      let s := html_unescape s in
      let s := Re.TAG_RE_sub false s in
      let s := Re.collapse_blanks false s in
      strip s
  end.

Definition looks_generic (title : str) : bool :=
  let t := str_lower (strip title) in
  match t with
  | [] => true
  | _ => bool_decide (t ∈ GENERIC_TITLES) || (length t <? 5)%nat
  end.

Definition extract_alt_from_html (html : str) : option str :=
  match html with
  | [] => None
  | _ =>
      alt ← ALT_IMG_RE_search html;
      let alt := clean_html_text alt in
      let alt := fix_mojibake alt in
      match alt with [] => None | _ => Some alt end
  end.

(** The local [title_from_feed] of [get_entry_title]. *)
Definition title_from_feed (e : entry) : str :=
  fix_mojibake (clean_html_text (or_empty (title e))).

(** The local [html_blobs]: the values of the content blocks that are not
    empty, then the summary if it is not empty. *)
Definition html_blobs (e : entry) : list str :=
  filter (λ v, v ≠ []) (or_empty <$> content e)
  ++ match summary e with Some (c :: s) => [c :: s] | _ => [] end.

(** The local [alt_candidates]. *)
Definition alt_candidates (e : entry) : list str :=
  omap extract_alt_from_html (html_blobs e).

Definition get_entry_title (e : entry) : py str :=
  let title_from_feed := title_from_feed e in
  let alt_candidates := alt_candidates e in
  if looks_generic title_from_feed && bool_decide (alt_candidates ≠ [])
  then max_by_len alt_candidates
  else
    let last :=
      match title_from_feed with
      | [] => Ok (default [] (head alt_candidates))
      | _ => Ok title_from_feed
      end in
    if bool_decide (title_from_feed ≠ []) && bool_decide (alt_candidates ≠ [])
    then
      best_alt ← max_by_len alt_candidates;
      if (length title_from_feed + 10 <=? length best_alt)%nat
         && negb (looks_generic best_alt)
      then Ok best_alt
      else last
    else last.

Definition parse_date_strict (d : option str) : option datetime :=
  match d with
  | None | Some [] => None
  | Some d => pd_to_datetime d
  end.

(** [int(s)] of a string of decimal digits, the only strings the callers
    pass; other strings are refused. *)
Definition py_int (s : str) : py Z :=
  match s with
  | [] => Raise ValueError
  | _ =>
      match mapM unicode_decimal s with
      | Some ds => Ok (fold_left (λ acc d, acc * 10 + d)%Z ds 0%Z)
      | None => Raise ValueError
      end
  end.

(** The [try] block of [parse_available_online_date], before its
    [except]: the date read by hand from the three words of [date_str]. *)
Definition read_by_hand (date_str day_s month_s year_s : str) : py (option datetime) :=
  day ← py_int day_s;
  let month := MONTHS !! str_lower month_s in
  year ← py_int year_s;
  match month with
  | None | Some 0%Z => Ok (parse_date_strict (Some date_str))
  | Some month =>
      dt ← new_datetime year month day 0 0 0 (Some UTC);
      Ok (Some dt)
  end.

Definition parse_available_online_date (description_html : str) : option datetime :=
  match description_html with
  | [] => None
  | _ =>
      let desc_txt := clean_html_text description_html in
      match Re.AVAILABLE_ONLINE_RE_search desc_txt with
      | None => None
      | Some date_str =>
          match split date_str with
          | [day_s; month_s; year_s] =>
              match read_by_hand date_str day_s month_s year_s with
              | Ok r => r
              | Raise _ => parse_date_strict (Some date_str)
              end
          | _ => parse_date_strict (Some date_str)
          end
      end
  end.

(** The local [t] of [get_entry_pub_date]:
    [entry.get("published_parsed") or entry.get("updated_parsed")]. *)
Definition parsed_tuple (e : entry) : option struct_time :=
  match published_parsed e with
  | Some t => Some t
  | None => updated_parsed e
  end.

Definition get_entry_pub_date (e : entry) : py (option datetime) :=
  match parsed_tuple e with
  | Some t => dt ← datetime_of_struct_time t; Ok (Some dt)
  | None =>
      let dt :=
        match parse_date_strict (published e) with
        | Some dt => Some dt
        | None => parse_date_strict (updated e)
        end in
      match dt with
      | Some dt => Ok (Some dt)
      | None => Ok (parse_available_online_date (or_empty (summary e)))
      end
  end.

End Spider1012.

(** ** Printing numbers and dates *)

Module Fmt.

Fixpoint decimal_go (fuel : nat) (n : N) (acc : str) : str :=
  match fuel with
  | O => acc
  | S fuel' =>
      let acc := (0x30 + n mod 10) :: acc in
      if n / 10 =? 0 then acc else decimal_go fuel' (n / 10) acc
  end.

(** [str(n)] of a number that is not negative. *)
Definition decimal (n : Z) : str :=
  let n := Z.to_N n in decimal_go (S (N.to_nat (N.log2 n))) n [].

(** [f"{n:0wd}"]: at least [w] digits. *)
Definition padded (w : nat) (n : Z) : str :=
  let s := decimal n in replicate (w - length s) 0x30 ++ s.

(** [d.strftime("%Y-%m-%d")]; the year is printed with four digits. *)
Definition ymd (d : date) : str :=
  padded 4 (year d) ++ lit "-" ++ padded 2 (month d) ++ lit "-" ++ padded 2 (day d).

Definition hms (t : datetime) : str :=
  padded 2 (hour t) ++ lit ":" ++ padded 2 (minute t) ++ lit ":" ++ padded 2 (second t).

(** [%Z]: the name of the zone, empty for a naive time. *)
Definition zone_name (t : datetime) : str :=
  match tzinfo t with Some UTC => lit "UTC" | None => [] end.

(** [t.strftime("%Y-%m-%d %H:%M:%S %Z")] *)
Definition ymd_hms_z (t : datetime) : str :=
  ymd (dt_date t) ++ lit " " ++ hms t ++ lit " " ++ zone_name t.

(** [t.strftime("%Y-%m-%d %H:%M:%S")] *)
Definition ymd_hms (t : datetime) : str :=
  ymd (dt_date t) ++ lit " " ++ hms t.

End Fmt.

(** ** pandas: the part of [DataFrame] the scripts use *)

Module Pandas.

Inductive cell :=
| CStr (s : str)
| CTime (t : datetime)
| CNaN.

Global Instance cell_eq_dec : EqDecision cell.
Proof. solve_decision. Defined.

(** A frame: the column labels and the rows, a cell per column. *)
Record DataFrame := mkdf { columns : list string; rows : list (list cell) }.

(** A dict of the list [records], in the order its keys were written. *)
Definition record := list (string * cell).

(** [pd.DataFrame(records)] for dicts that all have the same keys: no
    record, no column. *)
Definition of_records (records : list record) : DataFrame :=
  match records with
  | [] => mkdf [] []
  | r :: _ => mkdf (r.*1) ((λ r : record, r.*2) <$> records)
  end.

(** [pd.DataFrame(columns=cols)] *)
Definition of_columns (cols : list string) : DataFrame := mkdf cols [].

(** [df.empty]: no row or no column. *)
Definition empty (df : DataFrame) : bool :=
  bool_decide (rows df = []) || bool_decide (columns df = []).

Fixpoint index_of (name : string) (cols : list string) : option nat :=
  match cols with
  | [] => None
  | c :: cs => if String.eqb c name then Some O else S <$> index_of name cs
  end.

(** The position of a column; a label that is no column is a [KeyError]. *)
Definition loc (name : string) (df : DataFrame) : py nat :=
  match index_of name (columns df) with
  | Some i => Ok i
  | None => Raise (KeyError name)
  end.

Definition cell_at (i : nat) (row : list cell) : cell := default CNaN (row !! i).

(** [df[name]] *)
Definition get_column (name : string) (df : DataFrame) : py (list cell) :=
  i ← loc name df; Ok (cell_at i <$> rows df).

(** [df[name] = values] *)
Definition set_column (name : string) (values : list cell) (df : DataFrame) : DataFrame :=
  match index_of name (columns df) with
  | Some i => mkdf (columns df) (zip_with (λ row v, <[i:=v]> row) (rows df) values)
  | None => mkdf (columns df ++ [name]) (zip_with (λ row v, row ++ [v]) (rows df) values)
  end.

(** The key a time column is sorted by: the instant, [None] for a missing
    value ([NaT]). *)
Definition sort_key (c : cell) : option Z :=
  match c with CTime t => Some (timestamp t) | _ => None end.

(** Ascending, missing values last ([na_position="last"]). *)
Definition key_le (a b : option Z) : Prop :=
  match a, b with
  | Some x, Some y => (x ≤ y)%Z
  | _, None => True
  | None, Some _ => False
  end.

(** [numpy.argsort] as [sort_values] calls it.  The scripts leave [kind] at
    its default, ["quicksort"], which pandas documents as not stable: the
    result is known to list every position once and to put the keys in
    ascending order, and that is all. *)
Class Sorter := {
  argsort : list (option Z) → list nat;
  argsort_perm : ∀ ks, argsort ks ≡ₚ seq 0 (length ks);
  argsort_sorted : ∀ ks, Sorted key_le (omap (λ i, ks !! i) (argsort ks));
}.

(** [values.take(indexer)] *)
Definition take_idx {A} (idx : list nat) (l : list A) : list A :=
  omap (λ i, l !! i) idx.

Definition sort_by `{Srt : Sorter} {A} (key : A → option Z) (l : list A) : list A :=
  take_idx (argsort (key <$> l)) l.

(** A column that holds both naive and zone-aware times cannot be
    compared. *)
Definition has_tz (aware : bool) (c : cell) : bool :=
  match c with
  | CTime t => bool_decide (is_Some (tzinfo t) ↔ aware = true)
  | _ => false
  end.

Definition mixed_zones (cs : list cell) : bool :=
  existsb (has_tz true) cs && existsb (has_tz false) cs.

(** [df.sort_values(by=name, ascending=True)] *)
Definition sort_values `{Srt : Sorter} (name : string) (df : DataFrame) : py DataFrame :=
  i ← loc name df;
  if mixed_zones (cell_at i <$> rows df) then Raise TypeError
  else Ok (mkdf (columns df) (sort_by (λ row, sort_key (cell_at i row)) (rows df))).

(** Keeps an element when no element before it has its key; [seen] holds
    the keys met so far. *)
Fixpoint drop_dups {A K} `{EqDecision K} (key : A → K) (seen : list K) (l : list A) : list A :=
  match l with
  | [] => []
  | x :: l' =>
      if bool_decide (key x ∈ seen) then drop_dups key seen l'
      else x :: drop_dups key (key x :: seen) l'
  end.

(** [df.drop_duplicates(subset=name, keep="first")] *)
Definition drop_duplicates (name : string) (df : DataFrame) : py DataFrame :=
  i ← loc name df;
  Ok (mkdf (columns df) (drop_dups (cell_at i) [] (rows df))).

(** [df.drop(columns=[name])] *)
Definition drop_column (name : string) (df : DataFrame) : py DataFrame :=
  i ← loc name df;
  Ok (mkdf (delete i (columns df)) (delete i <$> rows df)).

(** [pd.concat(dfs, ignore_index=True)]: the columns of all frames in the
    order they first appear, a missing value where a frame lacks one. *)
Definition concat_frames (dfs : list DataFrame) : DataFrame :=
  let cols := drop_dups id [] (dfs ≫= columns) in
  let widen (df : DataFrame) (row : list cell) : list cell :=
    (λ c, match index_of c (columns df) with
          | Some i => cell_at i row
          | None => CNaN
          end) <$> cols in
  mkdf cols (dfs ≫= λ df, widen df <$> rows df).

End Pandas.
Import Pandas.

(** A file written by [to_csv]: its path and the frame. *)
Definition written := (str * DataFrame)%type.

(** The test [pub_date and pub_date.date() == yesterday] of the entry
    loops: the window filter. *)
Definition in_window (pub_date : option datetime) (target : date) : bool :=
  match pub_date with
  | Some t => bool_decide (dt_date t = target)
  | None => false
  end.

(** [feed.feed.get("title", url)] *)
Definition source_title_of (url : str) (f : feed) : str := default url (feed_title f).

(** [entry.title], [entry.link]: an attribute that is missing raises. *)
Definition attribute (name : string) (x : option str) : py str :=
  match x with
  | Some s => Ok s
  | None => Raise (AttributeError name)
  end.

(** The loops [for url in urls: ... for entry in feed.entries: ...],
    given what to do with an entry: the records of all feeds, in order.
    An exception in an entry ends the run. *)
Fixpoint for_entries (body : str → entry → py (list record))
    (source_title : str) (es : list entry) : py (list record) :=
  match es with
  | [] => Ok []
  | e :: es' =>
      r ← body source_title e;
      rest ← for_entries body source_title es';
      Ok (r ++ rest)
  end.

Fixpoint for_feeds (body : str → entry → py (list record))
    (fetched : list (str * feed)) : py (list record) :=
  match fetched with
  | [] => Ok []
  | (url, f) :: fetched' =>
      r ← for_entries body (source_title_of url f) (entries f);
      rest ← for_feeds body fetched';
      Ok (r ++ rest)
  end.

(** ** [spider_yesterday.py] *)

Module spider_yesterday.
Section Script.
Context `{Srt : Sorter}.

(** The [pub_date] of the entry loop. *)
Definition pub_date_of (e : entry) : py (option datetime) :=
  match published_parsed e with
  | Some t => dt ← datetime_of_struct_time t; Ok (Some dt)
  | None =>
      match updated_parsed e with
      | Some t => dt ← datetime_of_struct_time t; Ok (Some dt)
      | None => Ok None
      end
  end.

Definition entry_body (yesterday : date) (source_title : str) (e : entry)
    : py (list record) :=
  pub_date ← pub_date_of e;
  match pub_date with
  | Some t =>
      if in_window pub_date yesterday then
        title ← attribute "title" (title e);
        link ← attribute "link" (link e);
        Ok [ [ ("title", CStr title); ("link", CStr link);
               ("published", CStr (Fmt.ymd_hms_z t));
               ("source", CStr source_title); ("pub_date", CTime t) ]%string ]
      else Ok []
  | None => Ok []
  end.

Definition file_name (yesterday : date) : str :=
  lit "output/news_" ++ Fmt.ymd yesterday ++ lit ".csv".

(** The script, run on the UTC date [today] with the parsed feeds
    [fetched]: the files it writes. *)
Definition main (today : date) (fetched : list (str * feed)) : py (list written) :=
  yesterday ← add_days today (-1);
  records ← for_feeds (entry_body yesterday) fetched;
  let df := of_records records in
  df_sorted ← sort_values "pub_date" df;
  df_dedup ← drop_duplicates "title" df_sorted;
  Ok [ (file_name yesterday, df_dedup) ].

End Script.
End spider_yesterday.

(** ** [spider_yesterday_matoday.py] *)

Module spider_yesterday_matoday.
Section Script.
Context `{L : Libs} `{Srt : Sorter}.

(** [entry.get("summary", "") or entry.get("description", "")] *)
Definition text_of (e : entry) : str :=
  match summary e with
  | Some (c :: s) => c :: s
  | _ => or_empty (description e)
  end.

(** The [pub_date] of the entry loop: the phrase of the summary first,
    the parsed tuples when it gave no date. *)
Definition pub_date_of (e : entry) : py (option datetime) :=
  let text := text_of e in
  let pub_date :=
    match Re.matoday_re_search text with
    | Some g => dateutil_parse g
    | None => None
    end in
  match pub_date with
  | Some t => Ok (Some t)
  | None =>
      match published_parsed e with
      | Some t => dt ← datetime_of_struct_time t; Ok (Some dt)
      | None =>
          match updated_parsed e with
          | Some t => dt ← datetime_of_struct_time t; Ok (Some dt)
          | None => Ok None
          end
      end
  end.

Definition entry_body (yesterday : date) (source_title : str) (e : entry)
    : py (list record) :=
  pub_date ← pub_date_of e;
  match pub_date with
  | Some t =>
      if in_window pub_date yesterday then
        title ← attribute "title" (title e);
        link ← attribute "link" (link e);
        Ok [ [ ("title", CStr title); ("link", CStr link);
               ("published", CStr (Fmt.ymd_hms t));
               ("source", CStr source_title); ("pub_date", CTime t) ]%string ]
      else Ok []
  | None => Ok []
  end.

Definition main (today : date) (fetched : list (str * feed)) : py (list written) :=
  yesterday ← add_days today (-1);
  records ← for_feeds (entry_body yesterday) fetched;
  let df := of_records records in
  if negb (empty df) then
    df_sorted ← sort_values "pub_date" df;
    df_dedup ← drop_duplicates "title" df_sorted;
    Ok [ (spider_yesterday.file_name yesterday, df_dedup) ]
  else Ok [].

End Script.
End spider_yesterday_matoday.

(** ** [spider_yesterday_1012.py]: the main flow *)

Module spider_yesterday_1012.
Section Script.
Context `{L : Libs} `{Srt : Sorter}.

Definition entry_body (yesterday : date) (source_title : str) (e : entry)
    : py (list record) :=
  pub_date ← get_entry_pub_date e;
  match pub_date with
  | Some t =>
      if in_window pub_date yesterday then
        title ← get_entry_title e;
        let link := or_empty (link e) in
        Ok [ [ ("title", CStr title); ("link", CStr link);
               ("published", CStr (Fmt.ymd_hms_z t));
               ("source", CStr source_title); ("pub_date", CTime t) ]%string ]
      else Ok []
  | None => Ok []
  end.

Definition file_name (yesterday : date) : str :=
  lit "output/news12_" ++ Fmt.ymd yesterday ++ lit ".csv".

(** [pd.to_datetime(column, utc=True)]: a time is put into UTC, a string
    is parsed, and a string that cannot be parsed raises. *)
Definition to_datetime_cell (c : cell) : py cell :=
  match c with
  | CTime t =>
      Ok (CTime (mkdatetime (dt_date t) (hour t) (minute t) (second t)
                   (microsecond t) (Some UTC)))
  | CStr s =>
      match pd_to_datetime s with
      | Some t => Ok (CTime t)
      | None => Raise ValueError
      end
  | CNaN => Ok CNaN
  end.

Fixpoint to_datetime_column (cs : list cell) : py (list cell) :=
  match cs with
  | [] => Ok []
  | c :: cs' => c ← to_datetime_cell c; cs' ← to_datetime_column cs'; Ok (c :: cs')
  end.

(** [column.fillna("").str.strip()] *)
Definition title_norm_cell (c : cell) : cell :=
  match c with
  | CStr s => CStr (strip s)
  | CNaN => CStr []
  | CTime _ => CNaN
  end.

(** The [else] branch: what is done to a frame that is not empty. *)
Definition dedup (df : DataFrame) : py DataFrame :=
  pub ← get_column "pub_date" df;
  pub ← to_datetime_column pub;
  let df := set_column "pub_date" pub df in
  titles ← get_column "title" df;
  let df := set_column "title_norm" (title_norm_cell <$> titles) df in
  df_sorted ← sort_values "pub_date" df;
  df_dedup ← drop_duplicates "title_norm" df_sorted;
  drop_column "title_norm" df_dedup.

Definition main (today : date) (fetched : list (str * feed)) : py (list written) :=
  yesterday ← add_days today (-1);
  records ← for_feeds (entry_body yesterday) fetched;
  let df := of_records records in
  if empty df then Ok [ (file_name yesterday, df) ]
  else
    df_dedup ← dedup df;
    Ok [ (file_name yesterday, df_dedup) ].

End Script.
End spider_yesterday_1012.

(** ** [weekly_aggregate.py] *)

Module weekly_aggregate.

(** The files of the run: which paths exist, and what [pd.read_csv] makes
    of one. *)
Record FileSystem := {
  file_exists : str → bool;
  read_csv : str → py DataFrame }.

Definition EMPTY_COLUMNS : list string :=
  ["title"; "link"; "published"; "source"; "pub_date"]%string.

(** [OUTPUT_DIR / f"news_{d.strftime('%Y-%m-%d')}.csv"] *)
Definition daily_file_for (d : date) : str :=
  lit "output/news_" ++ Fmt.ymd d ++ lit ".csv".

(** [WEEKLY_DIR / f"news_week_{iso.year}-W{iso.week:02d}.csv"] for the ISO
    calendar [iso] of the last Sunday. *)
Definition weekly_file_for (iso : IsoCalendarDate) : str :=
  lit "output/weekly/news_week_" ++ Fmt.decimal (iso_year iso) ++ lit "-W"
  ++ Fmt.padded 2 (iso_week iso) ++ lit ".csv".

(** The three dates of the head of [aggregate_last_week]. *)
Record week := mkweek { this_monday : date; last_monday : date; last_sunday : date }.

Definition week_of (today_utc : date) : py week :=
  let iso := isocalendar today_utc in
  this_monday ← add_days today_utc (- (iso_weekday iso - 1));
  last_monday ← add_days this_monday (-7);
  last_sunday ← add_days last_monday 6;
  Ok (mkweek this_monday last_monday last_sunday).

(** [str(x)] of a cell, for [astype(str)]. *)
Definition cell_str (c : cell) : str :=
  match c with
  | CStr s => s
  | CTime t => Fmt.ymd_hms t ++ match tzinfo t with Some UTC => lit "+00:00" | None => [] end
  | CNaN => lit "nan"
  end.

(** [column.fillna("").astype(str).str.strip()] *)
Definition title_norm_cell (c : cell) : cell :=
  match c with
  | CNaN => CStr []
  | c => CStr (strip (cell_str c))
  end.

Section Script.
Context `{L : Libs} `{Srt : Sorter} (fs : FileSystem).

(** [pd.to_datetime(column, utc=True, errors="coerce")] *)
Definition coerce_datetime_cell (c : cell) : cell :=
  match c with
  | CTime t =>
      CTime (mkdatetime (dt_date t) (hour t) (minute t) (second t)
               (microsecond t) (Some UTC))
  | CStr s =>
      match pd_to_datetime s with
      | Some t => CTime t
      | None => CNaN
      end
  | CNaN => CNaN
  end.

Definition normalize_pub_date (df : DataFrame) : DataFrame :=
  match get_column "pub_date" df with
  | Ok pub => set_column "pub_date" (coerce_datetime_cell <$> pub) df
  | Raise _ => df
  end.

(** [while d <= last_sunday: ... d += timedelta(days=1)], with the
    files found so far. *)
Fixpoint collect_files (fuel : nat) (d last_sunday : date) (files : list str)
    : py (list str) :=
  match fuel with
  | O => Raise OutOfFuel
  | S fuel' =>
      if date_leb d last_sunday then
        let f := daily_file_for d in
        let files := if file_exists fs f then files ++ [f] else files in
        d ← add_days d 1;
        collect_files fuel' d last_sunday files
      else Ok files
  end.

(** [for f in files: try: ... dfs.append(df) except Exception: print(...)] *)
Definition read_all (files : list str) : list DataFrame :=
  omap (λ f, match read_csv fs f with
             | Ok df => Some (normalize_pub_date df)
             | Raise _ => None
             end) files.

Definition write_empty (w : week) : py (list written) :=
  let empty := of_columns EMPTY_COLUMNS in
  Ok [ (weekly_file_for (isocalendar (last_sunday w)), empty) ].

(** [aggregate_last_week()], run on the UTC date [today_utc]. *)
Definition aggregate_last_week (today_utc : date) : py (list written) :=
  w ← week_of today_utc;
  files ← collect_files 8 (last_monday w) (last_sunday w) [];
  match files with
  | [] => write_empty w
  | _ =>
      match read_all files with
      | [] => write_empty w
      | dfs =>
          let all_df := concat_frames dfs in
          titles ←
            match get_column "title" all_df with
            | Ok titles => Ok titles
            | Raise _ => Raise (AttributeError "fillna")
            end;
          let all_df := set_column "title_norm" (title_norm_cell <$> titles) all_df in
          all_df ←
            match index_of "pub_date" (columns all_df) with
            | Some _ => sort_values "pub_date" all_df
            | None => Ok all_df
            end;
          dedup ← drop_duplicates "title_norm" all_df;
          dedup ← drop_column "title_norm" dedup;
          Ok [ (weekly_file_for (isocalendar (last_sunday w)), dedup) ]
      end
  end.

End Script.
End weekly_aggregate.

(** ** Typed view of the records of [spider_yesterday_1012.py] *)

(** The five values of a record dict of the entry loop. *)
Record article := mkarticle {
  a_title : str; a_link : str; a_published : str; a_source : str;
  a_pub_date : datetime }.

Definition to_record (a : article) : record :=
  [ ("title", CStr (a_title a)); ("link", CStr (a_link a));
    ("published", CStr (a_published a)); ("source", CStr (a_source a));
    ("pub_date", CTime (a_pub_date a)) ]%string.

Definition to_row (a : article) : list cell := (to_record a).*2.

(** The instant a record is sorted by, and the title it is compared by. *)
Definition published_at (a : article) : Z := timestamp (a_pub_date a).
Definition title_norm (a : article) : str := strip (a_title a).

(** What the [else] branch of [spider_yesterday_1012.py] does to the
    records: [sort_values] by [pub_date], then [drop_duplicates] by the
    trimmed title. *)
Definition dedup_sort `{Srt : Sorter} (arts : list article) : list article :=
  drop_dups title_norm [] (sort_by (λ a, Some (published_at a)) arts).

(** ** Stand-ins for the libraries, to run the model on examples *)

Module Standin.

Definition ascii_decimal (c : N) : option Z :=
  if Re.ascii_digit c then Some (Z.of_N c - 48)%Z else None.

Definition ascii_alnum (c : N) : bool :=
  Re.ascii_digit c || ((0x41 <=? c) && (c <=? 0x5A)) || ((0x61 <=? c) && (c <=? 0x7A)).

(** Up to the first double quote. *)
Fixpoint until_quote (s : str) : option str :=
  match s with
  | [] => None
  | c :: s' => if c =? 0x22 then Some [] else (c ::.) <$> until_quote s'
  end.

(** The text between the quotes of the first [alt=] attribute. *)
Definition first_alt (s : str) : option str :=
  Re.search (λ s, r ← Re.literal id (lit "alt=" ++ [0x22]) s; until_quote r) s.

Definition digits_value (s : str) : option Z :=
  match s with
  | [] => None
  | _ => (λ ds, fold_left (λ acc d, acc * 10 + d)%Z ds 0%Z) <$> mapM ascii_decimal s
  end.

Definition checked (t : py datetime) : option datetime :=
  match t with Ok t => Some t | Raise _ => None end.

(** The six numbers of [YYYY-MM-DDTHH:MM:SSZ]. *)
Definition iso_fields (s : str) : option (Z * Z * Z * Z * Z * Z) :=
  match s with
  | [y1; y2; y3; y4; 0x2D; m1; m2; 0x2D; d1; d2; 0x54;
     h1; h2; 0x3A; i1; i2; 0x3A; s1; s2; 0x5A] =>
      y ← digits_value [y1; y2; y3; y4]; m ← digits_value [m1; m2];
      d ← digits_value [d1; d2]; hh ← digits_value [h1; h2];
      mm ← digits_value [i1; i2]; ss ← digits_value [s1; s2];
      Some (y, m, d, hh, mm, ss)
  | _ => None
  end.

(** Reads [YYYY-MM-DDTHH:MM:SSZ]. *)
Definition iso_utc (s : str) : option datetime :=
  match iso_fields s with
  | Some (y, m, d, hh, mm, ss) => checked (new_datetime y m d hh mm ss (Some UTC))
  | None => None
  end.

(** Reads [D Month YYYY] into a naive midnight. *)
Definition day_month_year (s : str) : option datetime :=
  match split s with
  | [d; m; y] =>
      d ← digits_value d; m ← MONTHS !! ascii_lower m; y ← digits_value y;
      checked (new_datetime y m d 0 0 0 None)
  | _ => None
  end.

Definition libs : Libs := {|
  str_lower := ascii_lower;
  unicode_decimal := ascii_decimal;
  unicode_alnum := ascii_alnum;
  html_unescape := id;
  ALT_IMG_RE_search := first_alt;
  pd_to_datetime := iso_utc;
  dateutil_parse := day_month_year |}.

(** Two orders on the positions of a key array that both put the keys in
    ascending order: ties by rising position, and ties by falling
    position. *)
Definition key_ltb (a b : option Z) : bool :=
  match a, b with
  | Some x, Some y => (x <? y)%Z
  | Some _, None => true
  | None, _ => false
  end.

Definition rising (a b : nat * option Z) : Prop :=
  key_ltb a.2 b.2 = true ∨ (a.2 = b.2 ∧ (a.1 ≤ b.1)%nat).

Definition falling (a b : nat * option Z) : Prop :=
  key_ltb a.2 b.2 = true ∨ (a.2 = b.2 ∧ (b.1 ≤ a.1)%nat).

Global Instance rising_dec a b : Decision (rising a b).
Proof. unfold rising. apply _. Defined.
Global Instance falling_dec a b : Decision (falling a b).
Proof. unfold falling. apply _. Defined.

(** The positions [0 .. n-1] with their keys. *)
Definition indexed (ks : list (option Z)) : list (nat * option Z) :=
  zip (seq 0 (length ks)) ks.

Definition argsort_with (R : relation (nat * option Z)) `{∀ a b, Decision (R a b)}
    (ks : list (option Z)) : list nat :=
  (merge_sort R (indexed ks)).*1.

End Standin.

(** The keys of a record of the entry loops, the columns of a daily file. *)
Definition record_columns : list string :=
  ["title"; "link"; "published"; "source"; "pub_date"]%string.

(** ** Example data *)

Module Ex.

Definition utc (y m d hh mm ss : Z) : datetime :=
  mkdatetime (mkdate y m d) hh mm ss 0 (Some UTC).

Definition stamp (y m d hh mm ss : Z) : struct_time :=
  mktime y m d hh mm ss 0 0 0.

Definition plain_entry (t : str) (l : str) (pp : option struct_time) : entry :=
  mkentry (Some t) (Some l) None None [] pp None None None.

(** Two articles of the same instant. *)
Definition first_in : article :=
  mkarticle (lit "Alpha") (lit "http://one") (lit "2025-10-10 08:00:00 UTC")
    (lit "Feed") (utc 2025 10 10 8 0 0).
Definition second_in : article :=
  mkarticle (lit "Beta") (lit "http://two") (lit "2025-10-10 08:00:00 UTC")
    (lit "Feed") (utc 2025 10 10 8 0 0).
Definition second_same_title : article :=
  mkarticle (lit "Alpha") (lit "http://two") (lit "2025-10-10 08:00:00 UTC")
    (lit "Feed") (utc 2025 10 10 8 0 0).

(** Two articles with one title, an hour apart. *)
Definition at_eight : article :=
  mkarticle (lit "Same title") (lit "http://one") (lit "2025-10-10 08:00:00 UTC")
    (lit "Feed") (utc 2025 10 10 8 0 0).
Definition at_nine : article :=
  mkarticle (lit "  Same title ") (lit "http://two") (lit "2025-10-10 09:00:00 UTC")
    (lit "Feed") (utc 2025 10 10 9 0 0).

(** A feed whose two entries differ in the blanks around the title. *)
Definition blank_titles : list (str * feed) :=
  [ (lit "http://feed",
     mkfeed (Some (lit "Feed"))
       [ plain_entry (lit "Same title") (lit "http://one") (Some (stamp 2025 10 10 8 0 0));
         plain_entry (lit " Same title") (lit "http://two") (Some (stamp 2025 10 10 9 0 0)) ]) ].

(** A feed with nothing of 2025-10-10. *)
Definition nothing_new : list (str * feed) :=
  [ (lit "http://feed",
     mkfeed (Some (lit "Feed"))
       [ plain_entry (lit "Old news") (lit "http://old") (Some (stamp 2025 10 8 8 0 0)) ]) ].

(** An entry with a parsed publication time and a phrase in its summary. *)
Definition tuple_and_phrase : entry :=
  mkentry (Some (lit "T")) (Some (lit "http://x"))
    (Some (lit "Available online 10 October 2025")) None []
    (Some (stamp 2025 10 9 12 0 0)) None None None.

(** An entry with the phrase only. *)
Definition phrase_only : entry :=
  mkentry (Some (lit "T")) (Some (lit "http://x"))
    (Some (lit "<p>Research article. Available  online 10 October 2025, 100123</p>"))
    None [] None None (Some (lit "soon")) None.

(** An entry whose parsed time is no time: the thirtieth of February. *)
Definition no_such_day : entry :=
  mkentry (Some (lit "T")) (Some (lit "http://x")) None None []
    (Some (stamp 2025 2 30 0 0 0)) None None None.

(** An entry with a placeholder title and the headline in an alt text. *)
Definition headline : str :=
  lit "Novel catalyst enables low-temperature CO2 reduction".

Definition graphical : entry :=
  mkentry (Some (lit "Graphical Abstract")) (Some (lit "http://x")) None None
    [ Some (lit "<p><img src=a.png alt=" ++ [0x22] ++ headline ++ [0x22] ++ lit "></p>") ]
    None None None None.

(** An entry with a short title of its own and an alt text three
    characters longer. *)
Definition short_title : entry :=
  mkentry (Some (lit "Short")) (Some (lit "http://x")) None None
    [ Some (lit "<img alt=" ++ [0x22] ++ lit "Shorter." ++ [0x22] ++ lit ">") ]
    None None None None.

(** What [spider_yesterday_1012.py] writes for [blank_titles] on
    2025-10-11. *)
Definition blank_titles_written : list written :=
  [ (lit "output/news12_2025-10-10.csv",
     mkdf record_columns
       [ [ CStr (lit "Same title"); CStr (lit "http://one");
           CStr (lit "2025-10-10 08:00:00 UTC"); CStr (lit "Feed");
           CTime (utc 2025 10 10 8 0 0) ] ]) ].

(** A run of the aggregator that finds no file. *)
Definition no_files : weekly_aggregate.FileSystem :=
  {| weekly_aggregate.file_exists := λ _, false;
     weekly_aggregate.read_csv := λ _, Raise EmptyDataError |}.

End Ex.

(** A [struct_time] whose first six fields [datetime] accepts. *)
Definition valid_struct_time (t : struct_time) : bool :=
  valid_dateb (tm_year t) (tm_mon t) (tm_mday t)
  && valid_timeb (tm_hour t) (tm_min t) (tm_sec t) 0.


(** ** Checking [_ord2ymd] against [_ymd2ord] over one cycle of 400 years *)

Definition ordinal_ok (n : Z) : bool := (toordinal (ord2ymd n) =? n)%Z.

(** One step of the check: the numbers below [st.2] were all right iff
    [st.1]. *)
Definition check_step (st : bool * Z) : bool * Z :=
  (st.1 && ordinal_ok st.2, (st.2 + 1)%Z).

(** The days from ordinal [a] on, [n] of them. *)
Definition days_from (a : Z) (n : nat) : list date := ord2ymd <$> seqZ a (Z.of_nat n).

(** An article of the day [y], with a UTC-aware time. *)
Definition in_day (y : date) (a : article) : Prop :=
  dt_date (a_pub_date a) = y ∧ tzinfo (a_pub_date a) = Some UTC.

(** A record of the entry loop that stands for an article of the day. *)
Definition kept (y : date) (r : record) : Prop := ∃ a, r = to_record a ∧ in_day y a.

(** ** Markup and blanks in cleaned text *)

(** [TAG_RE] matches at the head of [s]: a [<], a character other than
    [>], and a [>] somewhere after it. *)
Definition tag_at (s : str) : bool :=
  match s with
  | c :: r => (c =? 0x3C) && Re.opens_tag r
  | [] => false
  end.

(** [TAG_RE.search(s)] finds a match. *)
Fixpoint has_tag (s : str) : bool :=
  tag_at s || match s with [] => false | _ :: r => has_tag r end.

(** Every blank of [u] is one U+0020 that no blank follows; [blank] says
    that a blank stands before [u]. *)
Fixpoint spaced (blank : bool) (u : str) : bool :=
  match u with
  | [] => true
  | c :: u' =>
      if isspace c then negb blank && (c =? 0x20) && spaced true u'
      else spaced false u'
  end.

(** Text that neither starts nor ends with a blank. *)
Definition trimmed (s : str) : Prop :=
  (∀ c, head s = Some c → isspace c = false)
  ∧ (∀ c, last s = Some c → isspace c = false).

(** ** More example data *)

Module Cases.

(** An entry of 2025-10-10 that has a title and no link, and a feed that
    holds it. *)
Definition no_link : entry :=
  mkentry (Some (lit "Title without a link")) None None None []
    (Some (Ex.stamp 2025 10 10 8 0 0)) None None None.

Definition no_link_feed : list (str * feed) :=
  [ (lit "http://feed", mkfeed (Some (lit "Feed")) [ no_link ]) ].

(** A week in which one daily file exists and cannot be read. *)
Definition unreadable : weekly_aggregate.FileSystem :=
  {| weekly_aggregate.file_exists :=
       λ p, bool_decide (p = lit "output/news_2025-10-10.csv");
     weekly_aggregate.read_csv := λ _, Raise EmptyDataError |}.

(** A week of which only a file of [spider_yesterday_1012.py] is there. *)
Definition only_news12 : weekly_aggregate.FileSystem :=
  {| weekly_aggregate.file_exists :=
       λ p, bool_decide (p = lit "output/news12_2025-10-10.csv");
     weekly_aggregate.read_csv := λ _, Ok (mkdf record_columns []) |}.

(** A week with the daily file of 2025-10-10: two rows whose titles
    differ in a blank, the times as the text of the file has them. *)
Definition friday : DataFrame :=
  mkdf record_columns
    [ [ CStr (lit "Same title"); CStr (lit "http://one");
        CStr (lit "2025-10-10 08:00:00 UTC"); CStr (lit "Feed");
        CStr (lit "2025-10-10T08:00:00Z") ];
      [ CStr (lit " Same title"); CStr (lit "http://two");
        CStr (lit "2025-10-10 09:00:00 UTC"); CStr (lit "Feed");
        CStr (lit "2025-10-10T09:00:00Z") ] ].

Definition one_file : weekly_aggregate.FileSystem :=
  {| weekly_aggregate.file_exists :=
       λ p, bool_decide (p = lit "output/news_2025-10-10.csv");
     weekly_aggregate.read_csv := λ _, Ok friday |}.

(** A feed of [spider_yesterday_matoday.py] with an entry dated by the
    phrase of its summary and an entry dated by its parsed tuple, both of
    2025-10-10. *)
Definition by_phrase : entry :=
  mkentry (Some (lit "A")) (Some (lit "http://a"))
    (Some (lit "Available online 10 October 2025")) None [] None None None None.

Definition by_tuple : entry :=
  Ex.plain_entry (lit "B") (lit "http://b") (Some (Ex.stamp 2025 10 10 8 0 0)).

Definition mixed_feed : list (str * feed) :=
  [ (lit "http://feed", mkfeed (Some (lit "Feed")) [ by_phrase; by_tuple ]) ].


End Cases.

(** ** Checking the year of [_ord2ymd] over one cycle of 400 years *)

(** The year [_ord2ymd] gives an ordinal of the first cycle is the year
    the ordinal lies in. *)
Definition year_ok (n : Z) : bool :=
  let y := year (ord2ymd n) in
  ((1 <=? y) && (y <=? 400) && (days_before_year y <? n)
   && (n <=? days_before_year (y + 1)))%Z.

(** A number of a file name read back: the digits of [Fmt.decimal]. *)
Definition decimal_ok (n : Z) : bool :=
  forallb Re.ascii_digit (Fmt.decimal n)
  && bool_decide (Standin.digits_value (Fmt.decimal n) = Some n).

(** One step of a check of the numbers from 1 on: the numbers below
    [st.2] all passed iff [st.1]. *)
Definition check_with (ok : Z → bool) (st : bool * Z) : bool * Z :=
  (st.1 && ok st.2, (st.2 + 1)%Z).

(** * Properties *)

(** Closes a decidable closed goal by evaluating its decision procedure. *)
Ltac decide_by_compute :=
  refine (bool_decide_unpack _ _); vm_compute; exact I.

(** ** [str.replace] *)

Section Replace.

Implicit Types (k v s : str) (c : N).

Lemma prefixb_nil_r k : prefixb k [] = true → k = [].
Proof. by destruct k. Qed.

Lemma prefixb_app k s : prefixb k (k ++ s) = true.
Proof. induction k as [|a k IH]; simpl; [done|]. by rewrite N.eqb_refl. Qed.

Lemma prefixb_spec k s : prefixb k s = true ↔ ∃ t, s = k ++ t.
Proof.
  split.
  - revert s. induction k as [|a k IH]; intros s H; [by exists s|].
    destruct s as [|b s]; [done|]. simpl in H.
    apply andb_true_iff in H as [Hab H]. apply N.eqb_eq in Hab as ->.
    destruct (IH _ H) as [t ->]. by exists t.
  - intros [t ->]. apply prefixb_app.
Qed.

Lemma occursb_prefix k s : prefixb k s = true → occursb k s = true.
Proof. intros H. destruct s; simpl in *; by rewrite H. Qed.

Lemma occursb_spec k s : occursb k s = true ↔ ∃ a b, s = a ++ k ++ b.
Proof.
  split.
  - induction s as [|x s IH]; simpl; intros H.
    + rewrite orb_false_r in H. apply prefixb_nil_r in H as ->.
      by exists [], [].
    + apply orb_true_iff in H as [H|H].
      * apply prefixb_spec in H as [t Ht]. exists [], t. by rewrite Ht.
      * destruct (IH H) as (a & b & ->). by exists (x :: a), b.
  - intros (a & b & ->). induction a as [|x a IH]; simpl.
    + apply occursb_prefix, prefixb_app.
    + rewrite IH. apply orb_true_r.
Qed.

Lemma occursb_cons_false k x s :
  occursb k (x :: s) = false → prefixb k (x :: s) = false ∧ occursb k s = false.
Proof. simpl. intros H. by apply orb_false_iff in H. Qed.

Lemma occursb_drop k s n : occursb k s = false → k ≠ [] → occursb k (drop n s) = false.
Proof.
  revert n. induction s as [|x s IH]; intros n H Hk.
  - by rewrite drop_nil.
  - destruct n as [|n]; [done|]. simpl drop.
    apply occursb_cons_false in H as [_ H]. by apply IH.
Qed.

Lemma replace_go_skip k v n s : replace_go k v n s = replace_go k v 0 (drop n s).
Proof.
  revert n. induction s as [|x s IH]; intros n; [by destruct n|].
  destruct n as [|n]; [done|]. simpl. apply IH.
Qed.

(** The defining equation of [s.replace(k, v)]. *)
Lemma replace_go_cons k v x s :
  replace_go k v 0 (x :: s) =
  if prefixb k (x :: s)
  then v ++ replace_go k v 0 (drop (length k - 1) s)
  else x :: replace_go k v 0 s.
Proof.
  cbn [replace_go]. destruct (prefixb k (x :: s)); [|done].
  by rewrite replace_go_skip.
Qed.

(** A string free of [k] is left as it is. *)
Lemma replace_go_absent k v s : occursb k s = false → replace_go k v 0 s = s.
Proof.
  induction s as [|x s IH]; [done|]. intros H.
  apply occursb_cons_false in H as [Hp H].
  rewrite replace_go_cons, Hp. by rewrite IH.
Qed.

(** What the output starts with, it started with before, as long as the
    replacement character is not part of it. *)
Lemma prefixb_replace_inv k c p s :
  c ∉ p → prefixb p (replace_go k [c] 0 s) = true → prefixb p s = true.
Proof.
  revert s. induction p as [|y p IH]; intros s Hc H; [done|].
  destruct s as [|x s]; [done|].
  rewrite replace_go_cons in H. destruct (prefixb k (x :: s)).
  - simpl in H. apply andb_true_iff in H as [Hy _].
    apply N.eqb_eq in Hy as ->. exfalso. apply Hc. by left.
  - simpl in H |- *. apply andb_true_iff in H as [-> H]. simpl.
    apply IH; [|done]. intros Hin. apply Hc. by right.
Qed.

Lemma head_not_elem c p s : c ∉ p → p ≠ [] → prefixb p (c :: s) = false.
Proof.
  intros Hc Hp. destruct p as [|y p]; [done|]. simpl.
  destruct (N.eqb_spec y c) as [->|]; [|done].
  exfalso. apply Hc. by left.
Qed.

(** A replacement cannot create an occurrence of a pattern that does not
    contain the replacement character. *)
Lemma replace_go_no_new k c p s :
  c ∉ p → p ≠ [] → occursb p s = false → occursb p (replace_go k [c] 0 s) = false.
Proof.
  intros Hc Hp. remember (length s) as n eqn:Hn.
  revert s Hn. induction (lt_wf n) as [n _ IH]. intros s -> H.
  destruct s as [|x s]; [by destruct p|].
  pose proof H as H0. apply occursb_cons_false in H as [Hpre H].
  rewrite replace_go_cons. destruct (prefixb k (x :: s)).
  - cbn [app occursb]. rewrite head_not_elem by done. simpl.
    eapply IH; [|done|by apply occursb_drop].
    rewrite length_drop. simpl. lia.
  - cbn [occursb]. apply orb_false_iff. split.
    + destruct (prefixb p (x :: replace_go k [c] 0 s)) eqn:E; [|done].
      destruct p as [|y p]; [done|]. simpl in E, Hpre.
      apply andb_true_iff in E as [Hy E]. rewrite Hy in Hpre. simpl in Hpre.
      apply prefixb_replace_inv in E; [congruence|].
      intros Hin. apply Hc. by right.
    + eapply IH; [|done|done]. simpl. lia.
Qed.

(** After [s.replace(k, c)] no occurrence of [k] is left. *)
Lemma replace_go_kills k c s :
  c ∉ k → k ≠ [] → occursb k (replace_go k [c] 0 s) = false.
Proof.
  intros Hc Hk. remember (length s) as n eqn:Hn.
  revert s Hn. induction (lt_wf n) as [n _ IH]. intros s ->.
  destruct s as [|x s]; [by destruct k|].
  rewrite replace_go_cons. destruct (prefixb k (x :: s)) eqn:Hpre.
  - cbn [app occursb]. rewrite head_not_elem by done. simpl.
    eapply IH; [|done]. rewrite length_drop. simpl. lia.
  - cbn [occursb]. apply orb_false_iff. split.
    + destruct (prefixb k (x :: replace_go k [c] 0 s)) eqn:E; [|done].
      destruct k as [|y k]; [done|]. simpl in E, Hpre.
      apply andb_true_iff in E as [Hy E]. rewrite Hy in Hpre. simpl in Hpre.
      apply prefixb_replace_inv in E; [congruence|].
      intros Hin. apply Hc. by right.
    + eapply IH; [|done]. simpl. lia.
Qed.

Lemma replace_nonempty k v s : k ≠ [] → replace k v s = replace_go k v 0 s.
Proof. by destruct k. Qed.

End Replace.

(** ** The replacement table *)

Section Table.

Implicit Types (k v s : str) (t : list (str * str)) (K : list str).

Lemma apply_repl_cons k v t s :
  apply_repl ((k, v) :: t) s = apply_repl t (replace k v s).
Proof. done. Qed.

Lemma apply_repl_no_new K t p s :
  Forall (rule_ok K) t → p ∈ K → p ≠ [] →
  occursb p s = false → occursb p (apply_repl t s) = false.
Proof.
  intros Ht Hp Hne. revert s. induction Ht as [|[k v] t [Hk (c & Hv & Hc)] _ IH];
    intros s Hs; [done|].
  simpl in Hk, Hv. subst v. rewrite apply_repl_cons. apply IH.
  rewrite replace_nonempty by done. apply replace_go_no_new; auto.
Qed.

Lemma apply_repl_kills K t k s :
  Forall (rule_ok K) t → t.*1 ⊆ K → k ∈ t.*1 → occursb k (apply_repl t s) = false.
Proof.
  intros Ht. revert s. induction Ht as [|[k' v] t [Hk (c & Hv & Hc)] Ht IH];
    intros s HK Hin; [by apply elem_of_nil in Hin|].
  simpl in Hk, Hv. subst v. rewrite apply_repl_cons.
  rewrite fmap_cons in HK, Hin. simpl in HK, Hin.
  assert (k' ∈ K) as Hk'K by (apply HK; left).
  assert (t.*1 ⊆ K) as HtK by (intros y Hy; apply HK; by right).
  destruct (decide (k = k')) as [->|Hne].
  - eapply apply_repl_no_new; [done..|].
    rewrite replace_nonempty by done. apply replace_go_kills; auto.
  - apply IH; [done|]. apply elem_of_cons in Hin as [?|?]; done.
Qed.

Lemma apply_repl_absent t s :
  Forall (λ kv, kv.1 ≠ []) t →
  (∀ k, k ∈ t.*1 → occursb k s = false) → apply_repl t s = s.
Proof.
  intros Ht. induction Ht as [|[k v] t Hk _ IH]; intros Hs; [done|].
  simpl in Hk. rewrite apply_repl_cons, replace_nonempty by done.
  rewrite replace_go_absent by (apply Hs; rewrite fmap_cons; left).
  apply IH. intros k' Hk'. apply Hs. rewrite fmap_cons. by right.
Qed.

(** Plain text in front of a string is copied. *)
Lemma replace_go_plain_l k v a s :
  k ≠ [] → (∀ x, x ∈ a → x ∉ k) →
  replace_go k v 0 (a ++ s) = a ++ replace_go k v 0 s.
Proof.
  intros Hk. induction a as [|x a IH]; intros Ha; [done|].
  rewrite <- app_comm_cons, replace_go_cons.
  rewrite head_not_elem; [|apply Ha; left|done].
  rewrite IH; [done|]. intros y Hy. apply Ha. by right.
Qed.

Lemma prefixb_app_plain k s b :
  k ≠ [] → (∀ x, x ∈ b → x ∉ k) → prefixb k (s ++ b) = prefixb k s.
Proof.
  revert s. induction k as [|y k IH]; intros s Hk Hb; [done|].
  destruct s as [|x s].
  - simpl. destruct b as [|z b]; [done|].
    destruct (N.eqb_spec y z) as [->|]; [|done].
    exfalso. eapply Hb; left.
  - simpl. destruct (y =? x); [|done]. simpl.
    destruct k as [|y' k]; [done|]. apply IH; [done|].
    intros z Hz Hin. apply (Hb z Hz). by right.
Qed.

Lemma prefixb_length k s : prefixb k s = true → (length k ≤ length s)%nat.
Proof.
  intros H. apply prefixb_spec in H as [t ->]. rewrite length_app. lia.
Qed.

Lemma occursb_plain k b :
  k ≠ [] → (∀ x, x ∈ b → x ∉ k) → occursb k b = false.
Proof.
  intros Hk. induction b as [|z b IHb]; intros Hb; [by destruct k|].
  cbn [occursb]. rewrite head_not_elem; [|apply Hb; left|done]. simpl.
  apply IHb. intros y Hy. apply Hb. by right.
Qed.

(** Plain text behind a string is copied. *)
Lemma replace_go_plain_r k v s b :
  k ≠ [] → (∀ x, x ∈ b → x ∉ k) →
  replace_go k v 0 (s ++ b) = replace_go k v 0 s ++ b.
Proof.
  intros Hk Hb. remember (length s) as n eqn:Hn.
  revert s Hn. induction (lt_wf n) as [n _ IH]. intros s ->.
  destruct s as [|x s].
  - simpl. apply replace_go_absent. by apply occursb_plain.
  - rewrite <- app_comm_cons, !replace_go_cons, app_comm_cons.
    rewrite prefixb_app_plain by done.
    destruct (prefixb k (x :: s)) eqn:Hpre.
    + apply prefixb_length in Hpre. simpl in Hpre.
      rewrite drop_app_le by lia. rewrite <- app_assoc. f_equal.
      eapply IH; [|done]. rewrite length_drop. simpl. lia.
    + rewrite <- app_comm_cons. f_equal. eapply IH; [|done]. simpl. lia.
Qed.

Lemma apply_repl_frame K t a s b :
  Forall (λ kv, kv.1 ≠ []) t → t.*1 ⊆ K → plain K a → plain K b →
  apply_repl t (a ++ s ++ b) = a ++ apply_repl t s ++ b.
Proof.
  intros Ht. revert s. induction Ht as [|[k v] t Hk _ IH]; intros s HK Ha Hb; [done|].
  simpl in Hk. rewrite !apply_repl_cons, !replace_nonempty by done.
  rewrite fmap_cons in HK. simpl in HK.
  assert (k ∈ K) as HkK by (apply HK; left).
  rewrite replace_go_plain_l, replace_go_plain_r; [|done|..|done|].
  - apply IH; [|done..]. intros y Hy. apply HK. by right.
  - intros x Hx. by apply Hb.
  - intros x Hx. by apply Ha.
Qed.

End Table.

(** ** [fix_mojibake] *)

Lemma repl_rules_ok : Forall (rule_ok repl.*1) repl.
Proof.
  set (K := repl.*1). unfold repl.
  repeat (apply Forall_cons; split;
    [split; [done|]; eexists; split; [reflexivity|];
     apply Forall_forall; decide_by_compute|]).
  apply Forall_nil_2.
Qed.

Lemma repl_keys_nonempty : Forall (λ kv : str * str, kv.1 ≠ []) repl.
Proof. eapply Forall_impl; [apply repl_rules_ok|]. by intros kv [? _]. Qed.

Lemma fix_mojibake_apply s : s ≠ [] → fix_mojibake s = apply_repl repl s.
Proof. by destruct s. Qed.

Lemma fix_mojibake_no_key s k : k ∈ repl.*1 → occursb k (fix_mojibake s) = false.
Proof.
  intros Hk. destruct s as [|x s].
  - simpl. apply list_elem_of_fmap in Hk as ([k' v] & -> & Hin).
    pose proof repl_keys_nonempty as H.
    rewrite Forall_forall in H. apply H in Hin. simpl in *.
    by destruct k'.
  - rewrite fix_mojibake_apply by done.
    by eapply apply_repl_kills; [apply repl_rules_ok| |].
Qed.

Lemma fix_mojibake_clean s :
  (∀ k, k ∈ repl.*1 → occursb k s = false) → fix_mojibake s = s.
Proof.
  intros H. destruct s as [|x s]; [done|].
  rewrite fix_mojibake_apply by done.
  apply apply_repl_absent; [apply repl_keys_nonempty|done].
Qed.

(** C9.  [fix_mojibake] is idempotent; text that holds none of the
    corrupted sequences is returned as it is; the result of a repair holds
    none of them; and no corrupted sequence occurs in a replacement text. *)
Theorem fix_mojibake_idempotent :
  (∀ s, fix_mojibake (fix_mojibake s) = fix_mojibake s)
  ∧ (∀ s, (∀ k, k ∈ repl.*1 → occursb k s = false) → fix_mojibake s = s)
  ∧ (∀ s k, k ∈ repl.*1 → occursb k (fix_mojibake s) = false)
  ∧ (∀ k v, k ∈ repl.*1 → v ∈ repl.*2 → occursb k v = false).
Proof.
  split_and!.
  - intros s. apply fix_mojibake_clean. intros k. apply fix_mojibake_no_key.
  - apply fix_mojibake_clean.
  - apply fix_mojibake_no_key.
  - intros k v Hk Hv.
    assert (Forall (λ k, Forall (λ v, occursb k v = false) repl.*2) repl.*1) as H
      by (decide_by_compute).
    rewrite Forall_forall in H. specialize (H k Hk).
    rewrite Forall_forall in H. by apply H.
Qed.

(** C10.  The table has seven rules with seven different keys; each key on
    its own, and each key between stretches of text that share no
    character with a key, is rewritten to the replacement of its own rule;
    the two keys of a dash and the two keys of a double quote are
    different sequences with a rule each. *)
Theorem repl_keeps_every_rule :
  NoDup repl.*1 ∧ length repl = 7%nat
  ∧ (∀ k v, (k, v) ∈ repl → fix_mojibake k = v)
  ∧ (∀ k v a b, (k, v) ∈ repl → plain repl.*1 a → plain repl.*1 b →
       fix_mojibake (a ++ k ++ b) = a ++ v ++ b)
  ∧ ([0xE2; 0x80; 0x93] ≠ [0xE2; 0x80; 0x94]
     ∧ fix_mojibake [0xE2; 0x80; 0x93] = lit "-"
     ∧ fix_mojibake [0xE2; 0x80; 0x94] = lit "-")
  ∧ ([0xE2; 0x80; 0x9C] ≠ [0xE2; 0x80; 0x9D]
     ∧ fix_mojibake [0xE2; 0x80; 0x9C] = [0x22]
     ∧ fix_mojibake [0xE2; 0x80; 0x9D] = [0x22]).
Proof.
  assert (∀ k v, (k, v) ∈ repl → fix_mojibake k = v) as Hown.
  { intros k v Hin.
    assert (Forall (λ kv, fix_mojibake kv.1 = kv.2) repl) as H
      by (decide_by_compute).
    rewrite Forall_forall in H. by apply (H (k, v)). }
  split_and!; try done.
  - decide_by_compute.
  - intros k v a b Hin Ha Hb.
    assert (k ≠ []) as Hk.
    { pose proof repl_keys_nonempty as H. rewrite Forall_forall in H.
      by apply (H (k, v)). }
    rewrite fix_mojibake_apply by (destruct a, k; done).
    rewrite (apply_repl_frame repl.*1); [|apply repl_keys_nonempty|done..].
    rewrite <- fix_mojibake_apply by done. by rewrite (Hown k v).
Qed.

(** ** Sorting and dropping duplicates *)

Global Instance key_le_trans : Transitive key_le.
Proof. intros [x|] [y|] [z|]; simpl; try done. lia. Qed.

Global Instance key_le_total : Total key_le.
Proof. intros [x|] [y|]; simpl; auto. lia. Qed.

Section Sorting.
Context `{Srt : Sorter} {A : Type}.
Implicit Types (l : list A) (key : A → option Z) (idx : list nat).

Lemma take_idx_seq_app (p l : list A) :
  take_idx (seq (length p) (length l)) (p ++ l) = l.
Proof.
  revert p. induction l as [|x l IH]; intros p; [done|].
  unfold take_idx in *. cbn [length seq omap list_omap].
  rewrite list_lookup_middle by done.
  f_equal. specialize (IH (p ++ [x])).
  rewrite length_app, <- app_assoc in IH. simpl in IH.
  by rewrite Nat.add_1_r in IH.
Qed.

Lemma take_idx_all l : take_idx (seq 0 (length l)) l = l.
Proof. apply (take_idx_seq_app []). Qed.

Lemma take_idx_fmap {B} (f : A → B) idx l :
  take_idx idx (f <$> l) = f <$> take_idx idx l.
Proof.
  unfold take_idx. induction idx as [|i idx IH]; [done|].
  cbn [omap list_omap]. rewrite list_lookup_fmap.
  destruct (l !! i); simpl; by rewrite IH.
Qed.

Lemma take_idx_perm idx l : idx ≡ₚ seq 0 (length l) → take_idx idx l ≡ₚ l.
Proof.
  intros H. unfold take_idx. rewrite H. fold (take_idx (seq 0 (length l)) l).
  by rewrite take_idx_all.
Qed.

(** [sort_values] rearranges the rows and loses none. *)
Lemma sort_by_perm key l : sort_by key l ≡ₚ l.
Proof.
  unfold sort_by. apply take_idx_perm.
  rewrite argsort_perm. by rewrite length_fmap.
Qed.

Lemma Sorted_fmap_inv {B} (f : A → B) (R : relation B) l :
  Sorted R (f <$> l) → Sorted (λ a b, R (f a) (f b)) l.
Proof.
  induction l as [|x l IH]; [constructor|].
  rewrite fmap_cons. intros H. apply Sorted_inv in H as [Hs Hh].
  constructor; [by apply IH|].
  destruct l as [|y l]; constructor. by inv Hh.
Qed.

(** [sort_values] puts the keys in ascending order. *)
Lemma sort_by_sorted key l :
  Sorted (λ a b, key_le (key a) (key b)) (sort_by key l).
Proof.
  apply Sorted_fmap_inv. unfold sort_by.
  rewrite <- take_idx_fmap. apply argsort_sorted.
Qed.

End Sorting.

Lemma sort_by_fmap `{Srt : Sorter} {A B} (f : B → A) (key : A → option Z) (l : list B) :
  sort_by key (f <$> l) = f <$> sort_by (key ∘ f) l.
Proof.
  unfold sort_by. rewrite take_idx_fmap. by rewrite <- list_fmap_compose.
Qed.

Section DropDups.
Context {A K : Type} `{EqDecision K}.
Implicit Types (l : list A) (key : A → K) (seen : list K).

Lemma drop_dups_sublist key seen l : drop_dups key seen l `sublist_of` l.
Proof.
  revert seen. induction l as [|x l IH]; intros seen; [done|]. simpl.
  case_bool_decide; [by apply sublist_cons|by apply sublist_skip].
Qed.

Lemma drop_dups_not_seen key seen l x :
  x ∈ drop_dups key seen l → key x ∉ seen.
Proof.
  revert seen. induction l as [|y l IH]; intros seen; simpl.
  - by intros ?%elem_of_nil.
  - case_bool_decide as Hy; [apply IH|].
    intros [->|Hin]%elem_of_cons; [done|].
    apply IH in Hin. intros ?. apply Hin. by right.
Qed.

(** No key is kept twice. *)
Lemma drop_dups_NoDup key seen l : NoDup (key <$> drop_dups key seen l).
Proof.
  revert seen. induction l as [|y l IH]; intros seen; simpl; [constructor|].
  case_bool_decide as Hy; [apply IH|].
  rewrite fmap_cons. constructor; [|apply IH].
  intros (z & Hz & Hin)%list_elem_of_fmap.
  apply drop_dups_not_seen in Hin. apply Hin. rewrite <- Hz. by left.
Qed.

(** What is kept is the first element of the list with its key. *)
Lemma drop_dups_first key seen l x :
  x ∈ l → key x ∉ seen →
  ∃ l1 y l2, l = l1 ++ y :: l2 ∧ key y = key x
    ∧ (∀ z, z ∈ l1 → key z ≠ key x) ∧ y ∈ drop_dups key seen l.
Proof.
  revert seen. induction l as [|y l IH]; intros seen Hin Hseen.
  { by apply elem_of_nil in Hin. }
  destruct (decide (key y = key x)) as [Heq|Hne].
  - exists [], y, l. split_and!; [done|done|by intros ? ?%elem_of_nil|].
    simpl. rewrite bool_decide_eq_false_2 by (by rewrite Heq). by left.
  - apply elem_of_cons in Hin as [->|Hin]; [done|].
    simpl. case_bool_decide as Hy.
    + destruct (IH seen Hin Hseen) as (l1 & z & l2 & -> & Hz & Hl1 & Hk).
      exists (y :: l1), z, l2. split_and!; [done|done| |done].
      intros w [->|Hw]%elem_of_cons; [done|by apply Hl1].
    + destruct (IH (key y :: seen) Hin) as (l1 & z & l2 & -> & Hz & Hl1 & Hk).
      { intros [?|?]%elem_of_cons; [by apply Hne|done]. }
      exists (y :: l1), z, l2. split_and!; [done|done| |by right].
      intros w [->|Hw]%elem_of_cons; [done|by apply Hl1].
Qed.

Lemma drop_dups_fmap {B} (f : B → A) key seen (l : list B) :
  drop_dups key seen (f <$> l) = f <$> drop_dups (key ∘ f) seen l.
Proof.
  revert seen. induction l as [|y l IH]; intros seen; [done|].
  rewrite fmap_cons. simpl. case_bool_decide; by rewrite IH.
Qed.

Lemma drop_dups_ext key key' seen l :
  (∀ x, x ∈ l → key x = key' x) → drop_dups key seen l = drop_dups key' seen l.
Proof.
  revert seen. induction l as [|y l IH]; intros seen H; [done|]. simpl.
  rewrite (H y) by left.
  case_bool_decide; rewrite IH; try done; intros x Hx; apply H; by right.
Qed.

End DropDups.

Lemma StronglySorted_sublist {A} (R : relation A) (l k : list A) :
  l `sublist_of` k → StronglySorted R k → StronglySorted R l.
Proof.
  induction 1 as [|x l k Hs IH|x l k Hs IH]; intros Hk; [constructor|..].
  - apply StronglySorted_inv in Hk as [Hk Hx]. constructor; [by apply IH|].
    rewrite Forall_forall in Hx |- *. intros y Hy. apply Hx.
    by eapply elem_of_sublist.
  - apply StronglySorted_inv in Hk as [Hk _]. by apply IH.
Qed.

(** ** The two stand-in sorts are sorts *)

Section ArgsortWith.
Context (R : relation (nat * option Z)) `{∀ a b, Decision (R a b)} `{!Total R}.
Context (R_keys : ∀ a b, R a b → key_le a.2 b.2).

Lemma indexed_lookup (ks : list (option Z)) i k :
  (i, k) ∈ Standin.indexed ks → ks !! i = Some k.
Proof.
  unfold Standin.indexed. intros (j & Hj)%list_elem_of_lookup_1.
  apply lookup_zip_with_Some in Hj as (i' & k' & [= <- <-] & Hi & Hk).
  apply lookup_seq in Hi as [-> _]. done.
Qed.

Lemma omap_lookup_pairs (ks : list (option Z)) (s : list (nat * option Z)) :
  (∀ i k, (i, k) ∈ s → ks !! i = Some k) → omap (λ i, ks !! i) s.*1 = s.*2.
Proof.
  induction s as [|[i k] s IH]; intros Hs; [done|].
  rewrite !fmap_cons. cbn [omap list_omap fst snd].
  rewrite (Hs i k) by left. f_equal. apply IH.
  intros j k' Hin. apply Hs. by right.
Qed.

Lemma argsort_with_perm (ks : list (option Z)) :
  Standin.argsort_with R ks ≡ₚ seq 0 (length ks).
Proof.
  unfold Standin.argsort_with. rewrite merge_sort_Permutation.
  unfold Standin.indexed. rewrite fst_zip; [done|]. by rewrite length_seq.
Qed.

Lemma argsort_with_sorted (ks : list (option Z)) :
  Sorted key_le (omap (λ i, ks !! i) (Standin.argsort_with R ks)).
Proof.
  unfold Standin.argsort_with. rewrite omap_lookup_pairs.
  - eapply Sorted_fmap; [|by apply Sorted_merge_sort]. apply R_keys.
  - intros i k Hin. apply indexed_lookup.
    by rewrite <- (merge_sort_Permutation R).
Qed.

End ArgsortWith.

Lemma key_ltb_le a b : Standin.key_ltb a b = true → key_le a b.
Proof. destruct a, b; simpl; try done. lia. Qed.

Lemma key_ltb_trichotomy a b :
  Standin.key_ltb a b = true ∨ a = b ∨ Standin.key_ltb b a = true.
Proof.
  destruct a as [x|], b as [y|]; simpl; auto.
  destruct (Z.lt_trichotomy x y) as [?|[->|?]]; [left|auto|right; right]; lia.
Qed.

Global Instance rising_total : Total Standin.rising.
Proof.
  intros [i a] [j b]. unfold Standin.rising. simpl.
  destruct (key_ltb_trichotomy a b) as [?|[->|?]]; auto.
  destruct (Nat.le_ge_cases i j); auto.
Qed.

Global Instance falling_total : Total Standin.falling.
Proof.
  intros [i a] [j b]. unfold Standin.falling. simpl.
  destruct (key_ltb_trichotomy a b) as [?|[->|?]]; auto.
  destruct (Nat.le_ge_cases i j); auto.
Qed.

Lemma rising_keys a b : Standin.rising a b → key_le a.2 b.2.
Proof. intros [?|[-> _]]; [by apply key_ltb_le|]. by destruct (b.2); simpl. Qed.

Lemma falling_keys a b : Standin.falling a b → key_le a.2 b.2.
Proof. intros [?|[-> _]]; [by apply key_ltb_le|]. by destruct (b.2); simpl. Qed.

(** A sort that keeps rows with equal keys in their order. *)
Definition stable_sorter : Sorter := {|
  argsort := Standin.argsort_with Standin.rising;
  argsort_perm := argsort_with_perm Standin.rising;
  argsort_sorted := argsort_with_sorted Standin.rising rising_keys |}.

(** A sort that turns rows with equal keys around. *)
Definition turning_sorter : Sorter := {|
  argsort := Standin.argsort_with Standin.falling;
  argsort_perm := argsort_with_perm Standin.falling;
  argsort_sorted := argsort_with_sorted Standin.falling falling_keys |}.

(** ** [dedup_sort]: the frame and the list of articles *)

Lemma py_bind_ok {A B} (a : A) (f : A → py B) : Ok a ≫= f = f a.
Proof. done. Qed.

Lemma py_bind_raise {A B} (e : exn) (f : A → py B) : Raise e ≫= f = Raise e.
Proof. done. Qed.

Ltac py_step := rewrite ?py_bind_ok, ?py_bind_raise; cbv beta.

(** Evaluates the position of a column in a frame whose labels are known. *)
Ltac loc_eval :=
  repeat match goal with
  | |- context [loc ?n ?df] =>
      let r := eval vm_compute in (loc n (mkdf (columns df) [])) in
      change (loc n df) with r
  end.

Lemma zip_with_fmap_same {A B C D} (f : B → C → D) (g : A → B) (h : A → C) (l : list A) :
  zip_with f (g <$> l) (h <$> l) = (λ x, f (g x) (h x)) <$> l.
Proof. induction l as [|x l IH]; [done|]. rewrite !fmap_cons. simpl. by rewrite IH. Qed.

Lemma drop_dups_inj {A K K'} `{EqDecision K} `{EqDecision K'}
    (g : K → K') `{!Inj (=) (=) g} (key : A → K) seen (l : list A) :
  drop_dups (g ∘ key) (g <$> seen) l = drop_dups key seen l.
Proof.
  revert seen. induction l as [|x l IH]; intros seen; [done|]. simpl.
  rewrite <- (IH (key x :: seen)), <- IH, fmap_cons.
  assert (g (key x) ∈ g <$> seen ↔ key x ∈ seen) as Hiff.
  { rewrite list_elem_of_fmap. split; [|by eauto].
    by intros (y & ->%(inj g) & Hy). }
  by rewrite (bool_decide_ext _ _ Hiff).
Qed.

Global Instance CStr_inj : Inj (=) (=) CStr.
Proof. by intros ?? [= ->]. Qed.

Section Frame1012.
Context `{L : Libs} `{Srt : Sorter}.

Definition with_title_norm (a : article) : list cell :=
  to_row a ++ [CStr (title_norm a)].

Lemma of_records_articles (arts : list article) :
  arts ≠ [] → of_records (to_record <$> arts) = mkdf record_columns (to_row <$> arts).
Proof.
  destruct arts as [|a arts]; [done|]. intros _.
  change (of_records (to_record <$> a :: arts))
    with (mkdf (to_record a).*1 ((λ r : record, r.*2) <$> (to_record <$> a :: arts))).
  f_equal. by rewrite <- list_fmap_compose.
Qed.

Lemma to_datetime_column_utc (arts : list article) :
  Forall (λ a, tzinfo (a_pub_date a) = Some UTC) arts →
  spider_yesterday_1012.to_datetime_column ((λ a, CTime (a_pub_date a)) <$> arts)
  = Ok ((λ a, CTime (a_pub_date a)) <$> arts).
Proof.
  induction 1 as [|a arts Ha _ IH]; [done|].
  rewrite fmap_cons. cbn [spider_yesterday_1012.to_datetime_column].
  rewrite IH. destruct a as [? ? ? ? [d hh mm ss us tzi]].
  simpl in Ha. subst tzi. done.
Qed.

Lemma mixed_zones_utc (arts : list article) :
  Forall (λ a, tzinfo (a_pub_date a) = Some UTC) arts →
  mixed_zones ((λ a, CTime (a_pub_date a)) <$> arts) = false.
Proof.
  intros H. unfold mixed_zones. apply andb_false_iff. right.
  induction H as [|a arts Ha _ IH]; [done|].
  rewrite fmap_cons. simpl. rewrite IH, Ha. done.
Qed.

(** On the records of a run that kept at least one article, the [else]
    branch of the script computes [dedup_sort]. *)
Lemma dedup_frame (arts : list article) :
  arts ≠ [] → Forall (λ a, tzinfo (a_pub_date a) = Some UTC) arts →
  spider_yesterday_1012.dedup (of_records (to_record <$> arts))
  = Ok (mkdf record_columns (to_row <$> dedup_sort arts)).
Proof.
  intros Hne Hutc. rewrite of_records_articles by done.
  unfold spider_yesterday_1012.dedup.
  assert (get_column "pub_date" (mkdf record_columns (to_row <$> arts))
          = Ok ((λ a, CTime (a_pub_date a)) <$> arts)) as ->.
  { unfold get_column. simpl. by rewrite <- list_fmap_compose. }
  py_step. rewrite to_datetime_column_utc by done. py_step.
  assert (set_column "pub_date" ((λ a, CTime (a_pub_date a)) <$> arts)
            (mkdf record_columns (to_row <$> arts))
          = mkdf record_columns (to_row <$> arts)) as ->.
  { unfold set_column. simpl. f_equal. rewrite zip_with_fmap_same.
    apply list_fmap_ext. by intros i [? ? ? ? ?] _. }
  assert (get_column "title" (mkdf record_columns (to_row <$> arts))
          = Ok ((λ a, CStr (a_title a)) <$> arts)) as ->.
  { unfold get_column. simpl. by rewrite <- list_fmap_compose. }
  py_step. rewrite <- list_fmap_compose.
  assert (set_column "title_norm"
            (spider_yesterday_1012.title_norm_cell ∘ (λ a, CStr (a_title a)) <$> arts)
            (mkdf record_columns (to_row <$> arts))
          = mkdf (record_columns ++ ["title_norm"%string]) (with_title_norm <$> arts)) as ->.
  { unfold set_column. simpl. f_equal. by rewrite zip_with_fmap_same. }
  unfold sort_values. loc_eval. py_step; cbn [rows columns].
  rewrite <- list_fmap_compose.
  rewrite (list_fmap_ext (cell_at 4 ∘ with_title_norm) (λ a, CTime (a_pub_date a)) arts)
    by done.
  rewrite mixed_zones_utc by done.
  py_step. unfold drop_duplicates. loc_eval.
  py_step; cbn [rows columns].
  rewrite sort_by_fmap, drop_dups_fmap.
  unfold drop_column. loc_eval. py_step; cbn [rows columns].
  f_equal. f_equal. rewrite <- list_fmap_compose. unfold dedup_sort.
  rewrite <- (drop_dups_inj CStr title_norm).
  apply list_fmap_ext. by intros i [? ? ? ? ?] _.
Qed.

End Frame1012.

(** ** C2: sorting by time, then keeping the first of each title *)

Section DedupSort.
Context `{Srt : Sorter}.

Global Instance published_le_trans :
  Transitive (λ a b : article, (published_at a ≤ published_at b)%Z).
Proof. intros a b c. lia. Qed.

Lemma sort_by_published (arts : list article) :
  Sorted (λ a b, (published_at a ≤ published_at b)%Z)
    (sort_by (λ a, Some (published_at a)) arts).
Proof. apply (sort_by_sorted (λ a, Some (published_at a))). Qed.

(** The place of a first occurrence of a key is unique. *)
Lemma first_occurrence_unique {A K} (key : A → K) (k : K) (l1 l1' l2 l2' : list A) x y :
  l1 ++ x :: l2 = l1' ++ y :: l2' → key x = k → key y = k →
  (∀ z, z ∈ l1 → key z ≠ k) → (∀ z, z ∈ l1' → key z ≠ k) → x = y.
Proof.
  revert l1'. induction l1 as [|a l1 IH]; intros [|b l1'] Heq Hx Hy H1 H1'.
  - by simplify_eq/=.
  - simplify_eq/=. exfalso. eapply H1'; [left|done].
  - simplify_eq/=. exfalso. eapply H1; [left|done].
  - simplify_eq/=. eapply IH; [done..| |].
    + intros z Hz. apply H1. by right.
    + intros z Hz. apply H1'. by right.
Qed.

Lemma drop_dups_elem_first {A K} `{EqDecision K} (key : A → K) seen (l : list A) x :
  x ∈ drop_dups key seen l →
  ∃ l1 l2, l = l1 ++ x :: l2 ∧ (∀ z, z ∈ l1 → key z ≠ key x).
Proof.
  revert seen. induction l as [|y l IH]; intros seen; simpl.
  { by intros ?%elem_of_nil. }
  case_bool_decide as Hy.
  - intros Hin. pose proof (drop_dups_not_seen _ _ _ _ Hin) as Hns.
    destruct (IH _ Hin) as (l1 & l2 & -> & H1).
    exists (y :: l1), l2. split; [done|].
    intros z [->|Hz]%elem_of_cons; [congruence|by apply H1].
  - intros [->|Hin]%elem_of_cons.
    + exists [], l. split; [done|]. by intros ? ?%elem_of_nil.
    + pose proof (drop_dups_not_seen _ _ _ _ Hin) as Hns.
      destruct (IH _ Hin) as (l1 & l2 & -> & H1).
      exists (y :: l1), l2. split; [done|].
      intros z [->|Hz]%elem_of_cons; [|by apply H1].
      intros Heq. apply Hns. rewrite <- Heq. by left.
Qed.

Lemma dedup_sort_pair (a b : article) :
  title_norm a = title_norm b → (published_at a < published_at b)%Z →
  dedup_sort [a; b] = [a] ∧ dedup_sort [b; a] = [a].
Proof.
  intros Ht Hlt.
  assert (∀ l, l ≡ₚ [a; b] → sort_by (λ a, Some (published_at a)) l = [a; b]) as Hs.
  { intros l Hl. pose proof (sort_by_published l) as Hsorted.
    assert ([a; b] ≡ₚ sort_by (λ a, Some (published_at a)) l) as Hp
      by (symmetry; etrans; [apply sort_by_perm|done]).
    apply Permutation_length_2_inv in Hp as [Hp|Hp]; [done|].
    rewrite Hp in Hsorted. apply Sorted_inv in Hsorted as [_ Hh]. inv Hh. lia. }
  assert (drop_dups title_norm [] [a; b] = [a]) as Hd.
  { simpl.
    rewrite (bool_decide_eq_true_2 (title_norm b ∈ [title_norm a])); [done|].
    rewrite Ht. by left. }
  unfold dedup_sort. rewrite !Hs; [done|apply perm_swap|done].
Qed.

End DedupSort.

(** C2, as the scripts have it.  [sort_values] rearranges the articles into
    ascending order of [pub_date]; [drop_duplicates] then keeps an article
    exactly when no article before it in that order has its trimmed title.
    So no trimmed title is kept twice, every title of the input is kept
    with its earliest instant, the output is in ascending order, and of two
    articles with one trimmed title and different instants only the earlier
    one is kept, in whichever order they came.  The [else] branch of
    [spider_yesterday_1012.py] computes this on its records. *)
Theorem dedup_sort_keeps_earliest `{L : Libs} `{Srt : Sorter} (arts : list article) :
  let sorted := sort_by (λ a, Some (published_at a)) arts in
  (sorted ≡ₚ arts ∧ Sorted (λ a b, (published_at a ≤ published_at b)%Z) sorted)
  ∧ (∀ a, a ∈ dedup_sort arts ↔
       ∃ l1 l2, sorted = l1 ++ a :: l2 ∧ ∀ z, z ∈ l1 → title_norm z ≠ title_norm a)
  ∧ NoDup (title_norm <$> dedup_sort arts)
  ∧ (∀ a, a ∈ arts → ∃ b, b ∈ dedup_sort arts ∧ title_norm b = title_norm a
       ∧ (published_at b ≤ published_at a)%Z)
  ∧ Sorted (λ a b, (published_at a ≤ published_at b)%Z) (dedup_sort arts)
  ∧ (∀ a b, title_norm a = title_norm b → (published_at a < published_at b)%Z →
       dedup_sort [a; b] = [a] ∧ dedup_sort [b; a] = [a])
  ∧ (dedup_sort [Ex.at_eight; Ex.at_nine] = [Ex.at_eight]
     ∧ dedup_sort [Ex.at_nine; Ex.at_eight] = [Ex.at_eight])
  ∧ (arts ≠ [] → Forall (λ a, tzinfo (a_pub_date a) = Some UTC) arts →
       spider_yesterday_1012.dedup (of_records (to_record <$> arts))
       = Ok (mkdf record_columns (to_row <$> dedup_sort arts))).
Proof.
  intros sorted.
  assert (sorted ≡ₚ arts) as Hperm by apply sort_by_perm.
  assert (Sorted (λ a b, (published_at a ≤ published_at b)%Z) sorted) as Hsorted
    by apply sort_by_published.
  assert (StronglySorted (λ a b, (published_at a ≤ published_at b)%Z) sorted) as Hstrong
    by (by apply (@Sorted_StronglySorted _ _ published_le_trans)).
  split_and!; try done.
  - intros a. split; [apply drop_dups_elem_first|].
    intros (l1 & l2 & Hl & H1).
    destruct (drop_dups_first title_norm [] sorted a) as (k1 & y & k2 & Hk & Hy & Hk1 & Hin).
    { rewrite Hl. apply elem_of_app. right. by left. }
    { by intros ?%elem_of_nil. }
    assert (a = y) as ->; [|done].
    eapply (first_occurrence_unique title_norm (title_norm a) l1 k1 l2 k2);
      [by rewrite <- Hl, <- Hk|done..].
  - apply drop_dups_NoDup.
  - intros a Ha. rewrite <- Hperm in Ha.
    destruct (drop_dups_first title_norm [] sorted a Ha) as (k1 & y & k2 & Hk & Hy & Hk1 & Hin).
    { by intros ?%elem_of_nil. }
    exists y. split_and!; [done..|].
    rewrite Hk in Ha, Hstrong.
    apply elem_of_app in Ha as [Ha|Ha]; [by apply Hk1 in Ha|].
    apply elem_of_cons in Ha as [->|Ha]; [lia|].
    apply StronglySorted_app in Hstrong as (_ & _ & Hs).
    apply StronglySorted_inv in Hs as [_ Hs].
    rewrite Forall_forall in Hs. by apply Hs.
  - apply StronglySorted_Sorted.
    eapply StronglySorted_sublist; [apply drop_dups_sublist|done].
  - apply dedup_sort_pair.
  - apply (dedup_sort_pair Ex.at_eight Ex.at_nine); by vm_compute.
  - apply (dedup_sort_pair Ex.at_eight Ex.at_nine); by vm_compute.
  - apply dedup_frame.
Qed.

(** C2, where the claim fails.  Nothing in the scripts asks for a stable
    sort: a sort that meets all that [sort_values] promises can turn two
    articles of one instant around, and then the later one of the input
    is the one kept.  And [spider_yesterday.py] compares the titles as
    they are, so two titles that differ in a blank are both kept. *)
Lemma dedup_sort_not_stable_nor_trimmed :
  (published_at Ex.first_in = published_at Ex.second_in
   ∧ sort_by (Srt := turning_sorter) (λ a, Some (published_at a))
       [Ex.first_in; Ex.second_in] = [Ex.second_in; Ex.first_in]
   ∧ dedup_sort (Srt := turning_sorter) [Ex.first_in; Ex.second_same_title]
     = [Ex.second_same_title])
  ∧ (spider_yesterday.main (Srt := stable_sorter) (mkdate 2025 10 11) Ex.blank_titles
     = Ok [ (lit "output/news_2025-10-10.csv",
             mkdf record_columns
               [ [ CStr (lit "Same title"); CStr (lit "http://one");
                   CStr (lit "2025-10-10 08:00:00 UTC"); CStr (lit "Feed");
                   CTime (Ex.utc 2025 10 10 8 0 0) ];
                 [ CStr (lit " Same title"); CStr (lit "http://two");
                   CStr (lit "2025-10-10 09:00:00 UTC"); CStr (lit "Feed");
                   CTime (Ex.utc 2025 10 10 9 0 0) ] ]) ]
     ∧ strip (lit "Same title") = strip (lit " Same title")).
Proof. by vm_compute. Qed.

(** ** The stand-in libraries keep the laws *)

Lemma new_datetime_tzinfo y m d hh mm ss tzi t :
  new_datetime y m d hh mm ss tzi = Ok t → tzinfo t = tzi.
Proof. unfold new_datetime. case_match; [|done]. by intros [= <-]. Qed.

Lemma new_datetime_date y m d hh mm ss tzi t :
  new_datetime y m d hh mm ss tzi = Ok t →
  dt_date t = mkdate y m d ∧ hour t = hh ∧ minute t = mm ∧ second t = ss
  ∧ microsecond t = 0%Z.
Proof. unfold new_datetime. case_match; [|done]. by intros [= <-]. Qed.

Lemma standin_laws : LibsLaws Standin.libs.
Proof.
  split.
  - intros c Hc. simpl. unfold Standin.ascii_decimal, Re.ascii_digit.
    rewrite (proj2 (N.leb_le _ _)), (proj2 (N.leb_le _ _)) by lia. done.
  - done.
  - intros s t. simpl. unfold Standin.iso_utc.
    destruct (Standin.iso_fields s) as [[[[[[y m] d] hh] mm] ss]|]; [|done].
    unfold Standin.checked. destruct (new_datetime _ _ _ _ _ _ _) eqn:E; [|done].
    intros [= <-]. by eapply new_datetime_tzinfo.
Qed.

(** ** C4: the choice of a title *)

Lemma longest_first_head r x l : longest_first r (x :: l) → (length x ≤ length r)%nat.
Proof.
  intros (l1 & l2 & Hl & H1 & H2). destruct l1 as [|y l1]; simplify_eq/=; [done|].
  specialize (H1 y (list_elem_of_here _ _)). lia.
Qed.

Lemma max_by_len_from_first (b : str) (l : list str) :
  longest_first (max_by_len_from b l) (b :: l).
Proof.
  revert b. induction l as [|x l IH]; intros b.
  { exists [], []. split_and!; [done|by intros ? ?%elem_of_nil..]. }
  simpl. destruct (Nat.ltb_spec (length b) (length x)) as [Hlt|Hge].
  - pose proof (longest_first_head _ _ _ (IH x)) as Hx.
    destruct (IH x) as (k1 & k2 & Hk & H1 & H2).
    exists (b :: k1), k2. split_and!; [by rewrite Hk|..|done].
    intros z [->|Hz]%elem_of_cons; [lia|by apply H1].
  - pose proof (longest_first_head _ _ _ (IH b)) as Hb.
    destruct (IH b) as (k1 & k2 & Hk & H1 & H2).
    destruct k1 as [|y k1]; injection Hk as Hy Hl.
    + exists [], (x :: l). split_and!; [by rewrite <- Hy|by intros ? ?%elem_of_nil|].
      intros z [->|Hz]%elem_of_cons; [lia|]. apply H2. by rewrite <- Hl.
    + subst y. exists (b :: x :: k1), k2.
      split_and!; [simpl; by do 2 f_equal|..|done].
      pose proof (H1 b (list_elem_of_here _ _)).
      intros z [->|[->|Hz]%elem_of_cons]%elem_of_cons; [done|lia|].
      apply H1. by right.
Qed.

Lemma max_by_len_first (l : list str) :
  l ≠ [] → ∃ r, max_by_len l = Ok r ∧ longest_first r l.
Proof.
  destruct l as [|b l]; [done|]. intros _.
  eexists. split; [done|]. apply max_by_len_from_first.
Qed.

Lemma longest_first_elem r l : longest_first r l → r ∈ l.
Proof. intros (l1 & l2 & -> & _). apply elem_of_app. right. by left. Qed.

Lemma longest_first_unique r r' l : longest_first r l → longest_first r' l → r = r'.
Proof.
  intros (l1 & l2 & -> & H1 & H2) (k1 & k2 & Hk & K1 & K2).
  revert k1 Hk K1. induction l1 as [|a l1 IH]; intros [|b k1] Hk K1;
    injection Hk as Hhd Htl.
  - done.
  - subst b. specialize (K1 r (list_elem_of_here _ _)).
    assert (r' ∈ l2) as Hin.
    { rewrite Htl. apply elem_of_app. right. by left. }
    apply H2 in Hin. lia.
  - subst a. specialize (H1 r' (list_elem_of_here _ _)).
    assert (r ∈ k2) as Hin.
    { rewrite <- Htl. apply elem_of_app. right. by left. }
    apply K2 in Hin. lia.
  - eapply IH; [|done|].
    + intros z Hz. apply H1. by right.
    + intros z Hz. apply K1. by right.
Qed.

Section Title.
Context `{L : Libs} (LL : LibsLaws L).

Lemma looks_generic_spec (s : str) :
  looks_generic s = true ↔
  let t := str_lower (strip s) in
  t = [] ∨ (length t < 5)%nat ∨ t ∈ GENERIC_TITLES.
Proof.
  unfold looks_generic. destruct (str_lower (strip s)) as [|c t]; simpl.
  { split; auto. }
  rewrite orb_true_iff, bool_decide_eq_true, Nat.ltb_lt. simpl.
  split; [intros [?|?]; auto|intros [?|[?|?]]; auto; done].
Qed.

Lemma looks_generic_nil : looks_generic [] = true.
Proof.
  apply looks_generic_spec. left.
  change (strip []) with (@nil N). by rewrite lower_ascii.
Qed.

Lemma get_entry_title_generic (e : entry) :
  looks_generic (title_from_feed e) = true → alt_candidates e ≠ [] →
  get_entry_title e = max_by_len (alt_candidates e).
Proof.
  intros Hg Ha. unfold get_entry_title. rewrite Hg.
  by rewrite bool_decide_eq_true_2.
Qed.

(** The last line of [get_entry_title]. *)
Definition last_resort (e : entry) : str :=
  match title_from_feed e with
  | [] => default [] (head (alt_candidates e))
  | tf => tf
  end.

Lemma get_entry_title_no_alt (e : entry) :
  alt_candidates e = [] → get_entry_title e = Ok (last_resort e).
Proof.
  intros Ha. unfold get_entry_title, last_resort. rewrite Ha.
  rewrite (bool_decide_eq_false_2 ([] ≠ [])) by naive_solver.
  rewrite !andb_false_r. by destruct (title_from_feed e).
Qed.

Lemma get_entry_title_specific (e : entry) b :
  looks_generic (title_from_feed e) = false → longest_first b (alt_candidates e) →
  get_entry_title e =
  if (length (title_from_feed e) + 10 <=? length b)%nat && negb (looks_generic b)
  then Ok b else Ok (title_from_feed e).
Proof.
  intros Hg Hb. unfold get_entry_title. rewrite Hg. simpl.
  assert (title_from_feed e ≠ []) as Hne.
  { intros Hnil. rewrite Hnil, looks_generic_nil in Hg. done. }
  assert (alt_candidates e ≠ []) as Ha.
  { destruct Hb as (l1 & l2 & -> & _). by destruct l1. }
  rewrite !bool_decide_eq_true_2 by done. simpl.
  destruct (max_by_len_first _ Ha) as (r & -> & Hr).
  rewrite (longest_first_unique _ _ _ Hr Hb). py_step.
  by destruct (title_from_feed e).
Qed.

End Title.

(** C4.  A title is generic when, trimmed and in lower case, it is empty,
    shorter than five characters or one of [GENERIC_TITLES].  With a
    generic feed title and at least one alt text [get_entry_title]
    returns the first of the longest alt texts.  A feed title that is not
    generic is returned unless the longest alt text is not generic and at
    least ten characters longer, and then that alt text is returned.  In
    every other case the result is the feed title, or the first alt text
    when the feed title is empty, or the empty string. *)
Theorem get_entry_title_choice `{L : Libs} (LL : LibsLaws L) (e : entry) :
  let tf := title_from_feed e in
  let alts := alt_candidates e in
  let overrides (b : str) :=
    longest_first b alts ∧ looks_generic b = false ∧ (length tf + 10 ≤ length b)%nat in
  (∀ s, looks_generic s = true ↔
      let t := str_lower (strip s) in
      t = [] ∨ (length t < 5)%nat ∨ t ∈ GENERIC_TITLES)
  ∧ (looks_generic tf = true → alts ≠ [] →
       ∃ r, get_entry_title e = Ok r ∧ longest_first r alts)
  ∧ (looks_generic tf = false →
       ∃ r, get_entry_title e = Ok r ∧ (r = tf ∨ overrides r))
  ∧ (looks_generic tf = false → ∀ b, overrides b → get_entry_title e = Ok b)
  ∧ (¬ (looks_generic tf = true ∧ alts ≠ []) →
     ¬ (looks_generic tf = false ∧ ∃ b, overrides b) →
     get_entry_title e =
     Ok match tf with [] => default [] (head alts) | _ => tf end).
Proof.
  intros tf alts overrides. split_and!.
  - apply looks_generic_spec.
  - intros Hg Ha. rewrite get_entry_title_generic by done.
    by apply max_by_len_first.
  - intros Hg. destruct (decide (alts = [])) as [Ha|Ha].
    + exists tf. split; [|by left]. rewrite (get_entry_title_no_alt e Ha).
      unfold last_resort. fold tf. destruct tf eqn:E; [|done].
      by rewrite (looks_generic_nil LL) in Hg.
    + destruct (max_by_len_first _ Ha) as (b & _ & Hb).
      rewrite (get_entry_title_specific LL e b Hg Hb). fold tf.
      destruct (Nat.leb_spec (length tf + 10) (length b));
        destruct (looks_generic b) eqn:Hgb; simpl; eauto.
      exists b. split; [done|]. right. done.
  - intros Hg b (Hb & Hgb & Hlen).
    rewrite (get_entry_title_specific LL e b Hg Hb). fold tf.
    by rewrite (proj2 (Nat.leb_le _ _) Hlen), Hgb.
  - intros Hnot1 Hnot2. destruct (decide (alts = [])) as [Ha|Ha].
    { rewrite (get_entry_title_no_alt e Ha). unfold last_resort, tf, alts.
      by destruct (title_from_feed e). }
    destruct (looks_generic tf) eqn:Hg; [by destruct Hnot1|].
    destruct (max_by_len_first _ Ha) as (b & _ & Hb).
    rewrite (get_entry_title_specific LL e b Hg Hb). fold tf.
    assert (tf ≠ []) as Hne.
    { intros Hnil. unfold tf in Hnil, Hg. rewrite Hnil in Hg.
      by rewrite (looks_generic_nil LL) in Hg. }
    destruct (Nat.leb_spec (length tf + 10) (length b));
      destruct (looks_generic b) eqn:Hgb; simpl; try by destruct tf.
    exfalso. apply Hnot2. split; [done|]. by exists b.
Qed.

(** ** The date resolver *)








Section Dates.
Context `{L : Libs} (LL : LibsLaws L).









(** When the date is not three words, or the month is in no row of
    [MONTHS], or reading it by hand raises, the free-text parser gets the
    matched text. *)
Lemma parse_available_fallback (desc date_str : str) :
  desc ≠ [] → Re.AVAILABLE_ONLINE_RE_search (clean_html_text desc) = Some date_str →
  (length (split date_str) ≠ 3%nat
   ∨ ∃ d m y, split date_str = [d; m; y]
       ∧ (MONTHS !! str_lower m = None ∨ raises (read_by_hand date_str d m y))) →
  parse_available_online_date desc = parse_date_strict (Some date_str).
Proof.
  intros Hne Hsearch Hshape. unfold parse_available_online_date.
  destruct desc as [|c desc]; [done|]. rewrite Hsearch.
  destruct Hshape as [Hlen|(d & m & y & -> & [Hm|[ex Hr]])].
  - by destruct (split date_str) as [|? [|? [|? [|? ?]]]].
  - unfold read_by_hand. rewrite Hm.
    destruct (py_int d); [|done]. py_step. by destruct (py_int y).
  - by rewrite Hr.
Qed.

Lemma datetime_of_struct_time_ok (t : struct_time) :
  valid_struct_time t = true →
  datetime_of_struct_time t
  = Ok (mkdatetime (mkdate (tm_year t) (tm_mon t) (tm_mday t))
          (tm_hour t) (tm_min t) (tm_sec t) 0 (Some UTC)).
Proof.
  unfold valid_struct_time, datetime_of_struct_time, new_datetime. by intros ->.
Qed.

Lemma datetime_of_struct_time_raises (t : struct_time) :
  valid_struct_time t = false → datetime_of_struct_time t = Raise ValueError.
Proof.
  unfold valid_struct_time, datetime_of_struct_time, new_datetime. by intros ->.
Qed.

Lemma parse_date_strict_utc d t : parse_date_strict d = Some t → tzinfo t = Some UTC.
Proof.
  destruct d as [[|c d]|]; simpl; try done. apply pd_to_datetime_utc.
Qed.

Lemma read_by_hand_utc date_str d m y t :
  read_by_hand date_str d m y = Ok (Some t) → tzinfo t = Some UTC.
Proof.
  unfold read_by_hand. destruct (py_int d); [|done]. py_step.
  destruct (py_int y); [|done]. py_step.
  destruct (MONTHS !! str_lower m) as [[| |]|];
    try (intros [= H]; exact (parse_date_strict_utc (Some date_str) t H)).
  - destruct (new_datetime _ _ _ _ _ _ _) eqn:E; [|done]. py_step.
    intros [= <-]. by eapply new_datetime_tzinfo.
  - destruct (new_datetime _ _ _ _ _ _ _) eqn:E; [|done]. py_step.
    intros [= <-]. by eapply new_datetime_tzinfo.
Qed.

Lemma parse_available_utc desc t :
  parse_available_online_date desc = Some t → tzinfo t = Some UTC.
Proof.
  unfold parse_available_online_date. destruct desc as [|c desc]; [done|].
  destruct (Re.AVAILABLE_ONLINE_RE_search _) as [date_str|]; [|done].
  destruct (split date_str) as [|d [|m [|y [|? ?]]]];
    try apply parse_date_strict_utc.
  destruct (read_by_hand date_str d m y) as [r|] eqn:E;
    [|apply parse_date_strict_utc].
  intros ->. by eapply read_by_hand_utc.
Qed.

(** Every date [get_entry_pub_date] returns is UTC-aware. *)
Lemma get_entry_pub_date_utc e t :
  get_entry_pub_date e = Ok (Some t) → tzinfo t = Some UTC.
Proof.
  unfold get_entry_pub_date. destruct (parsed_tuple e) as [st|].
  - unfold datetime_of_struct_time.
    destruct (new_datetime _ _ _ _ _ _ _) eqn:E; [|done]. py_step.
    intros [= <-]. by eapply new_datetime_tzinfo.
  - destruct (parse_date_strict (published e)) eqn:E1.
    { intros [= <-]. by eapply parse_date_strict_utc. }
    destruct (parse_date_strict (updated e)) eqn:E2.
    { intros [= <-]. by eapply parse_date_strict_utc. }
    intros [= H]. by eapply parse_available_utc.
Qed.

End Dates.

(** C1, as the scripts have it.  [get_entry_pub_date] of
    [spider_yesterday_1012.py] takes the first source that gives a date:
    the parsed published tuple, then the parsed updated tuple, then the
    published string, then the updated string, then the phrase of the
    summary; with a parsed published tuple the result is the UTC instant
    of its six fields, whatever the summary says.  The entry loop of
    [spider_yesterday_matoday.py] takes the phrase of the summary first,
    and the parsed tuples only when the phrase gave no date. *)
Theorem get_entry_pub_date_priority `{L : Libs} (e : entry) :
  (∀ t, published_parsed e = Some t →
     get_entry_pub_date e = (dt ← datetime_of_struct_time t; Ok (Some dt)))
  ∧ (∀ t, published_parsed e = None → updated_parsed e = Some t →
       get_entry_pub_date e = (dt ← datetime_of_struct_time t; Ok (Some dt)))
  ∧ (∀ t, published_parsed e = Some t → valid_struct_time t = true →
       get_entry_pub_date e
       = Ok (Some (mkdatetime (mkdate (tm_year t) (tm_mon t) (tm_mday t))
                     (tm_hour t) (tm_min t) (tm_sec t) 0 (Some UTC))))
  ∧ (published_parsed e = None → updated_parsed e = None →
       (∀ dt, parse_date_strict (published e) = Some dt →
          get_entry_pub_date e = Ok (Some dt))
       ∧ (∀ dt, parse_date_strict (published e) = None →
            parse_date_strict (updated e) = Some dt →
            get_entry_pub_date e = Ok (Some dt))
       ∧ (parse_date_strict (published e) = None →
          parse_date_strict (updated e) = None →
          get_entry_pub_date e
          = Ok (parse_available_online_date (or_empty (summary e)))))
  ∧ ((∀ g dt, Re.matoday_re_search (spider_yesterday_matoday.text_of e) = Some g →
        dateutil_parse g = Some dt →
        spider_yesterday_matoday.pub_date_of e = Ok (Some dt))
     ∧ (Re.matoday_re_search (spider_yesterday_matoday.text_of e) ≫= dateutil_parse = None →
        spider_yesterday_matoday.pub_date_of e = spider_yesterday.pub_date_of e)).
Proof.
  split_and!.
  - intros t Ht. unfold get_entry_pub_date, parsed_tuple. by rewrite Ht.
  - intros t Hp Hu. unfold get_entry_pub_date, parsed_tuple. by rewrite Hp, Hu.
  - intros t Ht Hv. unfold get_entry_pub_date, parsed_tuple. rewrite Ht.
    by rewrite datetime_of_struct_time_ok.
  - intros Hp Hu. unfold get_entry_pub_date, parsed_tuple. rewrite Hp, Hu.
    split_and!.
    + by intros dt ->.
    + by intros dt -> ->.
    + by intros -> ->.
  - intros g dt Hg Hdt. unfold spider_yesterday_matoday.pub_date_of.
    by rewrite Hg, Hdt.
  - intros Hnone. unfold spider_yesterday_matoday.pub_date_of.
    destruct (Re.matoday_re_search _) as [g|]; simpl in Hnone; [|done].
    by rewrite Hnone.
Qed.

(** C1, where the claim fails.  An entry with a parsed published tuple of
    2025-10-09 12:00:00 and "Available online 10 October 2025" in its
    summary: [spider_yesterday_matoday.py] takes 2025-10-10 00:00:00 from
    the phrase, not the instant of the tuple, which is what
    [get_entry_pub_date] of [spider_yesterday_1012.py] returns. *)
Lemma matoday_phrase_before_tuple :
  published_parsed Ex.tuple_and_phrase = Some (Ex.stamp 2025 10 9 12 0 0)
  ∧ datetime_of_struct_time (Ex.stamp 2025 10 9 12 0 0) = Ok (Ex.utc 2025 10 9 12 0 0)
  ∧ spider_yesterday_matoday.pub_date_of (L := Standin.libs) Ex.tuple_and_phrase
    = Ok (Some (mkdatetime (mkdate 2025 10 10) 0 0 0 0 None))
  ∧ mkdatetime (mkdate 2025 10 10) 0 0 0 0 None ≠ Ex.utc 2025 10 9 12 0 0
  ∧ get_entry_pub_date (L := Standin.libs) Ex.tuple_and_phrase
    = Ok (Some (Ex.utc 2025 10 9 12 0 0)).
Proof. by vm_compute. Qed.




(** C6, as the scripts have it.  [get_entry_pub_date] returns, without
    raising, whenever the parsed tuple it finds, if any, holds a date and
    a time of day that exist.  With no parsed tuple it never raises: a
    string that does not parse, a summary without the phrase and a phrase
    that cannot be read all count as no date, and when every source
    fails the result is [None]. *)
Theorem get_entry_pub_date_swallows_failures `{L : Libs} (e : entry)
    (Hvalid : ∀ t, parsed_tuple e = Some t → valid_struct_time t = true) :
  (∃ r, get_entry_pub_date e = Ok r)
  ∧ (parsed_tuple e = None →
       parse_date_strict (published e) = None →
       parse_date_strict (updated e) = None →
       parse_available_online_date (or_empty (summary e)) = None →
       get_entry_pub_date e = Ok None)
  ∧ (∀ d, (d = None ∨ d = Some [] ∨ ∃ s, d = Some s ∧ pd_to_datetime s = None) →
       parse_date_strict d = None)
  ∧ (∀ desc date_str d m y,
       desc ≠ [] →
       Re.AVAILABLE_ONLINE_RE_search (clean_html_text desc) = Some date_str →
       split date_str = [d; m; y] → raises (read_by_hand date_str d m y) →
       parse_available_online_date desc = parse_date_strict (Some date_str)).
Proof.
  split_and!.
  - unfold get_entry_pub_date. destruct (parsed_tuple e) as [t|] eqn:Ht.
    + rewrite datetime_of_struct_time_ok by (by apply Hvalid). by eexists.
    + destruct (parse_date_strict (published e)); [by eexists|].
      destruct (parse_date_strict (updated e)); by eexists.
  - intros Ht Hp Hu Ha. unfold get_entry_pub_date. by rewrite Ht, Hp, Hu, Ha.
  - intros d [->|[->|(s & -> & Hs)]]; [done..|]. simpl. by destruct s.
  - intros desc date_str d m y Hne Hsearch Hsplit Hr.
    apply parse_available_fallback; [done..|]. right. eauto 6.
Qed.

Lemma get_entry_pub_date_swallows_failures_witness :
  ∃ r, get_entry_pub_date (L := Standin.libs) Ex.tuple_and_phrase = Ok r.
Proof.
  apply (get_entry_pub_date_swallows_failures Ex.tuple_and_phrase).
  intros t Ht. vm_compute in Ht. injection Ht as <-. reflexivity.
Defined.

(** C6, where the claim fails.  A parsed tuple that names the thirtieth of
    February: [datetime] raises [ValueError], and no [try] is around the
    call. *)
Lemma invalid_tuple_raises :
  published_parsed Ex.no_such_day = Some (Ex.stamp 2025 2 30 0 0 0)
  ∧ get_entry_pub_date (L := Standin.libs) Ex.no_such_day = Raise ValueError
  ∧ spider_yesterday.pub_date_of Ex.no_such_day = Raise ValueError.
Proof. by vm_compute. Qed.

(** The entry titled "Graphical Abstract" gets the alt text of its image. *)
Lemma get_entry_title_choice_witness :
  get_entry_title (L := Standin.libs) Ex.graphical = Ok Ex.headline.
Proof.
  destruct (get_entry_title_choice standin_laws Ex.graphical) as (_ & Hgeneric & _).
  destruct Hgeneric as (r & Hr & Hlong).
  - vm_compute. reflexivity.
  - vm_compute. discriminate.
  - rewrite Hr. f_equal.
    apply (longest_first_unique r Ex.headline (alt_candidates Ex.graphical) Hlong).
    exists [], []. split; [vm_compute; reflexivity|].
    split; intros z Hz; vm_compute in Hz; inversion Hz.
Defined.

(** The title "Short" stays: the alt text is not ten characters longer. *)
Example short_title_kept :
  get_entry_title (L := Standin.libs) Ex.short_title = Ok (lit "Short").
Proof. by vm_compute. Qed.

(** ** Ordinals and dates *)

Section Ordinals.
Local Open Scope Z_scope.

Lemma iter_check_step (p : positive) :
  (Pos.iter check_step (true, 1) p).2 = Z.pos p + 1
  ∧ ((Pos.iter check_step (true, 1) p).1 = true →
     ∀ n, 1 ≤ n ≤ Z.pos p → ordinal_ok n = true).
Proof.
  induction p as [|p [IH2 IH1]] using Pos.peano_ind.
  - split; [done|]. unfold check_step. cbn [Pos.iter fst snd].
    intros H n Hn. replace n with 1 by lia. by apply andb_true_iff in H as [_ H].
  - rewrite Pos.iter_succ. unfold check_step at 1 3. cbn [fst snd]. rewrite IH2.
    split; [lia|]. intros [H1 H2]%andb_true_iff n Hn.
    destruct (decide (n = Z.pos p + 1)) as [->|Hne]; [done|].
    apply IH1; [done|lia].
Qed.

Lemma cycle_checked_true : (Pos.iter check_step (true, 1) 146097).1 = true.
Proof. vm_compute. reflexivity. Qed.

Lemma roundtrip_cycle (n : Z) : 1 ≤ n ≤ 146097 → toordinal (ord2ymd n) = n.
Proof.
  intros Hn. apply Z.eqb_eq.
  destruct (iter_check_step 146097) as [_ H].
  apply H; [exact cycle_checked_true|exact Hn].
Qed.

Lemma is_leap_shift (y k : Z) : is_leap (y + 400 * k) = is_leap y.
Proof.
  unfold is_leap.
  replace (y + 400 * k) with (y + (100 * k) * 4) at 1 by lia.
  replace (y + 400 * k) with (y + (4 * k) * 100) at 1 by lia.
  replace (y + 400 * k) with (y + k * 400) by lia.
  by rewrite !Z.mod_add by lia.
Qed.

Lemma days_before_year_shift (y k : Z) :
  days_before_year (y + 400 * k) = days_before_year y + 146097 * k.
Proof.
  unfold days_before_year. cbv zeta.
  replace ((y + 400 * k - 1) / 4) with ((y - 1 + (100 * k) * 4) / 4) by (f_equal; lia).
  replace ((y + 400 * k - 1) / 100) with ((y - 1 + (4 * k) * 100) / 100) by (f_equal; lia).
  replace ((y + 400 * k - 1) / 400) with ((y - 1 + k * 400) / 400) by (f_equal; lia).
  rewrite !Z.div_add by lia. lia.
Qed.

Lemma toordinal_shift (y m d k : Z) :
  toordinal (mkdate (y + 400 * k) m d) = toordinal (mkdate y m d) + 146097 * k.
Proof.
  unfold toordinal, ymd2ord, days_before_month. cbn [year month day].
  rewrite is_leap_shift, days_before_year_shift. lia.
Qed.

Lemma ord2ymd_shift (n : Z) :
  let k := (n - 1) / 146097 in
  let d := ord2ymd ((n - 1) mod 146097 + 1) in
  ord2ymd n = mkdate (year d + 400 * k) (month d) (day d).
Proof.
  intros k d. subst d. unfold ord2ymd. cbv zeta.
  change DI400Y with 146097.
  replace ((n - 1) mod 146097 + 1 - 1) with ((n - 1) mod 146097) by lia.
  rewrite Z.mod_mod by lia.
  rewrite (Z.div_small ((n - 1) mod 146097) 146097)
    by (apply Z.mod_pos_bound; lia).
  fold k. set (r := (n - 1) mod 146097).
  repeat case_match; cbn [year month day]; f_equal; lia.
Qed.

(** [_ord2ymd] undoes [_ymd2ord] on every ordinal. *)
Lemma toordinal_ord2ymd (n : Z) : 1 ≤ n → toordinal (ord2ymd n) = n.
Proof.
  intros Hn. rewrite ord2ymd_shift. cbv zeta.
  destruct (ord2ymd ((n - 1) mod 146097 + 1)) as [y m d] eqn:E. cbn [year month day].
  rewrite toordinal_shift, <- E, roundtrip_cycle.
  - pose proof (Z.div_mod (n - 1) 146097). lia.
  - pose proof (Z.mod_pos_bound (n - 1) 146097). lia.
Qed.

Lemma add_days_ok (d : date) (k : Z) :
  1 ≤ toordinal d + k ≤ MAXORDINAL → add_days d k = Ok (ord2ymd (toordinal d + k)).
Proof.
  intros H. unfold add_days. cbv zeta.
  rewrite (proj2 (Z.ltb_lt _ _)), (proj2 (Z.leb_le _ _)) by lia. done.
Qed.

Lemma isoweek1monday_monday (y : Z) : (isoweek1monday y + 6) mod 7 = 0.
Proof.
  unfold isoweek1monday. cbv zeta. set (f := ymd2ord y 1 1).
  case_match; pose proof (Z.div_mod (f + 6) 7);
    pose proof (Z.mod_pos_bound (f + 6) 7).
  - replace (f - (f + 6) mod 7 + 7 + 6) with (0 + ((f + 6) / 7 + 1) * 7) by lia.
    by rewrite Z.mod_add.
  - replace (f - (f + 6) mod 7 + 6) with (0 + ((f + 6) / 7) * 7) by lia.
    by rewrite Z.mod_add.
Qed.

Lemma weekday_from_monday (o w : Z) : (w + 6) mod 7 = 0 → (o - w) mod 7 = (o + 6) mod 7.
Proof.
  intros Hw. pose proof (Z.div_mod (w + 6) 7).
  replace (o - w) with (o + 6 + (- ((w + 6) / 7)) * 7) by lia.
  by rewrite Z.mod_add.
Qed.

(** The ISO weekday of a date is its ordinal modulo 7, Monday being 1. *)
Lemma iso_weekday_ordinal (d : date) :
  iso_weekday (isocalendar d) = (toordinal d + 6) mod 7 + 1.
Proof.
  unfold isocalendar. cbv zeta.
  repeat case_match; cbn [iso_weekday];
    by rewrite weekday_from_monday by apply isoweek1monday_monday.
Qed.

End Ordinals.

(** ** C8: the week of the aggregator *)

Section Week.
Local Open Scope Z_scope.
Import weekly_aggregate.

Lemma collect_files_days (fs : FileSystem) (n fuel : nat) (a : Z) (last : date)
    (files : list str) :
  1 ≤ a → a + Z.of_nat n ≤ MAXORDINAL → toordinal last = a + Z.of_nat n - 1 →
  (n < fuel)%nat →
  collect_files fs fuel (ord2ymd a) last files
  = Ok (files ++ filter (λ f, file_exists fs f = true) (daily_file_for <$> days_from a n)).
Proof.
  revert fuel a files. induction n as [|n IH]; intros fuel a files Ha Hmax Hlast Hfuel.
  - destruct fuel as [|fuel]; [lia|]. simpl. unfold date_leb.
    rewrite toordinal_ord2ymd, Hlast by lia.
    rewrite (proj2 (Z.leb_gt _ _)) by lia. by rewrite app_nil_r.
  - destruct fuel as [|fuel]; [lia|]. cbn [collect_files]. unfold date_leb.
    rewrite toordinal_ord2ymd, Hlast by lia.
    rewrite (proj2 (Z.leb_le _ _)) by lia.
    rewrite add_days_ok by (rewrite toordinal_ord2ymd by lia; lia).
    py_step. rewrite toordinal_ord2ymd by lia.
    rewrite IH by lia.
    unfold days_from. rewrite Nat2Z.inj_succ, (seqZ_cons a) by lia.
    rewrite !fmap_cons, filter_cons. replace (Z.pred (Z.succ (Z.of_nat n))) with (Z.of_nat n) by lia.
    replace (Z.succ a) with (a + 1) by lia.
    destruct (file_exists fs (daily_file_for (ord2ymd a))).
    + rewrite decide_True by done. by rewrite <- app_assoc.
    + by rewrite decide_False by done.
Qed.

Lemma monday_facts (o : Z) :
  8 ≤ o → let m := o - (o + 6) mod 7 in
  (m + 6) mod 7 = 0 ∧ 8 ≤ m ≤ o ∧ o < m + 7.
Proof.
  intros Ho m. pose proof (Z.div_mod (o + 6) 7). pose proof (Z.mod_pos_bound (o + 6) 7).
  assert ((m + 6) mod 7 = 0) as Hm.
  { subst m. replace (o - (o + 6) mod 7 + 6) with (0 + ((o + 6) / 7) * 7) by lia.
    by rewrite Z.mod_add. }
  split; [done|]. pose proof (Z.div_mod (m + 6) 7). subst m. lia.
Qed.

Lemma weekday_of_ordinal (n r : Z) :
  1 ≤ n → (n + 6) mod 7 = r → iso_weekday (isocalendar (ord2ymd n)) = r + 1.
Proof. intros Hn <-. by rewrite iso_weekday_ordinal, toordinal_ord2ymd. Qed.

Lemma week_of_ordinal (today : date) :
  8 ≤ toordinal today ≤ MAXORDINAL →
  let monday := toordinal today - (toordinal today + 6) mod 7 in
  week_of today
  = Ok (mkweek (ord2ymd monday) (ord2ymd (monday - 7)) (ord2ymd (monday - 1))).
Proof.
  intros Hrange monday. destruct (monday_facts (toordinal today)) as (Hm & Hb & Hlt); [lia|].
  fold monday in Hm, Hb, Hlt. unfold week_of. cbv zeta.
  rewrite iso_weekday_ordinal.
  rewrite add_days_ok by (fold monday; lia). py_step.
  replace (toordinal today + - ((toordinal today + 6) mod 7 + 1 - 1)) with monday
    by (unfold monday; lia).
  rewrite add_days_ok by (rewrite toordinal_ord2ymd by lia; lia). py_step.
  rewrite toordinal_ord2ymd by lia.
  rewrite add_days_ok by (rewrite toordinal_ord2ymd by lia; lia). py_step.
  rewrite toordinal_ord2ymd by lia.
  by replace (monday + -7 + 6) with (monday - 1) by lia.
Qed.

Lemma aggregate_output_name `{L : Libs} `{Srt : Sorter} (fs : FileSystem) (today : date)
    (w : week) (out : list written) :
  week_of today = Ok w → aggregate_last_week fs today = Ok out →
  ∃ df, out = [(weekly_file_for (isocalendar (last_sunday w)), df)].
Proof.
  intros Hw. unfold aggregate_last_week. rewrite Hw. py_step.
  destruct (collect_files _ _ _ _ _) as [files|]; [|done]. py_step.
  destruct files as [|f files]; [intros [= <-]; by eexists|].
  destruct (read_all fs (f :: files)) as [|df dfs]; [intros [= <-]; by eexists|].
  destruct (get_column "title" _) as [titles|]; [|done]. py_step.
  match goal with |- context [match ?x with Some _ => _ | None => _ end] => destruct x end.
  - destruct (sort_values _ _) as [sorted|]; [|done]. py_step.
    destruct (drop_duplicates _ _) as [dd|]; [|done]. py_step.
    destruct (drop_column _ _) as [dc|]; [|done]. py_step.
    intros [= <-]. by eexists.
  - py_step. destruct (drop_duplicates _ _) as [dd|]; [|done]. py_step.
    destruct (drop_column _ _) as [dc|]; [|done]. py_step.
    intros [= <-]. by eexists.
Qed.

End Week.

(** ** Numbers in file names, and the ISO key of a week *)

Section FileNames.
Local Open Scope Z_scope.

(** Read back, the digits [padded] prints give the number. *)
Lemma padded4_read :
  Forall (λ n, Standin.digits_value (Fmt.padded 4 n) = Some n
               ∧ length (Fmt.padded 4 n) = 4%nat) (seqZ 0 10000).
Proof. decide_by_compute. Qed.

Lemma padded2_read :
  Forall (λ n, Standin.digits_value (Fmt.padded 2 n) = Some n
               ∧ length (Fmt.padded 2 n) = 2%nat) (seqZ 0 100).
Proof. decide_by_compute. Qed.

Lemma padded4_inj (n n' : Z) :
  0 ≤ n < 10000 → 0 ≤ n' < 10000 → Fmt.padded 4 n = Fmt.padded 4 n' → n = n'.
Proof.
  intros Hn Hn' Heq. pose proof padded4_read as H. rewrite Forall_forall in H.
  destruct (H n) as [Hr _]; [apply elem_of_seqZ; lia|].
  destruct (H n') as [Hr' _]; [apply elem_of_seqZ; lia|]. congruence.
Qed.

Lemma padded2_inj (n n' : Z) :
  0 ≤ n < 100 → 0 ≤ n' < 100 → Fmt.padded 2 n = Fmt.padded 2 n' → n = n'.
Proof.
  intros Hn Hn' Heq. pose proof padded2_read as H. rewrite Forall_forall in H.
  destruct (H n) as [Hr _]; [apply elem_of_seqZ; lia|].
  destruct (H n') as [Hr' _]; [apply elem_of_seqZ; lia|]. congruence.
Qed.

Lemma padded4_length (n : Z) : 0 ≤ n < 10000 → length (Fmt.padded 4 n) = 4%nat.
Proof.
  intros Hn. pose proof padded4_read as H. rewrite Forall_forall in H.
  apply H, elem_of_seqZ. lia.
Qed.

Lemma padded2_length (n : Z) : 0 ≤ n < 100 → length (Fmt.padded 2 n) = 2%nat.
Proof.
  intros Hn. pose proof padded2_read as H. rewrite Forall_forall in H.
  apply H, elem_of_seqZ. lia.
Qed.

Lemma valid_dateb_range (y m d : Z) :
  valid_dateb y m d = true → 1 ≤ y ≤ 9999 ∧ 1 ≤ m ≤ 12 ∧ 1 ≤ d ≤ 31.
Proof.
  unfold valid_dateb, MINYEAR, MAXYEAR. rewrite !andb_true_iff, !Z.leb_le.
  intros [[[[[Hy1 Hy2] Hm1] Hm2] Hd1] Hd2]. split; [lia|]. split; [lia|].
  split; [lia|]. etrans; [exact Hd2|]. unfold days_in_month.
  destruct ((m =? 2) && is_leap y); [lia|].
  assert (m = 1 ∨ m = 2 ∨ m = 3 ∨ m = 4 ∨ m = 5 ∨ m = 6 ∨ m = 7 ∨ m = 8 ∨ m = 9
          ∨ m = 10 ∨ m = 11 ∨ m = 12) as Hm by lia.
  destruct Hm as [->|[->|[->|[->|[->|[->|[->|[->|[->|[->|[->| ->]]]]]]]]]]];
    vm_compute; discriminate.
Qed.

Lemma ymd_inj (d d' : date) :
  valid_dateb (year d) (month d) (day d) = true →
  valid_dateb (year d') (month d') (day d') = true →
  Fmt.ymd d = Fmt.ymd d' → d = d'.
Proof.
  intros (Hy & Hm & Hd)%valid_dateb_range (Hy' & Hm' & Hd')%valid_dateb_range.
  unfold Fmt.ymd. intros Heq.
  apply app_inj_1 in Heq as [Hyy Heq]; [|by rewrite !padded4_length by lia].
  apply (app_inv_head (lit "-")) in Heq.
  apply app_inj_1 in Heq as [Hmm Heq]; [|by rewrite !padded2_length by lia].
  apply (app_inv_head (lit "-")) in Heq.
  apply padded4_inj in Hyy; [|lia..]. apply padded2_inj in Hmm; [|lia..].
  apply padded2_inj in Heq; [|lia..].
  destruct d, d'. simpl in *. congruence.
Qed.

End FileNames.

Section IsoKey.
Local Open Scope Z_scope.

Lemma iter_check_with (ok : Z → bool) (a : Z) (p : positive) :
  (Pos.iter (check_with ok) (true, a) p).2 = a + Z.pos p
  ∧ ((Pos.iter (check_with ok) (true, a) p).1 = true →
     ∀ n, a ≤ n < a + Z.pos p → ok n = true).
Proof.
  induction p as [|p [IH2 IH1]] using Pos.peano_ind.
  - split; [done|]. unfold check_with. cbn [Pos.iter fst snd].
    intros H n Hn. replace n with a by lia. by apply andb_true_iff in H as [_ H].
  - rewrite Pos.iter_succ. unfold check_with at 1 3. cbn [fst snd]. rewrite IH2.
    split; [lia|]. intros [H1 H2]%andb_true_iff n Hn.
    destruct (decide (n = a + Z.pos p)) as [->|Hne]; [done|].
    apply IH1; [done|lia].
Qed.

Lemma cycle_years_true : (Pos.iter (check_with year_ok) (true, 1) 146097).1 = true.
Proof. vm_compute. reflexivity. Qed.

Lemma year_cycle (n : Z) : 1 ≤ n ≤ 146097 → year_ok n = true.
Proof.
  intros Hn. destruct (iter_check_with year_ok 1 146097) as [_ H].
  apply H; [exact cycle_years_true|lia].
Qed.

Lemma year_below_max (y : Z) : days_before_year y < 3652059 → y ≤ 9999.
Proof.
  unfold days_before_year. cbv zeta. intros H. Z.div_mod_to_equations. lia.
Qed.

(** The year of the date of an ordinal is the year the ordinal lies in. *)
Lemma year_of_ordinal (n : Z) :
  1 ≤ n ≤ MAXORDINAL →
  let y := year (ord2ymd n) in
  1 ≤ y ≤ 9999 ∧ days_before_year y < n ≤ days_before_year (y + 1).
Proof.
  intros Hn. rewrite ord2ymd_shift. cbv zeta. cbn [year].
  pose proof (Z.div_mod (n - 1) 146097 ltac:(lia)) as Hdm.
  pose proof (Z.mod_pos_bound (n - 1) 146097 ltac:(lia)) as Hmod.
  assert (0 ≤ (n - 1) / 146097) as Hk by (apply Z.div_pos; lia).
  pose proof (year_cycle ((n - 1) mod 146097 + 1) ltac:(lia)) as Hok.
  unfold year_ok in Hok. cbv zeta in Hok.
  set (y0 := year (ord2ymd ((n - 1) mod 146097 + 1))) in *.
  set (k := (n - 1) / 146097) in *. set (r := (n - 1) mod 146097) in *.
  rewrite !andb_true_iff, !Z.leb_le, Z.ltb_lt in Hok.
  destruct Hok as [[[Hy1 Hy2] Hlo] Hhi].
  replace (y0 + 400 * k + 1) with (y0 + 1 + 400 * k) by lia.
  rewrite !days_before_year_shift.
  assert (days_before_year (y0 + 400 * k) < n) as Hlt
    by (rewrite days_before_year_shift; lia).
  split; [|lia]. split; [lia|]. apply year_below_max. unfold MAXORDINAL in Hn. lia.
Qed.

Lemma first_day_of_year (y : Z) : ymd2ord y 1 1 = days_before_year y + 1.
Proof. unfold ymd2ord, days_before_month. simpl. lia. Qed.

Lemma isoweek1monday_near (y : Z) :
  days_before_year y - 2 ≤ isoweek1monday y ≤ days_before_year y + 4.
Proof.
  unfold isoweek1monday. cbv zeta. rewrite first_day_of_year.
  pose proof (Z.mod_pos_bound (days_before_year y + 1 + 6) 7 ltac:(lia)).
  destruct (Z.ltb_spec 3 ((days_before_year y + 1 + 6) mod 7)); lia.
Qed.

Lemma year_length (y : Z) :
  365 ≤ days_before_year (y + 1) - days_before_year y ≤ 366.
Proof. unfold days_before_year. cbv zeta. Z.div_mod_to_equations. lia. Qed.

(** The ISO year and week of a date of the calendar. *)
Lemma isocalendar_range (n : Z) :
  1 ≤ n ≤ MAXORDINAL →
  0 ≤ iso_year (isocalendar (ord2ymd n)) ≤ 10000
  ∧ 1 ≤ iso_week (isocalendar (ord2ymd n)) ≤ 54.
Proof.
  intros Hn. destruct (year_of_ordinal n Hn) as [Hy [Hlo Hhi]].
  unfold isocalendar. cbv zeta. rewrite toordinal_ord2ymd by lia.
  set (y := year (ord2ymd n)) in *.
  pose proof (isoweek1monday_near y) as Hw.
  pose proof (isoweek1monday_near (y - 1)) as Hw1.
  pose proof (year_length y) as Hlen.
  pose proof (year_length (y - 1)) as Hlen1.
  replace (y - 1 + 1) with y in Hlen1 by lia.
  destruct (Z.ltb_spec ((n - isoweek1monday y) / 7) 0) as [Hneg|Hpos].
  - cbn [iso_year iso_week]. split; [lia|].
    assert (n - isoweek1monday y < 0) as Hbefore.
    { destruct (Z.lt_ge_cases (n - isoweek1monday y) 0) as [?|Hge]; [done|].
      apply (Z.div_pos _ 7) in Hge; lia. }
    assert (357 ≤ n - isoweek1monday (y - 1) ≤ 376) as Hr by lia.
    pose proof (Z.div_le_mono 357 (n - isoweek1monday (y - 1)) 7 ltac:(lia) ltac:(lia)).
    pose proof (Z.div_le_mono (n - isoweek1monday (y - 1)) 376 7 ltac:(lia) ltac:(lia)).
    change (357 / 7) with 51 in *. change (376 / 7) with 53 in *. lia.
  - destruct (_ && _); cbn [iso_year iso_week]; [lia|]. split; [lia|].
    assert (n - isoweek1monday y ≤ 368) as Hr by lia.
    pose proof (Z.div_le_mono (n - isoweek1monday y) 368 7 ltac:(lia) Hr).
    change (368 / 7) with 52 in *. lia.
Qed.

Lemma decimal_read : (Pos.iter (check_with decimal_ok) (true, 0) 10001).1 = true.
Proof. vm_compute. reflexivity. Qed.

Lemma decimal_digits_read (n : Z) :
  0 ≤ n ≤ 10000 →
  Forall (λ c, Re.ascii_digit c = true) (Fmt.decimal n)
  ∧ Standin.digits_value (Fmt.decimal n) = Some n.
Proof.
  intros Hn. destruct (iter_check_with decimal_ok 0 10001) as [_ H].
  specialize (H decimal_read n ltac:(lia)). unfold decimal_ok in H.
  rewrite andb_true_iff, bool_decide_eq_true, forallb_forall in H.
  destruct H as [Hd Hv].
  split; [|done]. apply Forall_forall. intros c Hc. by apply Hd, list_elem_of_In.
Qed.

(** Two runs of digits that end at a hyphen. *)
Lemma digits_before_hyphen (a b r r' : str) :
  Forall (λ c, Re.ascii_digit c = true) a → Forall (λ c, Re.ascii_digit c = true) b →
  a ++ 0x2D%N :: r = b ++ 0x2D%N :: r' → a = b ∧ r = r'.
Proof.
  intros Ha. revert b. induction Ha as [|x a Hx _ IH]; intros b Hb Heq.
  - destruct Hb as [|y b Hy _]; [by injection Heq as <-|].
    injection Heq as <- _. by vm_compute in Hy.
  - destruct Hb as [|y b Hy Hb].
    + injection Heq as -> _. by vm_compute in Hx.
    + injection Heq as -> Heq. by destruct (IH b Hb Heq) as [-> ->].
Qed.

(** The name of the weekly file is a key of the ISO year and week. *)
Lemma weekly_file_for_key (iso iso' : IsoCalendarDate) :
  0 ≤ iso_year iso ≤ 10000 → 0 ≤ iso_week iso < 100 →
  0 ≤ iso_year iso' ≤ 10000 → 0 ≤ iso_week iso' < 100 →
  weekly_aggregate.weekly_file_for iso = weekly_aggregate.weekly_file_for iso'
  ↔ iso_year iso = iso_year iso' ∧ iso_week iso = iso_week iso'.
Proof.
  intros Hy Hw Hy' Hw'. unfold weekly_aggregate.weekly_file_for. split.
  - intros Heq. apply (app_inv_head (lit "output/weekly/news_week_")) in Heq.
    destruct (decimal_digits_read _ Hy) as [Hd Hv].
    destruct (decimal_digits_read _ Hy') as [Hd' Hv'].
    apply (digits_before_hyphen _ _ _ _ Hd Hd') in Heq as [Hyy Heq].
    apply (app_inv_head (lit "W")), (app_inv_tail (lit ".csv")) in Heq.
    apply padded2_inj in Heq; [|lia..]. split; [congruence|done].
  - by intros [-> ->].
Qed.

End IsoKey.

(** C8.  On a UTC date [today] from 0001-01-08 on, with ordinal [o]: the
    ISO weekday is [(o + 6) mod 7 + 1]; this week's Monday is the day of
    ordinal [o] less the weekday plus one, last Monday is seven days
    before it and last Sunday six days after that, a Monday and a Sunday
    that end within the seven days before today; the daily files looked
    for are those of the seven days from last Monday to last Sunday; and
    the file that is written is named by the ISO year and week of that
    Sunday.  For 2025-10-13 the week is 2025-10-06 to 2025-10-12, ISO
    week 41 of 2025.  The name is [output/weekly/news_week_], the ISO
    year, [-W], the ISO week in two digits, [.csv]; two runs write to the
    same name exactly when their last Sundays have the same ISO year and
    the same ISO week.  A run on 2021-01-04 writes the file of week 53 of
    2020, a run on 2025-10-20 that of week 42 of 2025. *)
Theorem last_week_window (today : date)
    (Hrange : (8 ≤ toordinal today ≤ MAXORDINAL)%Z) :
  let o := toordinal today in
  let monday := (o - (o + 6) mod 7)%Z in
  let w := weekly_aggregate.mkweek
             (ord2ymd monday) (ord2ymd (monday - 7)) (ord2ymd (monday - 1)) in
  iso_weekday (isocalendar today) = ((o + 6) mod 7 + 1)%Z
  ∧ weekly_aggregate.week_of today = Ok w
  ∧ (toordinal (weekly_aggregate.this_monday w) = monday
     ∧ toordinal (weekly_aggregate.last_monday w) = (monday - 7)%Z
     ∧ toordinal (weekly_aggregate.last_sunday w) = (monday - 7 + 6)%Z)
  ∧ (iso_weekday (isocalendar (weekly_aggregate.this_monday w)) = 1%Z
     ∧ iso_weekday (isocalendar (weekly_aggregate.last_monday w)) = 1%Z
     ∧ iso_weekday (isocalendar (weekly_aggregate.last_sunday w)) = 7%Z)
  ∧ (monday ≤ o < monday + 7)%Z
  ∧ (∀ fs, weekly_aggregate.collect_files fs 8
             (weekly_aggregate.last_monday w) (weekly_aggregate.last_sunday w) []
           = Ok (filter (λ f, weekly_aggregate.file_exists fs f = true)
                   (weekly_aggregate.daily_file_for <$> days_from (monday - 7) 7)))
  ∧ (∀ (L : Libs) (Srt : Sorter) fs out,
       weekly_aggregate.aggregate_last_week fs today = Ok out →
       ∃ df, out = [ (weekly_aggregate.weekly_file_for
                        (isocalendar (weekly_aggregate.last_sunday w)), df) ])
  ∧ (weekly_aggregate.week_of (mkdate 2025 10 13)
     = Ok (weekly_aggregate.mkweek (mkdate 2025 10 13) (mkdate 2025 10 6) (mkdate 2025 10 12))
     ∧ isocalendar (mkdate 2025 10 13) = mkiso 2025 42 1
     ∧ isocalendar (mkdate 2025 10 12) = mkiso 2025 41 7
     ∧ weekly_aggregate.weekly_file_for (isocalendar (mkdate 2025 10 12))
       = lit "output/weekly/news_week_2025-W41.csv")
  ∧ (∀ (L : Libs) (Srt : Sorter) fs out,
       weekly_aggregate.aggregate_last_week fs today = Ok out →
       ∃ df, out = [ (lit "output/weekly/news_week_"
                      ++ Fmt.decimal
                           (iso_year (isocalendar (weekly_aggregate.last_sunday w)))
                      ++ lit "-W"
                      ++ Fmt.padded 2
                           (iso_week (isocalendar (weekly_aggregate.last_sunday w)))
                      ++ lit ".csv", df) ])
  ∧ (∀ today' : date,
       (8 ≤ toordinal today' ≤ MAXORDINAL)%Z →
       let o' := toordinal today' in
       let sunday := isocalendar (weekly_aggregate.last_sunday w) in
       let sunday' := isocalendar (ord2ymd (o' - (o' + 6) mod 7 - 1)) in
       weekly_aggregate.weekly_file_for sunday = weekly_aggregate.weekly_file_for sunday'
       ↔ iso_year sunday = iso_year sunday' ∧ iso_week sunday = iso_week sunday')
  ∧ (weekly_aggregate.week_of (mkdate 2021 1 4)
     = Ok (weekly_aggregate.mkweek (mkdate 2021 1 4) (mkdate 2020 12 28) (mkdate 2021 1 3))
     ∧ isocalendar (mkdate 2021 1 3) = mkiso 2020 53 7
     ∧ weekly_aggregate.weekly_file_for (isocalendar (mkdate 2021 1 3))
       = lit "output/weekly/news_week_2020-W53.csv"
     ∧ weekly_aggregate.week_of (mkdate 2025 10 20)
       = Ok (weekly_aggregate.mkweek (mkdate 2025 10 20) (mkdate 2025 10 13)
               (mkdate 2025 10 19))
     ∧ weekly_aggregate.weekly_file_for (isocalendar (mkdate 2025 10 19))
       = lit "output/weekly/news_week_2025-W42.csv").
Proof.
  intros o monday w.
  destruct (monday_facts o) as (Hm & Hb & Hlt); [lia|]. fold monday in Hm, Hb, Hlt.
  assert (((monday - 7) + 6) mod 7 = 0)%Z as Hm7.
  { replace (monday - 7 + 6)%Z with (monday + 6 + (-1) * 7)%Z by lia.
    by rewrite Z.mod_add. }
  assert (((monday - 1) + 6) mod 7 = 6)%Z as Hm1.
  { pose proof (Z.div_mod (monday + 6) 7).
    replace (monday - 1 + 6)%Z with (6 + ((monday + 6) / 7 - 1) * 7)%Z by lia.
    by rewrite Z.mod_add. }
  split_and!.
  - apply iso_weekday_ordinal.
  - by apply week_of_ordinal.
  - apply toordinal_ord2ymd. lia.
  - apply toordinal_ord2ymd. lia.
  - unfold w. cbn [weekly_aggregate.last_sunday]. rewrite toordinal_ord2ymd; lia.
  - by apply (weekday_of_ordinal monday 0); [lia|].
  - by apply (weekday_of_ordinal (monday - 7) 0); [lia|].
  - by apply (weekday_of_ordinal (monday - 1) 6); [lia|].
  - lia.
  - lia.
  - intros fs. apply (collect_files_days fs 7 8 (monday - 7) _ []); [lia|lia| |lia].
    unfold w. cbn [weekly_aggregate.last_sunday]. rewrite toordinal_ord2ymd; lia.
  - intros L Srt fs out. apply aggregate_output_name. by apply week_of_ordinal.
  - vm_compute. reflexivity.
  - vm_compute. reflexivity.
  - vm_compute. reflexivity.
  - vm_compute. reflexivity.
  - intros L Srt fs out Hout.
    destruct (aggregate_output_name fs today w out (week_of_ordinal today Hrange) Hout)
      as (df & ->).
    by exists df.
  - intros today' Hrange' o' sunday sunday'.
    destruct (monday_facts o') as (_ & Hb' & _); [unfold o'; lia|].
    destruct (isocalendar_range (monday - 1)) as [Hy Hw]; [lia|].
    destruct (isocalendar_range (o' - (o' + 6) mod 7 - 1)) as [Hy' Hw']; [lia|].
    apply weekly_file_for_key; (done || (unfold sunday, sunday', w;
      cbn [weekly_aggregate.last_sunday]; lia)).
  - vm_compute. reflexivity.
  - vm_compute. reflexivity.
  - vm_compute. reflexivity.
  - vm_compute. reflexivity.
  - vm_compute. reflexivity.
Qed.

(** The run of Monday 2025-10-13. *)
Lemma last_week_window_witness :
  weekly_aggregate.week_of (mkdate 2025 10 13)
  = Ok (weekly_aggregate.mkweek (mkdate 2025 10 13) (mkdate 2025 10 6) (mkdate 2025 10 12)).
Proof.
  assert (8 ≤ toordinal (mkdate 2025 10 13) ≤ MAXORDINAL)%Z as Hrange.
  { vm_compute. split; discriminate. }
  exact (proj1 (proj2 (last_week_window (mkdate 2025 10 13) Hrange))).
Defined.

(** ** C7: a run that keeps no article *)

Section EmptyRun.
Context `{L : Libs} `{Srt : Sorter}.

Lemma filter_none {A} (P : A → Prop) `{∀ x, Decision (P x)} (l : list A) :
  (∀ x, x ∈ l → ¬ P x) → filter P l = [].
Proof.
  induction l as [|x l IH]; intros Hl; [done|].
  rewrite filter_cons, decide_False by (apply Hl; left).
  apply IH. intros y Hy. apply Hl. by right.
Qed.

(** No daily file: the aggregator writes the five columns and no row. *)
Lemma weekly_without_files (fs : weekly_aggregate.FileSystem) (today : date) :
  (8 ≤ toordinal today ≤ MAXORDINAL)%Z →
  (∀ p, weekly_aggregate.file_exists fs p = false) →
  ∃ sunday,
    weekly_aggregate.week_of today
    = Ok (weekly_aggregate.mkweek (ord2ymd (toordinal sunday + 1))
            (ord2ymd (toordinal sunday - 6)) sunday)
    ∧ weekly_aggregate.aggregate_last_week fs today
      = Ok [ (weekly_aggregate.weekly_file_for (isocalendar sunday),
              mkdf ["title"; "link"; "published"; "source"; "pub_date"]%string []) ].
Proof.
  intros Hrange Hnone.
  destruct (monday_facts (toordinal today)) as (Hm & Hb & Hlt); [lia|].
  pose proof (week_of_ordinal today Hrange) as Hw.
  remember (toordinal today - (toordinal today + 6) mod 7)%Z as monday eqn:Emonday.
  exists (ord2ymd (monday - 1)).
  rewrite (toordinal_ord2ymd (monday - 1)) by lia.
  replace (monday - 1 + 1)%Z with monday by lia.
  replace (monday - 1 - 6)%Z with (monday - 7)%Z by lia.
  split; [exact Hw|]. unfold weekly_aggregate.aggregate_last_week.
  rewrite Hw, py_bind_ok.
  change (weekly_aggregate.last_monday (weekly_aggregate.mkweek ?a ?b ?c)) with b.
  change (weekly_aggregate.last_sunday (weekly_aggregate.mkweek ?a ?b ?c)) with c.
  rewrite (collect_files_days fs 7 8 (monday - 7) (ord2ymd (monday - 1)) []);
    [|lia|lia|rewrite toordinal_ord2ymd; lia|lia].
  rewrite py_bind_ok, filter_none; [done|]. intros x _. by rewrite Hnone.
Qed.

(** No record: [spider_yesterday.py] raises, [spider_yesterday_1012.py]
    writes a frame without columns, [spider_yesterday_matoday.py] writes
    nothing. *)
Lemma daily_without_records (today yesterday : date) (fetched : list (str * feed)) :
  add_days today (-1) = Ok yesterday →
  (for_feeds (spider_yesterday.entry_body yesterday) fetched = Ok [] →
   spider_yesterday.main today fetched = Raise (KeyError "pub_date"))
  ∧ (for_feeds (spider_yesterday_1012.entry_body yesterday) fetched = Ok [] →
     spider_yesterday_1012.main today fetched
     = Ok [ (spider_yesterday_1012.file_name yesterday, mkdf [] []) ])
  ∧ (for_feeds (spider_yesterday_matoday.entry_body yesterday) fetched = Ok [] →
     spider_yesterday_matoday.main today fetched = Ok []).
Proof.
  intros Hy. split_and!; intros Hr.
  - unfold spider_yesterday.main. by rewrite Hy, py_bind_ok, Hr.
  - unfold spider_yesterday_1012.main. by rewrite Hy, py_bind_ok, Hr.
  - unfold spider_yesterday_matoday.main. by rewrite Hy, py_bind_ok, Hr.
Qed.

End EmptyRun.

(** C7, evaluated.  The aggregator, run on 2025-10-13 with no daily file,
    writes the five columns and no row.  The daily scripts, run on
    2025-10-11 on a feed with nothing of 2025-10-10, do not:
    [spider_yesterday.py] stops with [KeyError] at [sort_values] and
    writes no file, [spider_yesterday_1012.py] writes a frame that has no
    column, and [spider_yesterday_matoday.py] writes no file. *)
Theorem empty_result_set :
  weekly_aggregate.aggregate_last_week (L := Standin.libs) (Srt := stable_sorter)
    Ex.no_files (mkdate 2025 10 13)
  = Ok [ (lit "output/weekly/news_week_2025-W41.csv",
          mkdf ["title"; "link"; "published"; "source"; "pub_date"]%string []) ]
  ∧ spider_yesterday.main (Srt := stable_sorter) (mkdate 2025 10 11) Ex.nothing_new
    = Raise (KeyError "pub_date")
  ∧ spider_yesterday_1012.main (L := Standin.libs) (Srt := stable_sorter)
      (mkdate 2025 10 11) Ex.nothing_new
    = Ok [ (lit "output/news12_2025-10-10.csv", mkdf [] []) ]
  ∧ spider_yesterday_matoday.main (L := Standin.libs) (Srt := stable_sorter)
      (mkdate 2025 10 11) Ex.nothing_new
    = Ok [].
Proof. split_and!; vm_compute; reflexivity. Qed.

(** ** C3: the window filter *)

Lemma in_window_spec (pub : option datetime) (target : date) :
  in_window pub target = true ↔ ∃ t, pub = Some t ∧ dt_date t = target.
Proof.
  unfold in_window. destruct pub as [t|].
  - rewrite bool_decide_eq_true. split; [by eauto|]. by intros (? & [= <-] & ?).
  - split; [done|]. by intros (? & ? & _).
Qed.

Lemma for_entries_Forall (P : record → Prop) body src es rs :
  (∀ e r, body src e = Ok r → Forall P r) →
  for_entries body src es = Ok rs → Forall P rs.
Proof.
  intros Hbody. revert rs. induction es as [|e es IH]; intros rs; simpl.
  { by intros [= <-]. }
  destruct (body src e) as [r|] eqn:Er; [|done]. rewrite py_bind_ok.
  destruct (for_entries body src es) as [rest|]; [|done]. rewrite py_bind_ok.
  intros [= <-]. apply Forall_app. split; [by eapply Hbody|by apply IH].
Qed.

Lemma for_feeds_Forall (P : record → Prop) body fetched rs :
  (∀ src e r, body src e = Ok r → Forall P r) →
  for_feeds body fetched = Ok rs → Forall P rs.
Proof.
  intros Hbody. revert rs. induction fetched as [|[url f] fetched IH]; intros rs; simpl.
  { by intros [= <-]. }
  destruct (for_entries body _ (entries f)) as [r|] eqn:Er; [|done]. rewrite py_bind_ok.
  destruct (for_feeds body fetched) as [rest|]; [|done]. rewrite py_bind_ok.
  intros [= <-]. apply Forall_app. split; [|by apply IH].
  eapply for_entries_Forall; [|done]. intros e r'. apply Hbody.
Qed.

Lemma kept_articles (y : date) (rs : list record) :
  Forall (kept y) rs → ∃ arts, rs = to_record <$> arts ∧ Forall (in_day y) arts.
Proof.
  induction 1 as [|r rs (a & -> & Ha) _ (arts & -> & Harts)].
  - by exists [].
  - exists (a :: arts). split; [done|]. by constructor.
Qed.

Lemma get_entry_title_total `{L : Libs} (e : entry) : ∃ r, get_entry_title e = Ok r.
Proof.
  unfold get_entry_title.
  destruct (alt_candidates e) as [|a alts] eqn:Ea.
  - rewrite (bool_decide_eq_false_2 ([] ≠ [])) by (by intros ?).
    rewrite !andb_false_r. destruct (title_from_feed e); by eexists.
  - rewrite (bool_decide_eq_true_2 (a :: alts ≠ [])) by done.
    rewrite !andb_true_r. destruct (looks_generic (title_from_feed e)); [by eexists|].
    case_bool_decide; [|destruct (title_from_feed e); by eexists].
    cbn [max_by_len]. rewrite py_bind_ok.
    case_match; [by eexists|]. destruct (title_from_feed e); by eexists.
Qed.

Section Window.
Context `{L : Libs} (LL : LibsLaws L) `{Srt : Sorter}.

Lemma entry_body_1012 (y : date) (src : str) (e : entry) (rs : list record) :
  spider_yesterday_1012.entry_body y src e = Ok rs →
  ∃ pub, get_entry_pub_date e = Ok pub
    ∧ (in_window pub y = false → rs = [])
    ∧ (in_window pub y = true → ∃ a, rs = [to_record a] ∧ pub = Some (a_pub_date a)
         ∧ in_day y a).
Proof.
  unfold spider_yesterday_1012.entry_body.
  destruct (get_entry_pub_date e) as [pub|] eqn:Epub; [|done]. rewrite py_bind_ok.
  intros Hrs. exists pub. split; [done|]. destruct pub as [t|].
  - destruct (in_window (Some t) y) eqn:Ew.
    + destruct (get_entry_title_total e) as (ti & Hti). rewrite Hti, py_bind_ok in Hrs.
      injection Hrs as <-. split; [done|]. intros _.
      exists (mkarticle ti (or_empty (link e)) (Fmt.ymd_hms_z t) src t).
      split; [done|]. split; [done|]. split.
      * apply in_window_spec in Ew as (? & [= <-] & ?). done.
      * by eapply get_entry_pub_date_utc.
    + injection Hrs as <-. by split.
  - injection Hrs as <-. by split.
Qed.

Lemma entry_body_plain (y : date) (src : str) (e : entry) (rs : list record) :
  spider_yesterday.entry_body y src e = Ok rs →
  ∃ pub, spider_yesterday.pub_date_of e = Ok pub
    ∧ (in_window pub y = false → rs = [])
    ∧ (in_window pub y = true → ∃ a, rs = [to_record a] ∧ pub = Some (a_pub_date a)
         ∧ in_day y a).
Proof.
  unfold spider_yesterday.entry_body.
  destruct (spider_yesterday.pub_date_of e) as [pub|] eqn:Epub; [|done].
  rewrite py_bind_ok. intros Hrs. exists pub. split; [done|]. destruct pub as [t|].
  - destruct (in_window (Some t) y) eqn:Ew.
    + destruct (attribute "title" (title e)) as [ti|]; [|done]. rewrite py_bind_ok in Hrs.
      destruct (attribute "link" (link e)) as [li|]; [|done]. rewrite py_bind_ok in Hrs.
      injection Hrs as <-. split; [done|]. intros _.
      exists (mkarticle ti li (Fmt.ymd_hms_z t) src t).
      split; [done|]. split; [done|]. split.
      * apply in_window_spec in Ew as (? & [= <-] & ?). done.
      * unfold spider_yesterday.pub_date_of in Epub.
        destruct (published_parsed e) as [st|]; [|destruct (updated_parsed e) as [st|]];
          [..|done]; unfold datetime_of_struct_time in Epub;
          destruct (new_datetime _ _ _ _ _ _ _) eqn:E; try done;
          rewrite py_bind_ok in Epub; injection Epub as <-;
          by eapply new_datetime_tzinfo.
    + injection Hrs as <-. by split.
  - injection Hrs as <-. by split.
Qed.

Lemma entry_body_1012_kept y src e rs :
  spider_yesterday_1012.entry_body y src e = Ok rs → Forall (kept y) rs.
Proof.
  intros (pub & _ & Hout & Hin)%entry_body_1012.
  destruct (in_window pub y).
  - destruct Hin as (a & -> & _ & Ha); [done|]. repeat constructor. by exists a.
  - by rewrite Hout.
Qed.

Lemma entry_body_plain_kept y src e rs :
  spider_yesterday.entry_body y src e = Ok rs → Forall (kept y) rs.
Proof.
  intros (pub & _ & Hout & Hin)%entry_body_plain.
  destruct (in_window pub y).
  - destruct Hin as (a & -> & _ & Ha); [done|]. repeat constructor. by exists a.
  - by rewrite Hout.
Qed.

Lemma in_day_utc y arts :
  Forall (in_day y) arts → Forall (λ a, tzinfo (a_pub_date a) = Some UTC) arts.
Proof. intros H. eapply Forall_impl; [done|]. by intros a [_ ?]. Qed.

(** What [spider_yesterday_1012.py] writes: the articles of yesterday. *)
Lemma main_1012_files today fetched files :
  spider_yesterday_1012.main today fetched = Ok files →
  ∃ y arts, add_days today (-1) = Ok y ∧ Forall (in_day y) arts
    ∧ files = [ (spider_yesterday_1012.file_name y,
                 if bool_decide (arts = []) then mkdf [] []
                 else mkdf record_columns (to_row <$> arts)) ].
Proof.
  unfold spider_yesterday_1012.main.
  destruct (add_days today (-1)) as [y|]; [|done]. rewrite py_bind_ok.
  destruct (for_feeds _ fetched) as [rs|] eqn:Ers; [|done]. rewrite py_bind_ok.
  apply (for_feeds_Forall (kept y)) in Ers; [|apply entry_body_1012_kept].
  apply kept_articles in Ers as (arts & -> & Harts).
  destruct arts as [|a arts].
  - intros [= <-]. exists y, []. by split_and!.
  - assert (empty (of_records (to_record <$> a :: arts)) = false) as -> by done.
    rewrite dedup_frame by (done || by apply (in_day_utc y)). rewrite py_bind_ok.
    intros [= <-]. exists y, (dedup_sort (a :: arts)). split; [done|].
    assert (∀ x, x ∈ dedup_sort (a :: arts) → x ∈ a :: arts) as Hsub.
    { intros x Hx. unfold dedup_sort in Hx.
      eapply elem_of_sublist in Hx; [|apply drop_dups_sublist].
      by rewrite sort_by_perm in Hx. }
    split.
    + rewrite Forall_forall in Harts |- *. intros x Hx. by apply Harts, Hsub.
    + f_equal. f_equal. destruct (dedup_sort (a :: arts)) as [|b out] eqn:E; [|done].
      exfalso. unfold dedup_sort in E.
      destruct (drop_dups_first title_norm [] (sort_by (λ a, Some (published_at a)) (a :: arts)) a)
        as (? & z & ? & _ & _ & _ & Hz).
      * rewrite sort_by_perm. by left.
      * by intros ?%elem_of_nil.
      * rewrite E in Hz. by apply elem_of_nil in Hz.
Qed.

Lemma sort_values_rows name df df' :
  sort_values name df = Ok df' → columns df' = columns df ∧ rows df' ≡ₚ rows df.
Proof.
  unfold sort_values. destruct (loc name df) as [i|]; [|done]. rewrite py_bind_ok.
  case_match; [done|]. intros [= <-]. split; [done|]. apply sort_by_perm.
Qed.

Lemma drop_duplicates_rows name df df' :
  drop_duplicates name df = Ok df' →
  columns df' = columns df ∧ rows df' `sublist_of` rows df.
Proof.
  unfold drop_duplicates. destruct (loc name df) as [i|]; [|done]. rewrite py_bind_ok.
  intros [= <-]. split; [done|]. apply drop_dups_sublist.
Qed.

(** What [spider_yesterday.py] writes: records of yesterday. *)
Lemma main_plain_files today fetched files :
  spider_yesterday.main today fetched = Ok files →
  ∃ y df, add_days today (-1) = Ok y ∧ files = [ (spider_yesterday.file_name y, df) ]
    ∧ ∀ row, row ∈ rows df → ∃ a, row = to_row a ∧ in_day y a.
Proof.
  unfold spider_yesterday.main.
  destruct (add_days today (-1)) as [y|]; [|done]. rewrite py_bind_ok.
  destruct (for_feeds _ fetched) as [rs|] eqn:Ers; [|done]. rewrite py_bind_ok.
  apply (for_feeds_Forall (kept y)) in Ers; [|apply entry_body_plain_kept].
  apply kept_articles in Ers as (arts & -> & Harts).
  destruct (sort_values _ _) as [sorted|] eqn:Es; [|done]. rewrite py_bind_ok.
  destruct (drop_duplicates _ _) as [dd|] eqn:Ed; [|done]. rewrite py_bind_ok.
  intros [= <-]. exists y, dd. split_and!; [done..|].
  apply sort_values_rows in Es as [_ Hs]. apply drop_duplicates_rows in Ed as [_ Hd].
  intros row Hrow. eapply elem_of_sublist in Hrow; [|done]. rewrite Hs in Hrow.
  destruct arts as [|a0 arts]; [by apply elem_of_nil in Hrow|].
  rewrite of_records_articles in Hrow by done. cbn [rows] in Hrow.
  apply list_elem_of_fmap in Hrow as (a & -> & Ha).
  exists a. split; [done|]. rewrite Forall_forall in Harts. by apply Harts.
Qed.

End Window.

(** C3.  The test of the entry loops admits a resolved date exactly when
    it is there and its date is the target day: 2025-10-09 23:59:59 is
    left out for the target 2025-10-10 and 2025-10-10 00:00:00 is taken.
    An entry gives a record exactly when its resolved date passes the
    test, and every row of a file that [spider_yesterday_1012.py] or
    [spider_yesterday.py] writes holds a UTC-aware [pub_date] whose date
    is yesterday. *)
Theorem window_filter_exact `{L : Libs} (LL : LibsLaws L) `{Srt : Sorter} :
  (∀ pub target,
     in_window pub target = true ↔ ∃ t, pub = Some t ∧ dt_date t = target)
  ∧ (in_window (Some (Ex.utc 2025 10 9 23 59 59)) (mkdate 2025 10 10) = false
     ∧ in_window (Some (Ex.utc 2025 10 10 0 0 0)) (mkdate 2025 10 10) = true)
  ∧ (∀ y src e rs,
       spider_yesterday_1012.entry_body y src e = Ok rs →
       ∃ pub, get_entry_pub_date e = Ok pub
         ∧ (in_window pub y = false → rs = [])
         ∧ (in_window pub y = true →
            ∃ a, rs = [to_record a] ∧ pub = Some (a_pub_date a)
              ∧ dt_date (a_pub_date a) = y ∧ tzinfo (a_pub_date a) = Some UTC))
  ∧ (∀ y src e rs,
       spider_yesterday.entry_body y src e = Ok rs →
       ∃ pub, spider_yesterday.pub_date_of e = Ok pub
         ∧ (in_window pub y = false → rs = [])
         ∧ (in_window pub y = true →
            ∃ a, rs = [to_record a] ∧ pub = Some (a_pub_date a)
              ∧ dt_date (a_pub_date a) = y ∧ tzinfo (a_pub_date a) = Some UTC))
  ∧ (∀ today fetched files,
       spider_yesterday_1012.main today fetched = Ok files →
       ∃ y, add_days today (-1) = Ok y
         ∧ ∀ path df row, (path, df) ∈ files → row ∈ rows df →
             ∃ a, row = to_row a
               ∧ dt_date (a_pub_date a) = y ∧ tzinfo (a_pub_date a) = Some UTC)
  ∧ (∀ today fetched files,
       spider_yesterday.main today fetched = Ok files →
       ∃ y, add_days today (-1) = Ok y
         ∧ ∀ path df row, (path, df) ∈ files → row ∈ rows df →
             ∃ a, row = to_row a
               ∧ dt_date (a_pub_date a) = y ∧ tzinfo (a_pub_date a) = Some UTC).
Proof.
  split_and!.
  - apply in_window_spec.
  - done.
  - done.
  - apply (entry_body_1012 LL).
  - apply entry_body_plain.
  - intros today fetched files (y & arts & Hy & Harts & ->)%(main_1012_files LL).
    exists y. split; [done|]. intros path df row [= -> ->]%list_elem_of_singleton Hrow.
    destruct arts as [|a0 arts]; [by apply elem_of_nil in Hrow|].
    rewrite bool_decide_eq_false_2 in Hrow by done. cbn [rows] in Hrow.
    apply list_elem_of_fmap in Hrow as (a & -> & Ha).
    exists a. split; [done|]. rewrite Forall_forall in Harts. by apply Harts.
  - intros today fetched files (y & df & Hy & -> & Hrows)%main_plain_files.
    exists y. split; [done|]. intros path df' row [= -> ->]%list_elem_of_singleton Hrow.
    by apply Hrows.
Qed.

(** The run of 2025-10-11 on the feed of [Ex.blank_titles]. *)
Lemma window_filter_exact_witness :
  ∃ y, add_days (mkdate 2025 10 11) (-1) = Ok y
    ∧ ∀ path df row, (path, df) ∈ Ex.blank_titles_written → row ∈ rows df →
        ∃ a, row = to_row a
          ∧ dt_date (a_pub_date a) = y ∧ tzinfo (a_pub_date a) = Some UTC.
Proof.
  apply (proj1 (proj2 (proj2 (proj2 (proj2
           (window_filter_exact standin_laws (Srt := stable_sorter))))))
           (mkdate 2025 10 11) Ex.blank_titles).
  vm_compute. reflexivity.
Defined.

(** ** Cleaned text: no markup, single blanks *)

Section Markup.

Implicit Types (s u a b : str) (c : N).

Lemma gt_TAG_RE_sub t s : existsb (N.eqb 0x3E) (Re.TAG_RE_sub t s) = true → existsb (N.eqb 0x3E) s = true.
Proof.
  revert t. induction s as [|c s IH]; intros t; [done|]. simpl.
  destruct t.
  - intros H%IH. rewrite H. apply orb_true_r.
  - destruct ((c =? 0x3C) && Re.opens_tag s).
    + intros H%IH. rewrite H. apply orb_true_r.
    + simpl. intros [->|H%IH]%orb_true_iff; [done|]. rewrite H. apply orb_true_r.
Qed.

Lemma opens_tag_TAG_RE_sub s :
  Re.opens_tag s = false → Re.opens_tag (Re.TAG_RE_sub false s) = false.
Proof.
  destruct s as [|x r]; [done|]. cbn [Re.opens_tag Re.TAG_RE_sub].
  intros H. destruct (existsb (N.eqb 0x3E) r) eqn:Er.
  - rewrite andb_true_r in H. apply negb_false_iff in H.
    apply N.eqb_eq in H as ->. simpl. done.
  - assert (Re.opens_tag r = false) as ->.
    { destruct r as [|y r']; [done|]. simpl in *.
      apply orb_false_iff in Er as [_ ->]. apply andb_false_r. }
    rewrite andb_false_r. cbn [Re.opens_tag].
    destruct (existsb (N.eqb 0x3E) (Re.TAG_RE_sub false r)) eqn:E; [|apply andb_false_r].
    apply gt_TAG_RE_sub in E. congruence.
Qed.

Lemma has_tag_TAG_RE_sub t s : has_tag (Re.TAG_RE_sub t s) = false.
Proof.
  revert t. induction s as [|c s IH]; intros t; [done|]. cbn [Re.TAG_RE_sub].
  destruct t; [apply IH|].
  destruct ((c =? 0x3C) && Re.opens_tag s) eqn:E; [apply IH|].
  cbn [has_tag tag_at]. rewrite IH, orb_false_r.
  apply andb_false_iff in E as [->|E]; [done|].
  rewrite opens_tag_TAG_RE_sub by done. apply andb_false_r.
Qed.

Lemma TAG_RE_sub_no_tag s : has_tag s = false → Re.TAG_RE_sub false s = s.
Proof.
  induction s as [|c s IH]; [done|]. cbn [has_tag tag_at Re.TAG_RE_sub].
  intros [-> H]%orb_false_iff. by rewrite IH.
Qed.

(** What [has_tag] says: [s] holds a [<], then one character or more
    other than [>], then a [>]. *)
Lemma opens_tag_spec s :
  Re.opens_tag s = true ↔
  ∃ body b, body ≠ [] ∧ Forall (λ c, c ≠ 0x3E) body ∧ s = body ++ 0x3E :: b.
Proof.
  split.
  - destruct s as [|x r]; [done|]. simpl.
    intros [Hx Hr]%andb_true_iff. apply negb_true_iff, N.eqb_neq in Hx.
    assert (∃ m b, Forall (λ c, c ≠ 0x3E) m ∧ r = m ++ 0x3E :: b) as (m & b & Hm & ->).
    { clear Hx. induction r as [|y r IH]; [done|]. cbn [existsb] in Hr.
      destruct (N.eqb_spec 0x3E y) as [<-|Hy].
      - by exists [], r.
      - destruct (IH Hr) as (m & b & Hm & ->). exists (y :: m), b.
        split; [|done]. constructor; [congruence|done]. }
    exists (x :: m), b. split_and!; [done| |done]. by constructor.
  - intros (body & b & Hne & Hbody & ->). destruct body as [|x m]; [done|].
    apply Forall_cons in Hbody as [Hx Hm]. simpl.
    rewrite (proj2 (N.eqb_neq _ _) Hx). simpl.
    clear Hne Hx. induction Hm as [|y m Hy _ IH]; simpl; [done|].
    rewrite IH. apply orb_true_r.
Qed.

Lemma has_tag_spec s :
  has_tag s = true ↔
  ∃ a body b, body ≠ [] ∧ Forall (λ c, c ≠ 0x3E) body
    ∧ s = a ++ 0x3C :: body ++ 0x3E :: b.
Proof.
  split.
  - induction s as [|c s IH]; [done|]. cbn [has_tag tag_at].
    intros [[Hc Ho]%andb_true_iff|H]%orb_true_iff.
    + apply N.eqb_eq in Hc as ->. apply opens_tag_spec in Ho as (body & b & ? & ? & ->).
      by exists [], body, b.
    + destruct (IH H) as (a & body & b & ? & ? & ->). by exists (c :: a), body, b.
  - intros (a & body & b & Hne & Hbody & ->). induction a as [|c a IH].
    + cbn [app has_tag tag_at]. rewrite N.eqb_refl.
      rewrite (proj2 (opens_tag_spec _)); [done|]. by exists body, b.
    + cbn [app has_tag]. rewrite IH. apply orb_true_r.
Qed.

Lemma has_tag_app_l s w : has_tag s = true → has_tag (s ++ w) = true.
Proof.
  intros (a & body & b & ? & ? & ->)%has_tag_spec. apply has_tag_spec.
  exists a, body, (b ++ w). split_and!; [done..|].
  by rewrite <- !app_assoc, <- !app_comm_cons, <- !app_assoc.
Qed.

Lemma has_tag_app_r w s : has_tag s = true → has_tag (w ++ s) = true.
Proof.
  intros (a & body & b & ? & ? & ->)%has_tag_spec. apply has_tag_spec.
  exists (w ++ a), body, b. split_and!; [done..|]. by rewrite <- app_assoc.
Qed.

Lemma isspace_not_gt c : isspace c = true → (0x3E =? c) = false.
Proof.
  intros H. destruct (N.eqb_spec 0x3E c) as [<-|]; [|done]. by vm_compute in H.
Qed.

Lemma isspace_not_lt c : isspace c = true → (c =? 0x3C) = false.
Proof.
  intros H. destruct (N.eqb_spec c 0x3C) as [->|]; [|done]. by vm_compute in H.
Qed.

Lemma gt_collapse_blanks t s :
  existsb (N.eqb 0x3E) (Re.collapse_blanks t s) = true → existsb (N.eqb 0x3E) s = true.
Proof.
  revert t. induction s as [|c s IH]; intros t; [done|]. cbn [Re.collapse_blanks existsb].
  destruct (isspace c) eqn:Ec.
  - destruct t; [|cbn [existsb]; change (0x3E =? 32) with false; cbn [orb]];
      intros H%IH; rewrite H; apply orb_true_r.
  - cbn [existsb]. intros [->|H%IH]%orb_true_iff; [done|]. rewrite H. apply orb_true_r.
Qed.

Lemma opens_tag_collapse_blanks s :
  Re.opens_tag (Re.collapse_blanks false s) = true → Re.opens_tag s = true.
Proof.
  destruct s as [|x r]; [done|]. cbn [Re.collapse_blanks].
  destruct (isspace x) eqn:Ex; cbn [Re.opens_tag].
  - intros [_ H%gt_collapse_blanks]%andb_true_iff.
    rewrite H, andb_true_r. apply isspace_not_gt in Ex.
    rewrite N.eqb_sym in Ex. by rewrite Ex.
  - intros [-> H%gt_collapse_blanks]%andb_true_iff. by rewrite H.
Qed.

Lemma has_tag_collapse_blanks t s :
  has_tag (Re.collapse_blanks t s) = true → has_tag s = true.
Proof.
  revert t. induction s as [|c s IH]; intros t; [done|]. cbn [Re.collapse_blanks].
  destruct (isspace c) eqn:Ec.
  - assert (has_tag (Re.collapse_blanks true s) = true → has_tag (c :: s) = true) as Hs.
    { intros H%IH. cbn [has_tag]. rewrite H. apply orb_true_r. }
    destruct t; [done|]. cbn [has_tag tag_at]. by change (32 =? 60) with false.
  - cbn [has_tag tag_at].
    intros [[-> Ho%opens_tag_collapse_blanks]%andb_true_iff|H%IH]%orb_true_iff.
    + by rewrite Ho.
    + rewrite H. apply orb_true_r.
Qed.

Lemma lstrip_suffix s : ∃ w, s = w ++ lstrip s ∧ Forall (λ c, isspace c = true) w.
Proof.
  induction s as [|c s (w & Hw & Hsp)]; [by exists []|]. simpl.
  destruct (isspace c) eqn:Ec.
  - exists (c :: w). split; [by rewrite Hw at 1|by constructor].
  - by exists [].
Qed.

Lemma rstrip_prefix s : ∃ w, s = rstrip s ++ w ∧ Forall (λ c, isspace c = true) w.
Proof.
  unfold rstrip. destruct (lstrip_suffix (reverse s)) as (w & Hw & Hsp).
  exists (reverse w). split.
  - rewrite <- reverse_app, <- Hw. by rewrite reverse_involutive.
  - by apply Forall_reverse.
Qed.

Lemma has_tag_strip s : has_tag (strip s) = true → has_tag s = true.
Proof.
  unfold strip. intros H.
  destruct (rstrip_prefix (lstrip s)) as (w & Hw & _).
  destruct (lstrip_suffix s) as (w' & Hw' & _).
  rewrite Hw', Hw. by apply has_tag_app_r, has_tag_app_l.
Qed.

End Markup.

Section Blanks.

Implicit Types (s u : str) (c : N).

Lemma spaced_collapse_blanks t s : spaced t (Re.collapse_blanks t s) = true.
Proof.
  revert t. induction s as [|c s IH]; intros t; [done|]. cbn [Re.collapse_blanks].
  destruct (isspace c) eqn:Ec.
  - destruct t; [apply IH|]. cbn [spaced]. change (isspace 32) with true.
    cbv iota. by rewrite IH.
  - cbn [spaced]. by rewrite Ec.
Qed.

Lemma spaced_weaken t u : spaced t u = true → spaced false u = true.
Proof.
  destruct u as [|c u]; [done|]. cbn [spaced]. destruct (isspace c); [|done].
  destruct t; [done|]. done.
Qed.

Lemma spaced_lstrip t u : spaced t u = true → spaced false (lstrip u) = true.
Proof.
  revert t. induction u as [|c u IH]; intros t; [done|]. cbn [spaced lstrip].
  destruct (isspace c) eqn:Ec.
  - intros [_ H]%andb_true_iff. by eapply IH.
  - intros H. cbn [spaced]. by rewrite Ec.
Qed.

Lemma spaced_app_l t u w : spaced t (u ++ w) = true → spaced t u = true.
Proof.
  revert t. induction u as [|c u IH]; intros t; [done|]. cbn [app spaced].
  destruct (isspace c).
  - intros [-> H%IH]%andb_true_iff. by rewrite H.
  - apply IH.
Qed.

Lemma spaced_pair t a c d b :
  spaced t (a ++ c :: d :: b) = true → isspace c = true →
  c = 0x20 ∧ isspace d = false.
Proof.
  revert t. induction a as [|x a IH]; intros t.
  - cbn [app spaced]. intros H Hc. rewrite Hc in H.
    apply andb_true_iff in H as [[_ Hc32]%andb_true_iff H].
    apply N.eqb_eq in Hc32. split; [done|].
    destruct (isspace d); [|done]. by apply andb_true_iff in H as [[? _]%andb_true_iff _].
  - cbn [app spaced]. destruct (isspace x).
    + intros [_ H]%andb_true_iff. by eapply IH.
    + apply IH.
Qed.

Lemma spaced_all t u c : spaced t u = true → c ∈ u → isspace c = true → c = 0x20.
Proof.
  revert t. induction u as [|x u IH]; intros t H Hin Hc.
  { by apply elem_of_nil in Hin. }
  cbn [spaced] in H. apply elem_of_cons in Hin as [->|Hin].
  - rewrite Hc in H. apply andb_true_iff in H as [[_ H]%andb_true_iff _].
    by apply N.eqb_eq in H.
  - destruct (isspace x).
    + apply andb_true_iff in H as [_ H]. by eapply IH.
    + by eapply IH.
Qed.

Lemma lstrip_head s c : head (lstrip s) = Some c → isspace c = false.
Proof.
  induction s as [|x s IH]; [done|]. simpl. destruct (isspace x) eqn:Ex; [done|].
  by intros [= <-].
Qed.

Lemma lstrip_fixed s : (∀ c, head s = Some c → isspace c = false) → lstrip s = s.
Proof.
  destruct s as [|x s]; [done|]. intros H. simpl. by rewrite (H x).
Qed.

Lemma rstrip_last s c : last (rstrip s) = Some c → isspace c = false.
Proof.
  unfold rstrip. rewrite last_reverse. apply lstrip_head.
Qed.

Lemma rstrip_head s c :
  (∀ x, head s = Some x → isspace x = false) →
  head (rstrip s) = Some c → isspace c = false.
Proof.
  intros Hs. destruct (rstrip_prefix s) as (w & Hw & _).
  destruct (rstrip s) as [|x r]; [done|]. simpl. intros [= <-].
  apply Hs. by rewrite Hw.
Qed.

End Blanks.

Section Cleaned.
Context `{L : Libs}.

Lemma clean_html_text_strip (s : str) :
  ∃ u, clean_html_text s = strip (Re.collapse_blanks false (Re.TAG_RE_sub false u)).
Proof.
  destruct s as [|c s]; [by exists []|]. by exists (html_unescape (c :: s)).
Qed.

Lemma spaced_strip t u : spaced t u = true → spaced false (strip u) = true.
Proof.
  intros H%spaced_lstrip. unfold strip.
  destruct (rstrip_prefix (lstrip u)) as (w & Hw & _).
  rewrite Hw in H. by apply spaced_app_l in H.
Qed.

Lemma collapse_blanks_spaced t u : spaced t u = true → Re.collapse_blanks t u = u.
Proof.
  revert t. induction u as [|c u IH]; intros t; [done|]. cbn [spaced Re.collapse_blanks].
  destruct (isspace c).
  - intros [[Ht Hc]%andb_true_iff Hu]%andb_true_iff.
    apply negb_true_iff in Ht as ->. apply N.eqb_eq in Hc as ->. by rewrite IH.
  - intros Hu. by rewrite IH.
Qed.

Lemma strip_fixed u :
  (∀ c, head u = Some c → isspace c = false) →
  (∀ c, last u = Some c → isspace c = false) → strip u = u.
Proof.
  intros Hh Hl. unfold strip. rewrite lstrip_fixed by done.
  unfold rstrip. rewrite lstrip_fixed; [apply reverse_involutive|].
  intros c. rewrite head_reverse. apply Hl.
Qed.

End Cleaned.

(** X1.  [clean_html_text] leaves no markup: in what it returns [TAG_RE]
    finds nothing.  Wherever the result holds a [<] and a later [>] with
    no [>] between them, nothing at all is between them. *)
Theorem clean_html_text_no_tag `{L : Libs} (s : str) :
  has_tag (clean_html_text s) = false
  ∧ ∀ a body b,
      clean_html_text s = a ++ 0x3C :: body ++ 0x3E :: b →
      Forall (λ c, c ≠ 0x3E) body → body = [].
Proof.
  assert (has_tag (clean_html_text s) = false) as Hno.
  { destruct (clean_html_text_strip s) as (u & ->).
    destruct (has_tag (strip _)) eqn:E; [|done].
    apply has_tag_strip, has_tag_collapse_blanks in E.
    by rewrite has_tag_TAG_RE_sub in E. }
  split; [done|]. intros a body b Hs Hbody.
  destruct body as [|x body]; [done|]. exfalso.
  assert (has_tag (clean_html_text s) = true); [|congruence].
  apply has_tag_spec. by exists a, (x :: body), b.
Qed.

(** X2.  What [clean_html_text] returns neither starts nor ends with a
    blank, and each blank in it is one U+0020 with no blank after it. *)
Theorem clean_html_text_blanks `{L : Libs} (s : str) :
  let t := clean_html_text s in
  (∀ c, head t = Some c → isspace c = false)
  ∧ (∀ c, last t = Some c → isspace c = false)
  ∧ (∀ c, c ∈ t → isspace c = true → c = 0x20)
  ∧ (∀ a c d b, t = a ++ c :: d :: b → isspace c = true → isspace d = false).
Proof.
  intros t. destruct (clean_html_text_strip s) as (u & Hu). fold t in Hu.
  set (v := Re.collapse_blanks false (Re.TAG_RE_sub false u)) in Hu.
  assert (spaced false t = true) as Hsp.
  { rewrite Hu. apply (spaced_strip false), spaced_collapse_blanks. }
  split_and!.
  - rewrite Hu. unfold strip. intros c. apply rstrip_head. intros x. apply lstrip_head.
  - rewrite Hu. unfold strip. intros c. apply rstrip_last.
  - intros c. by apply (spaced_all false).
  - intros a c d b Ht Hc. rewrite Ht in Hsp. by eapply spaced_pair.
Qed.

(** X3.  Text that is already clean passes through [clean_html_text]
    unchanged: text that [html.unescape] leaves as it is, without a tag,
    without a blank at either end, and with single U+0020 for blanks. *)
Theorem clean_html_text_fixed `{L : Libs} (s : str) :
  html_unescape s = s → has_tag s = false → spaced false s = true →
  (∀ c, head s = Some c → isspace c = false) →
  (∀ c, last s = Some c → isspace c = false) →
  clean_html_text s = s.
Proof.
  intros Hu Htag Hsp Hh Hl. destruct s as [|c s]; [done|].
  unfold clean_html_text. cbv zeta. rewrite Hu.
  rewrite TAG_RE_sub_no_tag, collapse_blanks_spaced by done. by apply strip_fixed.
Qed.

Lemma clean_html_text_fixed_witness :
  clean_html_text (L := Standin.libs) (lit "CO2 <> 5 & more") = lit "CO2 <> 5 & more".
Proof.
  apply (clean_html_text_fixed (L := Standin.libs)).
  - reflexivity.
  - vm_compute. reflexivity.
  - vm_compute. reflexivity.
  - intros c Hc. vm_compute in Hc. injection Hc as <-. reflexivity.
  - intros c Hc. vm_compute in Hc. injection Hc as <-. reflexivity.
Defined.

(** ** [fix_mojibake] never adds text *)

Section Shrink.

Implicit Types (k v s : str) (c : N).

Lemma replace_go_length k c s :
  k ≠ [] → (length (replace_go k [c] 0 s) ≤ length s)%nat.
Proof.
  intros Hk. remember (length s) as n eqn:Hn.
  revert s Hn. induction (lt_wf n) as [n _ IH]. intros s ->.
  destruct s as [|x s]; [done|].
  rewrite replace_go_cons. destruct (prefixb k (x :: s)) eqn:Hpre.
  - cbn [app length].
    assert (length (drop (length k - 1) s) ≤ length s)%nat as Hd
      by (rewrite length_drop; lia).
    pose proof (IH (length (drop (length k - 1) s)) ltac:(simpl; lia) _ eq_refl). lia.
  - cbn [length]. pose proof (IH (length s) ltac:(simpl; lia) s eq_refl). lia.
Qed.

Lemma replace_go_nonempty k c s : s ≠ [] → replace_go k [c] 0 s ≠ [].
Proof.
  destruct s as [|x s]; [done|]. intros _. rewrite replace_go_cons.
  by destruct (prefixb k (x :: s)).
Qed.

Lemma apply_repl_shrinks K t s :
  Forall (rule_ok K) t →
  (length (apply_repl t s) ≤ length s)%nat ∧ (s ≠ [] → apply_repl t s ≠ []).
Proof.
  intros Ht. revert s. induction Ht as [|[k v] t [Hk (c & Hv & _)] _ IH]; intros s; [done|].
  simpl in Hk, Hv. subst v. rewrite apply_repl_cons, replace_nonempty by done.
  destruct (IH (replace_go k [c] 0 s)) as [Hlen Hne]. split.
  - pose proof (replace_go_length k c s Hk). lia.
  - intros Hs. by apply Hne, replace_go_nonempty.
Qed.

End Shrink.

(** X4.  [fix_mojibake] never makes a text longer, and it returns the
    empty string for the empty string only. *)
Theorem fix_mojibake_shrinks (s : str) :
  (length (fix_mojibake s) ≤ length s)%nat ∧ (fix_mojibake s = [] ↔ s = []).
Proof.
  destruct s as [|x s]; [done|].
  rewrite fix_mojibake_apply by done.
  destruct (apply_repl_shrinks repl.*1 repl (x :: s) repl_rules_ok) as [Hlen Hne].
  split; [done|]. split; [|done]. intros H. by destruct Hne.
Qed.

(** ** The title of an entry is there whenever a signal is *)

Section TitleThere.
Context `{L : Libs}.

Lemma extract_alt_nonempty (h a : str) : extract_alt_from_html h = Some a → a ≠ [].
Proof.
  unfold extract_alt_from_html. destruct h as [|c h]; [done|].
  destruct (ALT_IMG_RE_search (c :: h)) as [alt|]; [|done]. simpl.
  destruct (fix_mojibake (clean_html_text alt)); [done|]. by intros [= <-].
Qed.

Lemma alt_candidates_nonempty (e : entry) : Forall (λ a, a ≠ []) (alt_candidates e).
Proof.
  apply Forall_forall. intros a Ha. unfold alt_candidates in Ha.
  apply list_elem_of_omap in Ha as (h & _ & Hh). by eapply extract_alt_nonempty.
Qed.

End TitleThere.

Section TitleSource.
Context `{L : Libs}.

Lemma get_entry_title_from (e : entry) :
  ∃ r, get_entry_title e = Ok r
    ∧ (r = title_from_feed e ∨ r ∈ alt_candidates e)
    ∧ (r = [] → title_from_feed e = [] ∧ alt_candidates e = []).
Proof.
  pose proof (alt_candidates_nonempty e) as Hne. rewrite Forall_forall in Hne.
  assert (∀ r, r = title_from_feed e ∨ r ∈ alt_candidates e →
            (title_from_feed e = [] → alt_candidates e = [] ∨ r ∈ alt_candidates e) →
            r = [] → title_from_feed e = [] ∧ alt_candidates e = []) as Hempty.
  { intros r [->|Hr] Htf Hnil.
    - split; [done|]. destruct (Htf Hnil) as [?|Hr]; [done|].
      apply Hne in Hr. by rewrite Hnil in Hr.
    - by apply Hne in Hr. }
  unfold get_entry_title. destruct (alt_candidates e) as [|a alts] eqn:Ea.
  - rewrite (bool_decide_eq_false_2 ([] ≠ [])) by (by intros ?).
    rewrite !andb_false_r. exists (title_from_feed e).
    split; [by destruct (title_from_feed e)|]. split; [by left|]. by intros ->.
  - rewrite (bool_decide_eq_true_2 (a :: alts ≠ [])) by done. rewrite !andb_true_r.
    destruct (max_by_len_first (a :: alts)) as (b & Hb & Hlong); [done|].
    pose proof (longest_first_elem _ _ Hlong) as Hin.
    assert (∃ r, match title_from_feed e with
                 | [] => Ok (default [] (head (a :: alts)))
                 | _ => Ok (title_from_feed e)
                 end = Ok r
               ∧ (r = title_from_feed e ∨ r ∈ a :: alts)
               ∧ (r = [] → title_from_feed e = [] ∧ a :: alts = [])) as Hlast.
    { destruct (title_from_feed e) as [|c tf] eqn:Etf.
      - exists a. split; [done|]. split; [right; left|].
        apply Hempty; [right; left|]. intros _. right. left.
      - exists (c :: tf). split; [done|]. split; [by left|]. done. }
    destruct (looks_generic (title_from_feed e)).
    + exists b. split; [done|]. split; [by right|]. apply Hempty; [by right|]. by right.
    + cbn [andb]. case_bool_decide; [|exact Hlast]. rewrite Hb, py_bind_ok.
      destruct (_ && _); [|exact Hlast].
      exists b. split; [done|]. split; [by right|]. apply Hempty; [by right|]. by right.
Qed.

End TitleSource.

(** X5.  [get_entry_title] never raises: [max] is only called on a list
    that is not empty.  What it returns is the cleaned feed title or one
    of the alt texts, and it is the empty string only when the cleaned
    feed title is empty and there is no alt text. *)
Theorem get_entry_title_never_empty `{L : Libs} (e : entry) :
  ∃ r, get_entry_title e = Ok r
    ∧ (r = title_from_feed e ∨ r ∈ alt_candidates e)
    ∧ (r = [] → title_from_feed e = [] ∧ alt_candidates e = []).
Proof. apply get_entry_title_from. Qed.

(** X6.  Every date the resolvers of [spider_yesterday_1012.py] return is
    UTC-aware, whichever source it came from, when [pd.to_datetime] with
    [utc=True] returns UTC-aware times. *)
Theorem resolved_dates_are_utc `{L : Libs} (LL : LibsLaws L) :
  (∀ d t, parse_date_strict d = Some t → tzinfo t = Some UTC)
  ∧ (∀ desc t, parse_available_online_date desc = Some t → tzinfo t = Some UTC)
  ∧ (∀ e t, get_entry_pub_date e = Ok (Some t) → tzinfo t = Some UTC).
Proof.
  split_and!.
  - apply (parse_date_strict_utc LL).
  - apply (parse_available_utc LL).
  - apply (get_entry_pub_date_utc LL).
Qed.

Lemma resolved_dates_are_utc_witness :
  tzinfo (Ex.utc 2025 10 10 0 0 0) = Some UTC.
Proof.
  apply (proj2 (proj2 (resolved_dates_are_utc standin_laws)) Ex.phrase_only).
  vm_compute. reflexivity.
Defined.

(** ** Runs of the daily scripts *)

Lemma for_entries_ok body src es :
  (∀ e, e ∈ es → ∃ r, body src e = Ok r) → ∃ rs, for_entries body src es = Ok rs.
Proof.
  induction es as [|e es IH]; intros Hbody; [by eexists|]. simpl.
  destruct (Hbody e) as (r & ->); [left|].
  destruct IH as (rest & ->); [intros e' He'; apply Hbody; by right|].
  by eexists.
Qed.

Lemma for_feeds_ok body (fetched : list (str * feed)) :
  (∀ url f e, (url, f) ∈ fetched → e ∈ entries f →
     ∃ r, body (source_title_of url f) e = Ok r) →
  ∃ rs, for_feeds body fetched = Ok rs.
Proof.
  induction fetched as [|[url f] fetched IH]; intros Hbody; [by eexists|]. simpl.
  destruct (for_entries_ok body (source_title_of url f) (entries f)) as (r & ->).
  { intros e He. apply (Hbody url f e); [left|done]. }
  destruct IH as (rest & ->).
  { intros url' f' e Hin He. apply (Hbody url' f' e); [by right|done]. }
  by eexists.
Qed.

Lemma for_entries_raises body src es e :
  e ∈ es → raises (body src e) → raises (for_entries body src es).
Proof.
  intros He Hr. induction es as [|e' es IH]; [by apply elem_of_nil in He|]. simpl.
  destruct (body src e') as [r|ex] eqn:E; [|by exists ex]. rewrite py_bind_ok.
  apply elem_of_cons in He as [->|He].
  - destruct Hr as (ex & Hr). congruence.
  - destruct (IH He) as (ex & ->). by exists ex.
Qed.

Lemma for_feeds_raises body (fetched : list (str * feed)) url f e :
  (url, f) ∈ fetched → e ∈ entries f → raises (body (source_title_of url f) e) →
  raises (for_feeds body fetched).
Proof.
  intros Hin He Hr. induction fetched as [|[url' f'] fetched IH];
    [by apply elem_of_nil in Hin|]. simpl.
  destruct (for_entries body _ (entries f')) as [r|ex] eqn:E; [|by exists ex].
  rewrite py_bind_ok. apply elem_of_cons in Hin as [[= <- <-]|Hin].
  - destruct (for_entries_raises body (source_title_of url f) (entries f) e He Hr) as (ex & Hex).
    congruence.
  - destruct (IH Hin) as (ex & ->). by exists ex.
Qed.

Lemma for_entries_nil body src es :
  (∀ e, e ∈ es → body src e = Ok []) → for_entries body src es = Ok [].
Proof.
  induction es as [|e es IH]; intros Hbody; [done|]. simpl.
  rewrite Hbody by left. rewrite py_bind_ok, IH; [done|].
  intros e' He'. apply Hbody. by right.
Qed.

Lemma for_feeds_nil body (fetched : list (str * feed)) :
  (∀ url f e, (url, f) ∈ fetched → e ∈ entries f →
     body (source_title_of url f) e = Ok []) →
  for_feeds body fetched = Ok [].
Proof.
  induction fetched as [|[url f] fetched IH]; intros Hbody; [done|]. simpl.
  rewrite for_entries_nil.
  - rewrite py_bind_ok, IH; [done|].
    intros url' f' e Hin He. apply (Hbody url' f' e); [by right|done].
  - intros e He. apply (Hbody url f e); [left|done].
Qed.

Section Runs.
Context `{L : Libs} (LL : LibsLaws L) `{Srt : Sorter}.

Lemma get_entry_pub_date_ok (e : entry) :
  (∀ t, parsed_tuple e = Some t → valid_struct_time t = true) →
  ∃ pub, get_entry_pub_date e = Ok pub.
Proof.
  intros Hvalid. unfold get_entry_pub_date. destruct (parsed_tuple e) as [t|] eqn:Ht.
  - rewrite datetime_of_struct_time_ok by (by apply Hvalid). by eexists.
  - destruct (parse_date_strict (published e)); [by eexists|].
    destruct (parse_date_strict (updated e)); by eexists.
Qed.

Lemma entry_body_1012_ok (y : date) (src : str) (e : entry) :
  (∀ t, parsed_tuple e = Some t → valid_struct_time t = true) →
  ∃ rs, spider_yesterday_1012.entry_body y src e = Ok rs.
Proof.
  intros (pub & Hpub)%get_entry_pub_date_ok.
  unfold spider_yesterday_1012.entry_body. rewrite Hpub, py_bind_ok.
  destruct pub as [t|]; [|by eexists].
  destruct (in_window (Some t) y); [|by eexists].
  destruct (get_entry_title_total e) as (ti & ->). by eexists.
Qed.

Lemma dedup_sort_sublist (arts : list article) x : x ∈ dedup_sort arts → x ∈ arts.
Proof.
  intros Hx. unfold dedup_sort in Hx.
  eapply elem_of_sublist in Hx; [|apply drop_dups_sublist].
  by rewrite sort_by_perm in Hx.
Qed.

Lemma dedup_sort_sorted (arts : list article) :
  Sorted (λ a b, (published_at a ≤ published_at b)%Z) (dedup_sort arts).
Proof.
  apply StronglySorted_Sorted.
  eapply StronglySorted_sublist; [apply drop_dups_sublist|].
  apply (@Sorted_StronglySorted _ _ published_le_trans), sort_by_published.
Qed.

End Runs.

(** X7.  [spider_yesterday_1012.py] cannot fail after the feeds are
    read, as long as every parsed time tuple among the entries names a
    date and time that exist and today is not the first day of the
    calendar: it writes exactly one file, named by yesterday's date.  The
    file has no column and no row, or it has the five columns of a record
    and its rows are articles of yesterday in ascending order of
    [pub_date], no two with the same trimmed title. *)
Theorem main_1012_always_writes `{L : Libs} (LL : LibsLaws L) `{Srt : Sorter}
    (today : date) (fetched : list (str * feed)) :
  (2 ≤ toordinal today ≤ MAXORDINAL)%Z →
  (∀ url f e t, (url, f) ∈ fetched → e ∈ entries f →
     parsed_tuple e = Some t → valid_struct_time t = true) →
  ∃ arts,
    spider_yesterday_1012.main today fetched
    = Ok [ (spider_yesterday_1012.file_name (ord2ymd (toordinal today - 1)),
            if bool_decide (arts = []) then mkdf [] []
            else mkdf record_columns (to_row <$> arts)) ]
    ∧ Forall (in_day (ord2ymd (toordinal today - 1))) arts
    ∧ NoDup (title_norm <$> arts)
    ∧ Sorted (λ a b, (published_at a ≤ published_at b)%Z) arts.
Proof.
  intros Hrange Hvalid. unfold spider_yesterday_1012.main.
  rewrite add_days_ok by lia. rewrite py_bind_ok.
  replace (toordinal today + -1)%Z with (toordinal today - 1)%Z by lia.
  set (y := ord2ymd (toordinal today - 1)).
  destruct (for_feeds_ok (spider_yesterday_1012.entry_body y) fetched) as (rs & Hrs).
  { intros url f e Hin He. apply entry_body_1012_ok. intros t. by apply (Hvalid url f e t). }
  rewrite Hrs, py_bind_ok.
  apply (for_feeds_Forall (kept y)) in Hrs; [|apply (entry_body_1012_kept LL)].
  apply kept_articles in Hrs as (arts & -> & Harts).
  destruct arts as [|a arts].
  - exists []. split_and!; [done|done|constructor|constructor].
  - assert (empty (of_records (to_record <$> a :: arts)) = false) as -> by done.
    rewrite dedup_frame by (done || by apply (in_day_utc y)). rewrite py_bind_ok.
    exists (dedup_sort (a :: arts)). split_and!.
    + do 3 f_equal. destruct (dedup_sort (a :: arts)) as [|b out] eqn:E; [|done].
      exfalso. unfold dedup_sort in E.
      destruct (drop_dups_first title_norm []
                  (sort_by (λ a, Some (published_at a)) (a :: arts)) a)
        as (? & z & ? & _ & _ & _ & Hz).
      * rewrite sort_by_perm. by left.
      * by intros ?%elem_of_nil.
      * rewrite E in Hz. by apply elem_of_nil in Hz.
    + rewrite Forall_forall in Harts |- *. intros x Hx.
      by apply Harts, dedup_sort_sublist.
    + apply drop_dups_NoDup.
    + apply dedup_sort_sorted.
Qed.

(** The run of 2025-10-11 on the feed of [Ex.blank_titles]. *)
Lemma main_1012_always_writes_witness :
  ∃ arts,
    spider_yesterday_1012.main (L := Standin.libs) (Srt := stable_sorter)
      (mkdate 2025 10 11) Ex.blank_titles
    = Ok [ (spider_yesterday_1012.file_name (ord2ymd (toordinal (mkdate 2025 10 11) - 1)),
            if bool_decide (arts = []) then mkdf [] []
            else mkdf record_columns (to_row <$> arts)) ]
    ∧ Forall (in_day (ord2ymd (toordinal (mkdate 2025 10 11) - 1))) arts
    ∧ NoDup (title_norm <$> arts)
    ∧ Sorted (λ a b, (published_at a ≤ published_at b)%Z) arts.
Proof.
  apply (main_1012_always_writes standin_laws (Srt := stable_sorter)).
  - vm_compute. split; discriminate.
  - intros url f e t Hin He Ht.
    apply list_elem_of_singleton in Hin. injection Hin as -> ->.
    cbn [entries Ex.blank_titles] in He.
    apply elem_of_cons in He as [->|He]; [vm_compute in Ht; by injection Ht as <-|].
    apply list_elem_of_singleton in He as ->. vm_compute in Ht. by injection Ht as <-.
Defined.

(** X8.  A day without news, whatever the feeds are: when no entry has
    a date in the window, [spider_yesterday.py] stops with [KeyError] at
    [sort_values] and writes nothing, [spider_yesterday_1012.py] writes a
    file without a column, and [spider_yesterday_matoday.py] writes no
    file.  An empty list of feeds and feeds without entries are such
    days. *)
Theorem day_without_news `{L : Libs} `{Srt : Sorter}
    (today yesterday : date) (fetched : list (str * feed)) :
  add_days today (-1) = Ok yesterday →
  ((∀ url f e, (url, f) ∈ fetched → e ∈ entries f →
      ∃ pub, spider_yesterday.pub_date_of e = Ok pub ∧ in_window pub yesterday = false) →
   spider_yesterday.main today fetched = Raise (KeyError "pub_date"))
  ∧ ((∀ url f e, (url, f) ∈ fetched → e ∈ entries f →
        ∃ pub, get_entry_pub_date e = Ok pub ∧ in_window pub yesterday = false) →
     spider_yesterday_1012.main today fetched
     = Ok [ (spider_yesterday_1012.file_name yesterday, mkdf [] []) ])
  ∧ ((∀ url f e, (url, f) ∈ fetched → e ∈ entries f →
        ∃ pub, spider_yesterday_matoday.pub_date_of e = Ok pub
          ∧ in_window pub yesterday = false) →
     spider_yesterday_matoday.main today fetched = Ok []).
Proof.
  intros Hy. split_and!; intros Hout.
  - unfold spider_yesterday.main. rewrite Hy, py_bind_ok, for_feeds_nil; [done|].
    intros url f e Hin He. destruct (Hout url f e Hin He) as (pub & Hpub & Hw).
    unfold spider_yesterday.entry_body. rewrite Hpub, py_bind_ok, Hw. by destruct pub.
  - unfold spider_yesterday_1012.main. rewrite Hy, py_bind_ok, for_feeds_nil; [done|].
    intros url f e Hin He. destruct (Hout url f e Hin He) as (pub & Hpub & Hw).
    unfold spider_yesterday_1012.entry_body. rewrite Hpub, py_bind_ok, Hw. by destruct pub.
  - unfold spider_yesterday_matoday.main. rewrite Hy, py_bind_ok, for_feeds_nil; [done|].
    intros url f e Hin He. destruct (Hout url f e Hin He) as (pub & Hpub & Hw).
    unfold spider_yesterday_matoday.entry_body. rewrite Hpub, py_bind_ok, Hw.
    by destruct pub.
Qed.

(** No feed at all on 2025-10-11. *)
Lemma day_without_news_witness :
  spider_yesterday.main (Srt := stable_sorter) (mkdate 2025 10 11) []
  = Raise (KeyError "pub_date").
Proof.
  apply (proj1 (day_without_news (L := Standin.libs) (Srt := stable_sorter)
                  (mkdate 2025 10 11) (mkdate 2025 10 10) [] eq_refl)).
  intros url f e Hin. by apply elem_of_nil in Hin.
Defined.

(** X9.  An entry of yesterday without a [title] or a [link] ends the
    run of [spider_yesterday.py] and of [spider_yesterday_matoday.py] with
    an exception, and no file is written: both read the attributes
    without a default.  [spider_yesterday_1012.py] takes such an entry:
    a missing link is written as the empty string, and for a missing
    title [get_entry_title] gives an alt text or the empty string. *)
Theorem entry_without_title_or_link `{L : Libs} `{Srt : Sorter}
    (today yesterday : date) (fetched : list (str * feed))
    (url : str) (f : feed) (e : entry) (t : datetime) :
  add_days today (-1) = Ok yesterday →
  (url, f) ∈ fetched → e ∈ entries f → dt_date t = yesterday →
  title e = None ∨ link e = None →
  (spider_yesterday.pub_date_of e = Ok (Some t) →
   raises (spider_yesterday.entry_body yesterday (source_title_of url f) e)
   ∧ raises (spider_yesterday.main today fetched))
  ∧ (spider_yesterday_matoday.pub_date_of e = Ok (Some t) →
     raises (spider_yesterday_matoday.entry_body yesterday (source_title_of url f) e)
     ∧ raises (spider_yesterday_matoday.main today fetched))
  ∧ (get_entry_pub_date e = Ok (Some t) →
     ∃ ti, get_entry_title e = Ok ti
       ∧ (title e = None → ti = [] ∨ ti ∈ alt_candidates e)
       ∧ spider_yesterday_1012.entry_body yesterday (source_title_of url f) e
         = Ok [ [ ("title", CStr ti);
                  ("link", CStr match link e with Some l => l | None => [] end);
                  ("published", CStr (Fmt.ymd_hms_z t));
                  ("source", CStr (source_title_of url f)); ("pub_date", CTime t) ]%string ]).
Proof.
  intros Hy Hin He Ht Hmiss.
  assert (in_window (Some t) yesterday = true) as Hw.
  { apply in_window_spec. by exists t. }
  split_and!.
  - intros Hpub.
    assert (raises (spider_yesterday.entry_body yesterday (source_title_of url f) e)) as Hr.
    { unfold spider_yesterday.entry_body. rewrite Hpub, py_bind_ok, Hw.
      destruct Hmiss as [-> | ->]; [by eexists|].
      destruct (title e); by eexists. }
    split; [done|]. unfold spider_yesterday.main. rewrite Hy, py_bind_ok.
    destruct (for_feeds_raises _ fetched url f e Hin He Hr) as (ex & ->). by exists ex.
  - intros Hpub.
    assert (raises (spider_yesterday_matoday.entry_body yesterday (source_title_of url f) e))
      as Hr.
    { unfold spider_yesterday_matoday.entry_body. rewrite Hpub, py_bind_ok, Hw.
      destruct Hmiss as [-> | ->]; [by eexists|].
      destruct (title e); by eexists. }
    split; [done|]. unfold spider_yesterday_matoday.main. rewrite Hy, py_bind_ok.
    destruct (for_feeds_raises _ fetched url f e Hin He Hr) as (ex & ->). by exists ex.
  - intros Hpub. destruct (get_entry_title_from e) as (ti & Hti & Hfrom & _).
    exists ti. split; [done|]. split.
    + intros Hnone. destruct Hfrom as [->|Halt]; [|by right]. left.
      unfold title_from_feed. by rewrite Hnone.
    + unfold spider_yesterday_1012.entry_body.
      rewrite Hpub, py_bind_ok, Hw, Hti, py_bind_ok. by destruct (link e).
Qed.

(** An entry of 2025-10-10 without a link, on 2025-10-11. *)
Lemma entry_without_title_or_link_witness :
  raises (spider_yesterday.main (Srt := stable_sorter) (mkdate 2025 10 11) Cases.no_link_feed).
Proof.
  refine (proj2 (proj1 (entry_without_title_or_link (L := Standin.libs) (Srt := stable_sorter)
            (mkdate 2025 10 11) (mkdate 2025 10 10) Cases.no_link_feed
            (lit "http://feed") (mkfeed (Some (lit "Feed")) [ Cases.no_link ]) Cases.no_link
            (Ex.utc 2025 10 10 8 0 0) eq_refl _ _ eq_refl (or_intror eq_refl)) eq_refl)).
  - left.
  - left.
Defined.

(** ** The weekly aggregator on the files it finds *)

Section Columns.

Implicit Types (cols : list string) (name : string) (row : list cell).

Lemma index_of_Some name cols i :
  index_of name cols = Some i → cols !! i = Some name.
Proof.
  revert i. induction cols as [|c cols IH]; intros i; [done|]. simpl.
  destruct (String.eqb_spec c name) as [->|Hne].
  - by intros [= <-].
  - destruct (index_of name cols) as [k|]; [|done]. simpl. intros [= <-].
    by apply IH.
Qed.

Lemma index_of_None name cols : index_of name cols = None ↔ name ∉ cols.
Proof.
  induction cols as [|c cols IH]; simpl.
  - split; [intros _ ?%elem_of_nil; done|done].
  - destruct (String.eqb_spec c name) as [->|Hne].
    + split; [done|]. intros H. destruct H. left.
    + rewrite not_elem_of_cons, <- IH. destruct (index_of name cols); simpl.
      * split; [done|]. by intros [_ ?].
      * split; [|done]. intros _. split; [congruence|done].
Qed.

Lemma index_of_app name cols more :
  index_of name (cols ++ more)
  = match index_of name cols with
    | Some i => Some i
    | None => (λ k, length cols + k)%nat <$> index_of name more
    end.
Proof.
  induction cols as [|c cols IH]; simpl.
  - by destruct (index_of name more).
  - destruct (String.eqb c name); [done|]. rewrite IH.
    destruct (index_of name cols); [done|]. by destruct (index_of name more).
Qed.

Lemma index_of_inj name name' cols i :
  index_of name cols = Some i → index_of name' cols = Some i → name = name'.
Proof. intros H1%index_of_Some H2%index_of_Some. congruence. Qed.

End Columns.

Section Frames.

Implicit Types (df : DataFrame) (dfs : list DataFrame) (name : string) (row : list cell).

Lemma zip_with_fmap_r {A B C} (f : A → B → C) (g : A → B) (l : list A) :
  zip_with f l (g <$> l) = (λ x, f x (g x)) <$> l.
Proof. induction l as [|x l IH]; [done|]. rewrite !fmap_cons. simpl. by rewrite IH. Qed.

(** [df[name] = values] for values computed from the rows. *)
Lemma set_column_rows name (g : list cell → cell) df :
  set_column name (g <$> rows df) df
  = match index_of name (columns df) with
    | Some i => mkdf (columns df) ((λ row, <[i := g row]> row) <$> rows df)
    | None => mkdf (columns df ++ [name]) ((λ row, row ++ [g row]) <$> rows df)
    end.
Proof.
  unfold set_column. destruct (index_of name (columns df)); by rewrite zip_with_fmap_r.
Qed.

Lemma set_column_has name (g : list cell → cell) df :
  is_Some (index_of name (columns (set_column name (g <$> rows df) df))).
Proof.
  rewrite set_column_rows. destruct (index_of name (columns df)) as [i|] eqn:E.
  - cbn [columns]. by rewrite E.
  - cbn [columns]. rewrite index_of_app, E. simpl. by rewrite String.eqb_refl.
Qed.

(** A column other than the one set keeps its place and its cells, in a
    frame whose rows have a cell for every column. *)
Lemma set_column_other name other (g : list cell → cell) df i :
  other ≠ name →
  (∀ row, row ∈ rows df → length row = length (columns df)) →
  index_of other (columns (set_column name (g <$> rows df) df)) = Some i →
  index_of other (columns df) = Some i
  ∧ ∀ row', row' ∈ rows (set_column name (g <$> rows df) df) →
      ∃ row, row ∈ rows df ∧ cell_at i row' = cell_at i row.
Proof.
  intros Hne Hlen. rewrite set_column_rows.
  destruct (index_of name (columns df)) as [j|] eqn:Ej; cbn [columns rows].
  - intros Hi. split; [done|]. intros row' (row & -> & Hrow)%list_elem_of_fmap.
    exists row. split; [done|]. unfold cell_at. rewrite list_lookup_insert_ne; [done|].
    intros ->. apply Hne. by eapply index_of_inj.
  - rewrite index_of_app. destruct (index_of other (columns df)) as [i'|] eqn:Ei.
    + intros [= ->]. split; [done|]. intros row' (row & -> & Hrow)%list_elem_of_fmap.
      exists row. split; [done|]. unfold cell_at. rewrite lookup_app_l; [done|].
      rewrite (Hlen row Hrow). apply index_of_Some in Ei. by eapply lookup_lt_Some.
    + simpl. destruct (String.eqb_spec name other) as [->|]; done.
Qed.

(** A column of the frames put together holds cells of that column of
    the frames, and missing values. *)
Lemma concat_frames_column (P : cell → Prop) name dfs i row :
  P CNaN →
  (∀ df k r, df ∈ dfs → index_of name (columns df) = Some k → r ∈ rows df →
     P (cell_at k r)) →
  index_of name (columns (concat_frames dfs)) = Some i →
  row ∈ rows (concat_frames dfs) → P (cell_at i row).
Proof.
  intros Hnan Hcol Hi Hrow. unfold concat_frames in *. cbn [columns rows] in *.
  apply list_elem_of_bind in Hrow as (df & Hrow & Hdf).
  apply list_elem_of_fmap in Hrow as (r & -> & Hr).
  unfold cell_at at 1. rewrite list_lookup_fmap, (index_of_Some _ _ _ Hi). simpl.
  destruct (index_of name (columns df)) as [k|] eqn:Ek; [|done]. by eapply Hcol.
Qed.

Lemma concat_frames_length dfs row :
  row ∈ rows (concat_frames dfs) → length row = length (columns (concat_frames dfs)).
Proof.
  unfold concat_frames. cbn [columns rows].
  intros (df & (r & -> & _)%list_elem_of_fmap & _)%list_elem_of_bind.
  by rewrite length_fmap.
Qed.

Lemma drop_dups_id_elem {A} `{EqDecision A} (l : list A) x :
  x ∈ drop_dups id [] l ↔ x ∈ l.
Proof.
  split.
  - intros Hx. eapply elem_of_sublist; [done|apply drop_dups_sublist].
  - intros Hx. destruct (drop_dups_first id [] l x Hx) as (? & y & ? & _ & Hy & _ & Hin).
    { by intros ?%elem_of_nil. }
    simpl in Hy. by subst y.
Qed.

Lemma concat_frames_columns name dfs :
  name ∈ columns (concat_frames dfs) ↔ ∃ df, df ∈ dfs ∧ name ∈ columns df.
Proof.
  unfold concat_frames. cbn [columns]. rewrite drop_dups_id_elem, list_elem_of_bind.
  split; [intros (df & Hn & Hdf)|intros (df & Hdf & Hn)]; by exists df.
Qed.

End Frames.

Section Weekly.
Context `{L : Libs} (LL : LibsLaws L) `{Srt : Sorter}.
Import weekly_aggregate.

(** [pd.to_datetime] with [utc=True] leaves no naive time. *)
Lemma coerce_datetime_cell_aware (c : cell) :
  has_tz false (coerce_datetime_cell c) = false.
Proof.
  assert (∀ t, tzinfo t = Some UTC → has_tz false (CTime t) = false) as Hutc.
  { intros t Ht. simpl. rewrite Ht. apply bool_decide_eq_false_2.
    intros [H _]. by specialize (H (mk_is_Some _ _ eq_refl)). }
  destruct c as [s|t|]; [|by apply Hutc|done]. unfold coerce_datetime_cell.
  destruct (pd_to_datetime s) as [t|] eqn:E; [|done].
  apply Hutc. by eapply pd_to_datetime_utc.
Qed.

(** After [normalize_pub_date] the column [pub_date] holds no naive time. *)
Lemma normalize_pub_date_aware (df : DataFrame) k row :
  index_of "pub_date" (columns (normalize_pub_date df)) = Some k →
  row ∈ rows (normalize_pub_date df) → has_tz false (cell_at k row) = false.
Proof.
  unfold normalize_pub_date, get_column, loc.
  destruct (index_of "pub_date" (columns df)) as [i|] eqn:Ei; rewrite ?py_bind_ok, ?py_bind_raise.
  - rewrite <- list_fmap_compose, set_column_rows, Ei. cbn [columns rows].
    rewrite Ei. intros [= <-] (r & -> & Hr)%list_elem_of_fmap.
    unfold cell_at at 1. destruct (decide (i < length r)%nat) as [Hlt|Hge].
    + rewrite list_lookup_insert_eq by done. apply coerce_datetime_cell_aware.
    + rewrite list_insert_ge by lia. by rewrite lookup_ge_None_2 by lia.
  - by rewrite Ei.
Qed.

Lemma read_all_normalized (fs : FileSystem) files df :
  df ∈ read_all fs files → ∃ df0, df = normalize_pub_date df0.
Proof.
  unfold read_all. intros (f & _ & Hf)%list_elem_of_omap.
  destruct (read_csv fs f) as [df0|]; [|done]. injection Hf as <-. by eexists.
Qed.

(** The sorting step of [aggregate_last_week] cannot fail: the column
    [pub_date] of the frames put together holds no naive time. *)
Lemma weekly_sort_ok (fs : FileSystem) files (g : list cell → cell) :
  let all_df := concat_frames (read_all fs files) in
  let df2 := set_column "title_norm" (g <$> rows all_df) all_df in
  ∃ sorted,
    match index_of "pub_date" (columns df2) with
    | Some _ => sort_values "pub_date" df2
    | None => Ok df2
    end = Ok sorted
    ∧ columns sorted = columns df2 ∧ rows sorted ≡ₚ rows df2.
Proof.
  intros all_df df2.
  destruct (index_of "pub_date" (columns df2)) as [i|] eqn:Ei; [|by exists df2].
  unfold sort_values, loc. rewrite Ei, py_bind_ok.
  assert (mixed_zones (cell_at i <$> rows df2) = false) as ->.
  { unfold mixed_zones. apply andb_false_iff. right.
    destruct (existsb (has_tz false) (cell_at i <$> rows df2)) eqn:Ex; [|done].
    apply existsb_exists in Ex as (c & Hc & Hnaive).
    apply list_elem_of_In, list_elem_of_fmap in Hc as (row' & -> & Hrow').
    destruct (set_column_other "title_norm" "pub_date" g all_df i) as (Hi & Hcells);
      [done| |done|].
    { intros row Hrow. by apply concat_frames_length. }
    destruct (Hcells row' Hrow') as (row & Hrow & Hcell).
    rewrite Hcell in Hnaive.
    rewrite (concat_frames_column (λ c, has_tz false c = false) "pub_date" (read_all fs files) i row)
      in Hnaive; [done|done| |done|done].
    intros df k r Hdf Hk Hr.
    apply read_all_normalized in Hdf as (df0 & ->). by eapply normalize_pub_date_aware. }
  eexists. split; [done|]. split; [done|]. cbn [rows]. apply sort_by_perm.
Qed.

(** The part of [aggregate_last_week] after the frames are put together
    cannot fail when [title] is a column. *)
Lemma aggregate_tail (fs : FileSystem) files titles :
  let all_df := concat_frames (read_all fs files) in
  get_column "title" all_df = Ok titles →
  ∃ sorted dedup out,
    (match index_of "pub_date"
             (columns (set_column "title_norm" (title_norm_cell <$> titles) all_df)) with
     | Some _ => sort_values "pub_date"
                   (set_column "title_norm" (title_norm_cell <$> titles) all_df)
     | None => Ok (set_column "title_norm" (title_norm_cell <$> titles) all_df)
     end) = Ok sorted
    ∧ drop_duplicates "title_norm" sorted = Ok dedup
    ∧ drop_column "title_norm" dedup = Ok out.
Proof.
  intros all_df Ht. unfold get_column in Ht.
  destruct (loc "title" all_df) as [kt|]; [|done]. rewrite py_bind_ok in Ht.
  injection Ht as <-. rewrite <- list_fmap_compose.
  destruct (set_column_has "title_norm" (title_norm_cell ∘ cell_at kt) all_df) as (j & Hj).
  destruct (weekly_sort_ok fs files (title_norm_cell ∘ cell_at kt))
    as (sorted & Hsorted & Hcols & _).
  fold all_df in Hsorted, Hcols. exists sorted.
  unfold drop_duplicates, drop_column, loc. rewrite Hcols, Hj, py_bind_ok.
  eexists _, _. split; [done|]. split; [done|]. cbn [columns]. by rewrite Hj, py_bind_ok.
Qed.

(** With [title] a column and [title_norm] none, what the part after
    the frames are put together returns: the columns as they were, and
    rows of the frames, one for every trimmed title. *)
Lemma aggregate_tail_rows (fs : FileSystem) files kt :
  let all_df := concat_frames (read_all fs files) in
  let g := title_norm_cell ∘ cell_at kt in
  let df2 := set_column "title_norm" (g <$> rows all_df) all_df in
  index_of "title_norm" (columns all_df) = None →
  ∃ sorted dedup out,
    (match index_of "pub_date" (columns df2) with
     | Some _ => sort_values "pub_date" df2
     | None => Ok df2
     end) = Ok sorted
    ∧ drop_duplicates "title_norm" sorted = Ok dedup
    ∧ drop_column "title_norm" dedup = Ok out
    ∧ columns out = columns all_df
    ∧ (∀ row, row ∈ rows out → row ∈ rows all_df)
    ∧ NoDup (g <$> rows out)
    ∧ (∀ row, row ∈ rows all_df → ∃ row', row' ∈ rows out ∧ g row' = g row).
Proof.
  intros all_df g df2 Hnone.
  destruct (weekly_sort_ok fs files g) as (sorted & Hsorted & Hcols & Hperm).
  fold all_df in Hsorted, Hcols, Hperm. fold df2 in Hsorted, Hcols, Hperm.
  set (j := length (columns all_df)).
  set (ext := λ row : list cell, row ++ [g row]).
  assert (df2 = mkdf (columns all_df ++ ["title_norm"%string]) (ext <$> rows all_df)) as Hdf2.
  { unfold df2. by rewrite set_column_rows, Hnone. }
  assert (index_of "title_norm" (columns sorted) = Some j) as Hj.
  { rewrite Hcols, Hdf2. cbn [columns]. rewrite index_of_app, Hnone.
    change (index_of "title_norm" ["title_norm"%string]) with (Some 0%nat).
    unfold j. cbn [fmap option_fmap option_map]. by rewrite Nat.add_0_r. }
  assert (∀ row, row ∈ rows all_df → cell_at j (ext row) = g row ∧ delete j (ext row) = row)
    as Hext.
  { intros row Hrow. pose proof (concat_frames_length _ _ Hrow) as Hlen.
    fold all_df in Hlen. fold j in Hlen. unfold ext, cell_at. split.
    - rewrite lookup_app_r by lia. by replace (j - length row)%nat with 0%nat by lia.
    - rewrite <- Hlen, delete_middle. apply app_nil_r. }
  set (kept := drop_dups (cell_at j) [] (rows sorted)).
  assert (∀ row', row' ∈ kept → ∃ row, row ∈ rows all_df ∧ row' = ext row) as Hkept.
  { intros row' Hrow'. eapply elem_of_sublist in Hrow'; [|apply drop_dups_sublist].
    rewrite Hperm, Hdf2 in Hrow'. cbn [rows] in Hrow'.
    apply list_elem_of_fmap in Hrow' as (row & -> & Hrow). by exists row. }
  exists sorted, (mkdf (columns sorted) kept),
    (mkdf (delete j (columns sorted)) (delete j <$> kept)).
  split; [done|]. split.
  { unfold drop_duplicates, loc. by rewrite Hj, py_bind_ok. }
  split.
  { unfold drop_column, loc. cbn [columns rows]. by rewrite Hj, py_bind_ok. }
  cbn [columns rows]. split_and!.
  - rewrite Hcols, Hdf2. cbn [columns]. unfold j. rewrite delete_middle. apply app_nil_r.
  - intros row (row' & -> & Hrow')%list_elem_of_fmap.
    destruct (Hkept row' Hrow') as (r & Hr & ->). by rewrite (proj2 (Hext r Hr)).
  - rewrite <- list_fmap_compose.
    rewrite (list_fmap_ext (g ∘ delete j) (cell_at j) kept).
    + apply drop_dups_NoDup.
    + intros i row' Hi. apply list_elem_of_lookup_2 in Hi.
      destruct (Hkept row' Hi) as (r & Hr & ->). simpl.
      by rewrite (proj2 (Hext r Hr)), (proj1 (Hext r Hr)).
  - intros row Hrow.
    destruct (drop_dups_first (cell_at j) [] (rows sorted) (ext row))
      as (? & y & ? & _ & Hy & _ & Hin).
    { rewrite Hperm, Hdf2. cbn [rows]. apply list_elem_of_fmap. by exists row. }
    { by intros ?%elem_of_nil. }
    fold kept in Hin. destruct (Hkept y Hin) as (r & Hr & ->).
    exists r. split.
    + apply list_elem_of_fmap. exists (ext r). by rewrite (proj2 (Hext r Hr)).
    + rewrite (proj1 (Hext r Hr)), (proj1 (Hext row Hrow)) in Hy. done.
Qed.

End Weekly.

Section WeeklyRuns.
Context `{L : Libs} `{Srt : Sorter}.
Import weekly_aggregate.
Local Open Scope Z_scope.

(** [aggregate_last_week] from the frames it could read. *)
Lemma aggregate_cases (fs : FileSystem) (today : date) :
  8 ≤ toordinal today ≤ MAXORDINAL →
  let monday := toordinal today - (toordinal today + 6) mod 7 in
  let files := filter (λ f, file_exists fs f = true)
                 (daily_file_for <$> days_from (monday - 7) 7) in
  let name := weekly_file_for (isocalendar (ord2ymd (monday - 1))) in
  aggregate_last_week fs today
  = match read_all fs files with
    | [] => Ok [ (name, of_columns EMPTY_COLUMNS) ]
    | dfs =>
        let all_df := concat_frames dfs in
        titles ←
          match get_column "title" all_df with
          | Ok titles => Ok titles
          | Raise _ => Raise (AttributeError "fillna")
          end;
        let all_df := set_column "title_norm" (title_norm_cell <$> titles) all_df in
        all_df ←
          match index_of "pub_date" (columns all_df) with
          | Some _ => sort_values "pub_date" all_df
          | None => Ok all_df
          end;
        dedup ← drop_duplicates "title_norm" all_df;
        dedup ← drop_column "title_norm" dedup;
        Ok [ (name, dedup) ]
    end.
Proof.
  intros Hrange.
  destruct (monday_facts (toordinal today)) as (Hm & Hb & Hlt); [lia|].
  pose proof (week_of_ordinal today Hrange) as Hw. cbv zeta in Hw |- *.
  remember (toordinal today - (toordinal today + 6) mod 7) as monday eqn:Emonday.
  unfold aggregate_last_week. rewrite Hw, py_bind_ok.
  change (last_monday (mkweek ?a ?b ?c)) with b.
  change (last_sunday (mkweek ?a ?b ?c)) with c.
  rewrite (collect_files_days fs 7 8 (monday - 7) (ord2ymd (monday - 1)) []);
    [|lia|lia|rewrite toordinal_ord2ymd; lia|lia].
  rewrite py_bind_ok. cbn [app].
  destruct (filter _ _) as [|f files]; [done|]. done.
Qed.

End WeeklyRuns.

Section WeeklyFiles.
Context `{L : Libs} `{Srt : Sorter}.
Import weekly_aggregate.

Lemma read_all_none (fs : FileSystem) (files : list str) :
  (∀ f, f ∈ files → raises (read_csv fs f)) → read_all fs files = [].
Proof.
  induction files as [|f files IH]; intros Hr; [done|].
  unfold read_all. cbn [omap list_omap]. destruct (Hr f) as (ex & ->); [left|].
  apply IH. intros f' Hf'. apply Hr. by right.
Qed.

Lemma news12_is_no_daily_file (x y : str) :
  lit "output/news_" ++ x ≠ lit "output/news12_" ++ y.
Proof. intros H. vm_compute in H. congruence. Qed.

End WeeklyFiles.

(** X10.  Daily files that cannot be read are skipped: when every file
    of last week that exists fails to load, and likewise when none exists,
    the aggregator writes the weekly file with the five columns and no
    row. *)
Theorem weekly_skips_unreadable_files `{L : Libs} `{Srt : Sorter}
    (fs : weekly_aggregate.FileSystem) (today : date) :
  (8 ≤ toordinal today ≤ MAXORDINAL)%Z →
  (∀ d, weekly_aggregate.file_exists fs (weekly_aggregate.daily_file_for d) = true →
     raises (weekly_aggregate.read_csv fs (weekly_aggregate.daily_file_for d))) →
  weekly_aggregate.aggregate_last_week fs today
  = Ok [ (weekly_aggregate.weekly_file_for
            (isocalendar (ord2ymd (toordinal today - (toordinal today + 6) mod 7 - 1))),
          mkdf ["title"; "link"; "published"; "source"; "pub_date"]%string []) ].
Proof.
  intros Hrange Hbad. rewrite aggregate_cases by done. cbv zeta.
  rewrite read_all_none; [done|].
  intros f [Hex (d & -> & _)%list_elem_of_fmap]%list_elem_of_filter. by apply Hbad.
Qed.

(** The week before Monday 2025-10-13, with one file that cannot be read. *)
Lemma weekly_skips_unreadable_files_witness :
  weekly_aggregate.aggregate_last_week (L := Standin.libs) (Srt := stable_sorter)
    Cases.unreadable (mkdate 2025 10 13)
  = Ok [ (weekly_aggregate.weekly_file_for
            (isocalendar (ord2ymd (toordinal (mkdate 2025 10 13)
                                   - (toordinal (mkdate 2025 10 13) + 6) mod 7 - 1))),
          mkdf ["title"; "link"; "published"; "source"; "pub_date"]%string []) ].
Proof.
  apply (weekly_skips_unreadable_files (L := Standin.libs) (Srt := stable_sorter)).
  - vm_compute. split; discriminate.
  - intros d _. by exists EmptyDataError.
Defined.

(** X11.  The aggregator looks for the files [spider_yesterday.py] and
    [spider_yesterday_matoday.py] write, [output/news_<date>.csv].  No
    file of [spider_yesterday_1012.py], [output/news12_<date>.csv], has
    such a name, so a week of which only files of that script are there is
    aggregated into the five columns and no row. *)
Theorem weekly_ignores_news12 `{L : Libs} `{Srt : Sorter} :
  (∀ d, weekly_aggregate.daily_file_for d = spider_yesterday.file_name d)
  ∧ (∀ d d', weekly_aggregate.daily_file_for d ≠ spider_yesterday_1012.file_name d')
  ∧ (∀ (fs : weekly_aggregate.FileSystem) (today : date),
       (8 ≤ toordinal today ≤ MAXORDINAL)%Z →
       (∀ p, weekly_aggregate.file_exists fs p = true →
          ∃ d, p = spider_yesterday_1012.file_name d) →
       weekly_aggregate.aggregate_last_week fs today
       = Ok [ (weekly_aggregate.weekly_file_for
                 (isocalendar
                    (ord2ymd (toordinal today - (toordinal today + 6) mod 7 - 1))),
               mkdf ["title"; "link"; "published"; "source"; "pub_date"]%string []) ]).
Proof.
  assert (∀ d d', weekly_aggregate.daily_file_for d ≠ spider_yesterday_1012.file_name d')
    as Hnames.
  { intros d d'. apply news12_is_no_daily_file. }
  split_and!; [done|done|]. intros fs today Hrange Honly.
  rewrite aggregate_cases by done. cbv zeta.
  rewrite read_all_none; [done|].
  intros f [Hex (d & -> & _)%list_elem_of_fmap]%list_elem_of_filter.
  destruct (Honly _ Hex) as (d' & Hd'). by apply Hnames in Hd'.
Qed.

(** X12.  Once the files are found the aggregator can fail in one way
    only.  With no frame read it writes the five columns and no row.  With
    frames of which none has a column [title] it stops with
    [AttributeError]: [all_df.get] then returns its default, a string,
    which has no [fillna].  With [title] a column of some frame it writes
    the weekly file: [normalize_pub_date] has left no naive time in
    [pub_date], so [sort_values] compares time stamps of one kind. *)
Theorem weekly_fails_only_without_title `{L : Libs} (LL : LibsLaws L) `{Srt : Sorter}
    (fs : weekly_aggregate.FileSystem) (today : date) :
  (8 ≤ toordinal today ≤ MAXORDINAL)%Z →
  let monday := (toordinal today - (toordinal today + 6) mod 7)%Z in
  let files := filter (λ f, weekly_aggregate.file_exists fs f = true)
                 (weekly_aggregate.daily_file_for <$> days_from (monday - 7) 7) in
  let dfs := weekly_aggregate.read_all fs files in
  let name := weekly_aggregate.weekly_file_for (isocalendar (ord2ymd (monday - 1))) in
  (dfs = [] →
   weekly_aggregate.aggregate_last_week fs today
   = Ok [ (name, mkdf ["title"; "link"; "published"; "source"; "pub_date"]%string []) ])
  ∧ (dfs ≠ [] → (∀ df, df ∈ dfs → "title"%string ∉ columns df) →
     weekly_aggregate.aggregate_last_week fs today = Raise (AttributeError "fillna"))
  ∧ (∀ df, df ∈ dfs → "title"%string ∈ columns df →
     ∃ out, weekly_aggregate.aggregate_last_week fs today = Ok [ (name, out) ]).
Proof.
  intros Hrange monday files dfs name.
  pose proof (aggregate_cases fs today Hrange) as Hrun. cbv zeta in Hrun.
  fold monday in Hrun. fold files in Hrun. fold dfs in Hrun. fold name in Hrun.
  split_and!.
  - intros Hnil. by rewrite Hrun, Hnil.
  - intros Hne Hnone. rewrite Hrun. destruct dfs as [|df0 dfs0] eqn:Edfs; [done|].
    assert (index_of "title" (columns (concat_frames (df0 :: dfs0))) = None) as Hidx.
    { apply index_of_None. intros (df & Hdf & Hin)%concat_frames_columns.
      by apply (Hnone df). }
    unfold get_column, loc. by rewrite Hidx.
  - intros df Hdf Htitle. rewrite Hrun. destruct dfs as [|df0 dfs0] eqn:Edfs.
    { by apply elem_of_nil in Hdf. }
    rewrite <- Edfs in *. clear Edfs.
    destruct (get_column "title" (concat_frames dfs)) as [titles|ex] eqn:Et.
    + destruct (aggregate_tail LL fs files titles Et) as (sorted & dedup & out & Hs & Hd & Ho).
      rewrite py_bind_ok. fold dfs in Hs. rewrite Hs, py_bind_ok, Hd, py_bind_ok, Ho, py_bind_ok.
      by exists out.
    + exfalso. unfold get_column, loc in Et.
      destruct (index_of "title" (columns (concat_frames dfs))) eqn:Ei; [done|].
      apply index_of_None in Ei. apply Ei, concat_frames_columns. by exists df.
Qed.

(** The week before Monday 2025-10-13, with the daily file of
    2025-10-10. *)
Lemma weekly_fails_only_without_title_witness :
  ∃ out,
    weekly_aggregate.aggregate_last_week (L := Standin.libs) (Srt := stable_sorter)
      Cases.one_file (mkdate 2025 10 13)
    = Ok [ (weekly_aggregate.weekly_file_for
              (isocalendar (ord2ymd (toordinal (mkdate 2025 10 13)
                                     - (toordinal (mkdate 2025 10 13) + 6) mod 7 - 1))),
            out) ].
Proof.
  assert (8 ≤ toordinal (mkdate 2025 10 13) ≤ MAXORDINAL)%Z as Hrange.
  { vm_compute. split; discriminate. }
  apply (proj2 (proj2 (weekly_fails_only_without_title standin_laws (Srt := stable_sorter)
                         Cases.one_file (mkdate 2025 10 13) Hrange))
           (weekly_aggregate.normalize_pub_date (L := Standin.libs) Cases.friday)).
  - vm_compute. left.
  - vm_compute. left.
Defined.

(** X13.  What the aggregator writes from frames that have a column
    [title] and no column [title_norm]: the columns of the frames put
    together, and rows of those frames, exactly one for each trimmed
    title among them. *)
Theorem weekly_one_row_per_title `{L : Libs} (LL : LibsLaws L) `{Srt : Sorter}
    (fs : weekly_aggregate.FileSystem) (today : date) (kt : nat) :
  (8 ≤ toordinal today ≤ MAXORDINAL)%Z →
  let monday := (toordinal today - (toordinal today + 6) mod 7)%Z in
  let files := filter (λ f, weekly_aggregate.file_exists fs f = true)
                 (weekly_aggregate.daily_file_for <$> days_from (monday - 7) 7) in
  let dfs := weekly_aggregate.read_all fs files in
  let name := weekly_aggregate.weekly_file_for (isocalendar (ord2ymd (monday - 1))) in
  let trimmed (row : list cell) := weekly_aggregate.title_norm_cell (cell_at kt row) in
  index_of "title" (columns (concat_frames dfs)) = Some kt →
  (∀ df, df ∈ dfs → "title_norm"%string ∉ columns df) →
  ∃ out,
    weekly_aggregate.aggregate_last_week fs today = Ok [ (name, out) ]
    ∧ columns out = columns (concat_frames dfs)
    ∧ (∀ row, row ∈ rows out → row ∈ rows (concat_frames dfs))
    ∧ NoDup (trimmed <$> rows out)
    ∧ (∀ row, row ∈ rows (concat_frames dfs) →
         ∃ row', row' ∈ rows out ∧ trimmed row' = trimmed row).
Proof.
  intros Hrange monday files dfs name trimmed Hkt Hnorm.
  pose proof (aggregate_cases fs today Hrange) as Hrun. cbv zeta in Hrun.
  fold monday in Hrun. fold files in Hrun. fold dfs in Hrun. fold name in Hrun.
  assert (index_of "title_norm" (columns (concat_frames dfs)) = None) as Hnone.
  { apply index_of_None. intros (df & Hdf & Hin)%concat_frames_columns.
    by apply (Hnorm df). }
  destruct (aggregate_tail_rows LL fs files kt Hnone)
    as (sorted & dedup & out & Hs & Hd & Ho & Hcols & Hrows & Hnodup & Hall).
  fold dfs in Hs, Hcols, Hrows, Hall.
  exists out. split; [|done]. rewrite Hrun.
  destruct dfs as [|df0 dfs0] eqn:Edfs; [done|]. rewrite <- Edfs in *. clear Edfs.
  unfold get_column at 1, loc. rewrite Hkt, !py_bind_ok.
  rewrite <- list_fmap_compose. by rewrite Hs, py_bind_ok, Hd, py_bind_ok, Ho, py_bind_ok.
Qed.

(** The week before Monday 2025-10-13, with the daily file of
    2025-10-10: of its two rows, whose titles differ in a blank, one is
    written. *)
Lemma weekly_one_row_per_title_witness :
  ∃ out,
    weekly_aggregate.aggregate_last_week (L := Standin.libs) (Srt := stable_sorter)
      Cases.one_file (mkdate 2025 10 13)
    = Ok [ (lit "output/weekly/news_week_2025-W41.csv", out) ]
    ∧ columns out = record_columns
    ∧ length (rows out) = 1%nat.
Proof.
  assert (8 ≤ toordinal (mkdate 2025 10 13) ≤ MAXORDINAL)%Z as Hrange.
  { vm_compute. split; discriminate. }
  destruct (weekly_one_row_per_title standin_laws (Srt := stable_sorter)
              Cases.one_file (mkdate 2025 10 13) 0 Hrange)
    as (out & Hout & Hcols & _ & _ & _).
  - vm_compute. reflexivity.
  - intros df Hdf. vm_compute in Hdf. apply list_elem_of_singleton in Hdf as ->.
    vm_compute. intros Hin. repeat (apply elem_of_cons in Hin as [Hin|Hin]; [discriminate|]).
    by apply elem_of_nil in Hin.
  - exists out. split; [exact Hout|]. split; [exact Hcols|].
    vm_compute in Hout. injection Hout as <-. reflexivity.
Defined.

(** ** The date a match of [AVAILABLE_ONLINE_RE] holds *)

Section Words.

Implicit Types (s w cur : str) (c : N).

Lemma span_spec (p : N → bool) s a b :
  Re.span p s = (a, b) → s = a ++ b ∧ Forall (λ c, p c = true) a.
Proof.
  revert a b. induction s as [|c s IH]; intros a b; simpl.
  { by intros [= <- <-]. }
  destruct (p c) eqn:Ec; [|by intros [= <- <-]].
  destruct (Re.span p s) as [a' b']. intros [= <- <-].
  destruct (IH a' b' eq_refl) as [-> Ha]. split; [done|]. by constructor.
Qed.

Lemma span_upto_spec (n : nat) (p : N → bool) s a b :
  Re.span_upto n p s = (a, b) →
  s = a ++ b ∧ Forall (λ c, p c = true) a ∧ (length a ≤ n)%nat.
Proof.
  revert s a b. induction n as [|n IH]; intros s a b; simpl.
  { destruct s; intros [= <- <-]; by split_and!. }
  destruct s as [|c s]; [intros [= <- <-]; split_and!; [done|done|simpl; lia]|].
  destruct (p c) eqn:Ec; [|intros [= <- <-]; split_and!; [done|done|simpl; lia]].
  destruct (Re.span_upto n p s) as [a' b'] eqn:E. intros [= <- <-].
  destruct (IH s a' b' E) as (-> & Ha & Hlen).
  split_and!; [done|by constructor|simpl; lia].
Qed.

Lemma blanks_spec s w r :
  Re.blanks s = Some (w, r) →
  s = w ++ r ∧ w ≠ [] ∧ Forall (λ c, isspace c = true) w.
Proof.
  unfold Re.blanks. destruct (Re.span isspace s) as [a b] eqn:E.
  apply span_spec in E as [-> Ha]. destruct a as [|c a]; [done|].
  intros [= <- <-]. by split_and!.
Qed.

Lemma search_found {A} (m : str → option A) s g :
  Re.search m s = Some g → ∃ i, m (drop i s) = Some g.
Proof.
  induction s as [|c s IH]; simpl.
  - destruct (m []) eqn:E; [|done]. intros [= <-]. by exists 0%nat.
  - destruct (m (c :: s)) eqn:E.
    + intros [= <-]. by exists 0%nat.
    + intros (i & Hi)%IH. by exists (S i).
Qed.

(** [split] over a word: its characters are gathered. *)
Lemma split_go_word cur w s :
  Forall (λ c, isspace c = false) w →
  split_go cur (w ++ s) = split_go (reverse w ++ cur) s.
Proof.
  intros Hw. revert cur. induction Hw as [|c w Hc _ IH]; intros cur; [done|].
  cbn [app split_go]. rewrite Hc, IH. by rewrite reverse_cons, <- app_assoc.
Qed.

(** [split] over blanks: the word gathered so far is closed. *)
Lemma split_go_blanks cur w s :
  w ≠ [] → Forall (λ c, isspace c = true) w →
  split_go cur (w ++ s)
  = match cur with [] => [] | _ => [reverse cur] end ++ split_go [] s.
Proof.
  intros Hne Hw.
  assert (∀ w, Forall (λ c, isspace c = true) w → split_go [] (w ++ s) = split_go [] s)
    as Hskip.
  { clear. induction 1 as [|c w Hc _ IH]; [done|]. cbn [app split_go]. by rewrite Hc. }
  destruct Hw as [|c w Hc Hw]; [done|]. cbn [app split_go]. rewrite Hc.
  rewrite (Hskip w Hw). by destruct cur.
Qed.

Lemma split_three d w1 mon w2 y :
  d ≠ [] → mon ≠ [] → y ≠ [] → w1 ≠ [] → w2 ≠ [] →
  Forall (λ c, isspace c = false) d → Forall (λ c, isspace c = false) mon →
  Forall (λ c, isspace c = false) y →
  Forall (λ c, isspace c = true) w1 → Forall (λ c, isspace c = true) w2 →
  split (d ++ w1 ++ mon ++ w2 ++ y) = [d; mon; y].
Proof.
  intros Hd Hmon Hy Hw1 Hw2 Fd Fmon Fy Fw1 Fw2. unfold split.
  rewrite split_go_word, app_nil_r by done.
  rewrite split_go_blanks by done.
  assert (reverse d ≠ []) as Hrd.
  { intros H. apply (f_equal reverse) in H. by rewrite reverse_involutive in H. }
  destruct (reverse d) as [|x rd] eqn:Erd; [done|]. rewrite <- Erd, reverse_involutive.
  cbn [app]. f_equal.
  rewrite split_go_word, app_nil_r by done.
  rewrite split_go_blanks by done.
  assert (reverse mon ≠ []) as Hrm.
  { intros H. apply (f_equal reverse) in H. by rewrite reverse_involutive in H. }
  destruct (reverse mon) as [|x' rm] eqn:Erm; [done|]. rewrite <- Erm, reverse_involutive.
  cbn [app]. f_equal.
  rewrite <- (app_nil_r y) at 1. rewrite split_go_word, app_nil_r by done. cbn [split_go].
  assert (reverse y ≠ []) as Hry.
  { intros H. apply (f_equal reverse) in H. by rewrite reverse_involutive in H. }
  destruct (reverse y) as [|x'' ry] eqn:Ery; [done|]. by rewrite <- Ery, reverse_involutive.
Qed.

Lemma isspace_range c :
  isspace c = true → c ≤ 0x20 ∨ c = 0x85 ∨ c = 0xA0 ∨ 0x1680 ≤ c.
Proof.
  unfold isspace. rewrite !orb_true_iff, !andb_true_iff, !N.leb_le, !N.eqb_eq. lia.
Qed.

Lemma ascii_letter_ci_range c :
  Re.ascii_letter_ci c = true →
  0x41 ≤ c ≤ 0x7A ∨ c = 0x130 ∨ c = 0x131 ∨ c = 0x17F ∨ c = 0x212A.
Proof.
  unfold Re.ascii_letter_ci, Re.fold_case. cbv zeta.
  destruct ((0x41 <=? c) && (c <=? 0x5A)) eqn:E1.
  { apply andb_true_iff in E1. rewrite !N.leb_le in E1. lia. }
  destruct ((c =? 0x130) || (c =? 0x131)) eqn:E2.
  { apply orb_true_iff in E2. rewrite !N.eqb_eq in E2. lia. }
  destruct (N.eqb_spec c 0x17F); [lia|].
  destruct (N.eqb_spec c 0x212A); [lia|].
  rewrite andb_true_iff, !N.leb_le. lia.
Qed.

Lemma ascii_letter_ci_not_blank c : Re.ascii_letter_ci c = true → isspace c = false.
Proof.
  intros Hc%ascii_letter_ci_range. destruct (isspace c) eqn:E; [|done].
  destruct Hc as [Hc|[->|[->|[->| ->]]]]; [|by vm_compute in E..].
  apply isspace_range in E. lia.
Qed.

End Words.

Section ThreeWords.
Context `{L : Libs}.

Lemma py_int_decimal (w : str) :
  w ≠ [] → Forall (λ c, Re.decimal c = true) w → ∃ n, py_int w = Ok n.
Proof.
  intros Hne Hw. unfold py_int. destruct w as [|c w]; [done|].
  assert (∃ ds, mapM unicode_decimal (c :: w) = Some ds) as (ds & ->); [|by eexists].
  clear Hne. induction Hw as [|x w' Hx _ (ds & IH)]; [by exists []|].
  apply bool_decide_eq_true in Hx as (v & Hv).
  exists (v :: ds). cbn [mapM]. rewrite Hv. cbn [mbind option_bind]. by rewrite IH.
Qed.

(** What a match of [AVAILABLE_ONLINE_RE] holds in its group. *)
Lemma AVAILABLE_ONLINE_RE_match_shape (s date_str : str) :
  Re.AVAILABLE_ONLINE_RE_match s = Some date_str →
  ∃ d w1 mon w2 y,
    date_str = d ++ w1 ++ mon ++ w2 ++ y
    ∧ d ≠ [] ∧ mon ≠ [] ∧ length y = 4%nat ∧ (length d ≤ 2)%nat
    ∧ w1 ≠ [] ∧ w2 ≠ []
    ∧ Forall (λ c, Re.decimal c = true) d ∧ Forall (λ c, Re.decimal c = true) y
    ∧ Forall (λ c, Re.ascii_letter_ci c = true) mon
    ∧ Forall (λ c, isspace c = true) w1 ∧ Forall (λ c, isspace c = true) w2.
Proof.
  unfold Re.AVAILABLE_ONLINE_RE_match.
  destruct (Re.literal _ _ s) as [r1|]; [|done]. cbn [mbind option_bind].
  destruct (Re.blanks r1) as [[w0 r2]|]; [|done]. cbn [mbind option_bind].
  destruct (Re.literal _ _ r2) as [r3|]; [|done]. cbn [mbind option_bind].
  destruct (Re.blanks r3) as [[w0' r4]|]; [|done]. cbn [mbind option_bind].
  destruct (Re.span_upto 2 Re.decimal r4) as [d r5] eqn:Ed.
  case_bool_decide as Hd; [done|].
  destruct (Re.blanks r5) as [[w1 r6]|] eqn:Ew1; [|done]. cbn [mbind option_bind].
  destruct (Re.span Re.ascii_letter_ci r6) as [mon r7] eqn:Emon.
  case_bool_decide as Hmon; [done|].
  destruct (Re.blanks r7) as [[w2 r8]|] eqn:Ew2; [|done]. cbn [mbind option_bind].
  destruct (Re.span_upto 4 Re.decimal r8) as [y r9] eqn:Ey.
  case_bool_decide as Hy; [|done]. intros [= <-].
  apply span_upto_spec in Ed as (_ & Fd & Hlen).
  apply blanks_spec in Ew1 as (_ & Hw1 & Fw1).
  apply span_spec in Emon as (_ & Fmon).
  apply blanks_spec in Ew2 as (_ & Hw2 & Fw2).
  apply span_upto_spec in Ey as (_ & Fy & _).
  exists d, w1, mon, w2, y. by split_and!.
Qed.

End ThreeWords.

(** X14.  The date of a match of [AVAILABLE_ONLINE_RE] is always three
    words, a day of one or two digits, a month of letters and a year of
    four digits, when no decimal digit is a blank.  So in
    [parse_available_online_date] the branch for a date that is not three
    words is never taken and neither call of [int] raises: the date is
    read by hand whenever [MONTHS] has the month and the day exists in it,
    and goes to the free-text parser otherwise. *)
Theorem available_online_date_is_three_words `{L : Libs} (desc date_str : str) :
  (∀ c, is_Some (unicode_decimal c) → isspace c = false) →
  desc ≠ [] →
  Re.AVAILABLE_ONLINE_RE_search (clean_html_text desc) = Some date_str →
  ∃ d mon y day year,
    split date_str = [d; mon; y]
    ∧ (1 ≤ length d ≤ 2)%nat ∧ mon ≠ [] ∧ length y = 4%nat
    ∧ py_int d = Ok day ∧ py_int y = Ok year
    ∧ parse_available_online_date desc
      = match MONTHS !! str_lower mon with
        | None | Some 0%Z => parse_date_strict (Some date_str)
        | Some m =>
            match new_datetime year m day 0 0 0 (Some UTC) with
            | Ok dt => Some dt
            | Raise _ => parse_date_strict (Some date_str)
            end
        end.
Proof.
  intros Hdec Hne Hsearch.
  pose proof Hsearch as (i & Hm)%search_found.
  apply AVAILABLE_ONLINE_RE_match_shape in Hm
    as (d & w1 & mon & w2 & y & -> & Hd & Hmon & Hy & Hlen & Hw1 & Hw2
        & Fd & Fy & Fmon & Fw1 & Fw2).
  assert (∀ w, Forall (λ c, Re.decimal c = true) w → Forall (λ c, isspace c = false) w)
    as Hdigits.
  { intros w Hw. eapply Forall_impl; [done|]. intros c Hc. apply Hdec.
    by apply bool_decide_eq_true in Hc. }
  assert (y ≠ []) as Hyne by (by destruct y).
  destruct (py_int_decimal d Hd Fd) as (day & Hday).
  destruct (py_int_decimal y Hyne Fy) as (year & Hyear).
  assert (split (d ++ w1 ++ mon ++ w2 ++ y) = [d; mon; y]) as Hsplit.
  { apply split_three; try done; try by apply Hdigits.
    eapply Forall_impl; [done|]. apply ascii_letter_ci_not_blank. }
  exists d, mon, y, day, year. split_and!; try done.
  { destruct d; [done|]. simpl. lia. }
  unfold parse_available_online_date. destruct desc as [|c desc]; [done|].
  rewrite Hsearch, Hsplit. unfold read_by_hand. rewrite Hday, Hyear, !py_bind_ok.
  destruct (MONTHS !! str_lower mon) as [[|m|m]|]; [done| | |done];
    by destruct (new_datetime _ _ _ _ _ _ _).
Qed.

(** The summary of [Ex.phrase_only]. *)
Lemma available_online_date_is_three_words_witness :
  ∃ d mon y day year,
    split (lit "10 October 2025") = [d; mon; y]
    ∧ (1 ≤ length d ≤ 2)%nat ∧ mon ≠ [] ∧ length y = 4%nat
    ∧ py_int (L := Standin.libs) d = Ok day ∧ py_int (L := Standin.libs) y = Ok year
    ∧ parse_available_online_date (L := Standin.libs)
        (lit "<p>Research article. Available  online 10 October 2025, 100123</p>")
      = match MONTHS !! str_lower (Libs := Standin.libs) mon with
        | None | Some 0%Z => parse_date_strict (L := Standin.libs) (Some (lit "10 October 2025"))
        | Some m =>
            match new_datetime year m day 0 0 0 (Some UTC) with
            | Ok dt => Some dt
            | Raise _ => parse_date_strict (L := Standin.libs) (Some (lit "10 October 2025"))
            end
        end.
Proof.
  apply (available_online_date_is_three_words (L := Standin.libs)).
  - intros c [v Hv]. unfold unicode_decimal, Standin.libs, Standin.ascii_decimal in Hv.
    destruct (Re.ascii_digit c) eqn:Ec; [|done]. unfold Re.ascii_digit in Ec.
    apply andb_true_iff in Ec. rewrite !N.leb_le in Ec.
    destruct (isspace c) eqn:E; [|done]. apply isspace_range in E. lia.
  - done.
  - vm_compute. reflexivity.
Defined.

(** ** Titles have no blank at either end *)

Section Trimmed.

Implicit Types (k v s : str) (c x : N).

Lemma replace_go_head k c s x :
  head (replace_go k [c] 0 s) = Some x → x = c ∨ head s = Some x.
Proof.
  destruct s as [|y s]; [done|]. rewrite replace_go_cons.
  destruct (prefixb k (y :: s)); simpl; intros [= <-]; auto.
Qed.

Lemma last_drop s n x : last (drop n s) = Some x → last s = Some x.
Proof.
  intros H. rewrite <- (take_drop n s). destruct (drop n s) as [|y r] eqn:E; [done|].
  by rewrite last_app, H.
Qed.

Lemma replace_go_last k c s x :
  last (replace_go k [c] 0 s) = Some x → x = c ∨ last s = Some x.
Proof.
  remember (length s) as n eqn:Hn.
  revert s Hn. induction (lt_wf n) as [n _ IH]. intros s ->.
  destruct s as [|y s]; [done|]. rewrite replace_go_cons.
  destruct (prefixb k (y :: s)).
  - cbn [app]. rewrite last_cons.
    destruct (last (replace_go k [c] 0 (drop (length k - 1) s))) as [z|] eqn:E.
    + intros [= <-].
      destruct (IH (length (drop (length k - 1) s))
                  ltac:(rewrite length_drop; simpl; lia) _ eq_refl E) as [->|Hl]; [by left|].
      right. rewrite last_cons. by rewrite (last_drop _ _ _ Hl).
    + intros [= <-]. by left.
  - rewrite !last_cons.
    destruct (last (replace_go k [c] 0 s)) as [z|] eqn:E.
    + intros [= <-].
      destruct (IH (length s) ltac:(simpl; lia) s eq_refl E) as [->|Hl]; [by left|].
      right. by rewrite Hl.
    + intros [= <-]. right. destruct s as [|y' s]; [done|].
      rewrite replace_go_cons in E. destruct (prefixb k (y' :: s)).
      * cbn [app] in E. rewrite last_cons in E. by destruct (last _).
      * rewrite last_cons in E. by destruct (last _).
Qed.

Lemma apply_repl_trimmed t s :
  Forall (λ kv : str * str, kv.1 ≠ [] ∧ ∃ c, kv.2 = [c] ∧ isspace c = false) t →
  trimmed s → trimmed (apply_repl t s).
Proof.
  intros Ht. revert s. induction Ht as [|[k v] t [Hk (c & Hv & Hc)] _ IH]; intros s Hs; [done|].
  simpl in Hk, Hv. subst v. rewrite apply_repl_cons, replace_nonempty by done.
  apply IH. destruct Hs as [Hh Hl]. split; intros x.
  - intros [->|Hx]%replace_go_head; [done|by apply Hh].
  - intros [->|Hx]%replace_go_last; [done|by apply Hl].
Qed.

Lemma repl_values_no_blank :
  Forall (λ kv : str * str, kv.1 ≠ [] ∧ ∃ c, kv.2 = [c] ∧ isspace c = false) repl.
Proof.
  unfold repl. repeat (apply Forall_cons; split; [split; [done|]; by eexists|]).
  apply Forall_nil_2.
Qed.

Lemma fix_mojibake_trimmed s : trimmed s → trimmed (fix_mojibake s).
Proof.
  intros Hs. destruct s as [|x s]; [done|]. rewrite fix_mojibake_apply by done.
  by apply apply_repl_trimmed; [apply repl_values_no_blank|].
Qed.

Lemma trimmed_strip s : trimmed s → strip s = s.
Proof. intros [Hh Hl]. by apply strip_fixed. Qed.

End Trimmed.

Section TrimmedTitles.
Context `{L : Libs} (LL : LibsLaws L) `{Srt : Sorter}.

Lemma clean_html_text_trimmed (s : str) : trimmed (clean_html_text s).
Proof.
  destruct (clean_html_text_strip s) as (u & ->). unfold strip. split; intros c.
  - apply rstrip_head. intros x. apply lstrip_head.
  - apply rstrip_last.
Qed.

Lemma alt_candidates_trimmed (e : entry) a : a ∈ alt_candidates e → trimmed a.
Proof.
  unfold alt_candidates. intros (h & _ & Hh)%list_elem_of_omap.
  unfold extract_alt_from_html in Hh. destruct h as [|c h]; [done|].
  destruct (ALT_IMG_RE_search (c :: h)) as [alt|]; [|done]. simpl in Hh.
  pose proof (fix_mojibake_trimmed _ (clean_html_text_trimmed alt)) as Ht.
  destruct (fix_mojibake (clean_html_text alt)); [done|]. by injection Hh as <-.
Qed.

Lemma get_entry_title_trimmed (e : entry) r : get_entry_title e = Ok r → trimmed r.
Proof.
  intros Hr. destruct (get_entry_title_from e) as (r' & Hr' & Hfrom & _).
  rewrite Hr in Hr'. injection Hr' as <-. destruct Hfrom as [->|Hin].
  - apply fix_mojibake_trimmed, clean_html_text_trimmed.
  - by eapply alt_candidates_trimmed.
Qed.

(** A record of the entry loop of [spider_yesterday_1012.py]: an article
    of the day whose title has no blank at either end. *)
Lemma entry_body_1012_trimmed y src e rs :
  spider_yesterday_1012.entry_body y src e = Ok rs →
  Forall (λ r, ∃ a, r = to_record a ∧ in_day y a ∧ trimmed (a_title a)) rs.
Proof.
  unfold spider_yesterday_1012.entry_body.
  destruct (get_entry_pub_date e) as [pub|] eqn:Epub; [|done]. rewrite py_bind_ok.
  destruct pub as [t|]; [|by intros [= <-]].
  destruct (in_window (Some t) y) eqn:Ew; [|by intros [= <-]].
  destruct (get_entry_title e) as [ti|] eqn:Eti; [|done]. rewrite py_bind_ok.
  intros [= <-]. repeat constructor.
  exists (mkarticle ti (or_empty (link e)) (Fmt.ymd_hms_z t) src t).
  split; [done|]. split; [|by eapply get_entry_title_trimmed]. split.
  - apply in_window_spec in Ew as (? & [= <-] & ?). done.
  - by eapply (get_entry_pub_date_utc LL).
Qed.

Lemma trimmed_articles (y : date) (rs : list record) :
  Forall (λ r, ∃ a, r = to_record a ∧ in_day y a ∧ trimmed (a_title a)) rs →
  ∃ arts, rs = to_record <$> arts ∧ Forall (in_day y) arts
    ∧ Forall (λ a, trimmed (a_title a)) arts.
Proof.
  induction 1 as [|r rs (a & -> & Ha & Ht) _ (arts & -> & Harts & Htr)].
  - by exists [].
  - exists (a :: arts). split; [done|]. split; by constructor.
Qed.

End TrimmedTitles.

(** X15.  No title that [get_entry_title] returns starts or ends with a
    blank, so trimming it changes nothing; and in the file that
    [spider_yesterday_1012.py] writes no two rows have the same title. *)
Theorem titles_are_trimmed `{L : Libs} (LL : LibsLaws L) `{Srt : Sorter} :
  (∀ e r, get_entry_title e = Ok r → trimmed r ∧ strip r = r)
  ∧ (∀ today fetched path df,
       spider_yesterday_1012.main today fetched = Ok [ (path, df) ] →
       ∃ arts, rows df = to_row <$> arts
         ∧ Forall (λ a, strip (a_title a) = a_title a) arts
         ∧ NoDup (a_title <$> arts)).
Proof.
  split.
  - intros e r Hr%get_entry_title_trimmed. split; [done|]. by apply trimmed_strip.
  - intros today fetched path df. unfold spider_yesterday_1012.main.
    destruct (add_days today (-1)) as [y|]; [|done]. rewrite py_bind_ok.
    destruct (for_feeds _ fetched) as [rs|] eqn:Ers; [|done]. rewrite py_bind_ok.
    apply (for_feeds_Forall
             (λ r, ∃ a, r = to_record a ∧ in_day y a ∧ trimmed (a_title a))) in Ers;
      [|intros src e r; apply (entry_body_1012_trimmed LL)].
    apply trimmed_articles in Ers as (arts & -> & Harts & Htrim).
    destruct arts as [|a arts].
    { intros [= <- <-]. exists []. split; [done|]. split; constructor. }
    assert (empty (of_records (to_record <$> a :: arts)) = false) as -> by done.
    rewrite dedup_frame by (done || by apply (in_day_utc y)). rewrite py_bind_ok.
    intros [= <- <-]. exists (dedup_sort (a :: arts)). split; [done|].
    assert (Forall (λ a, strip (a_title a) = a_title a) (dedup_sort (a :: arts))) as Hstrip.
    { rewrite Forall_forall in Htrim |- *. intros x Hx%dedup_sort_sublist.
      by apply trimmed_strip, Htrim. }
    split; [done|].
    rewrite <- (list_fmap_ext title_norm a_title (dedup_sort (a :: arts))).
    + apply drop_dups_NoDup.
    + intros i x Hx. apply list_elem_of_lookup_2 in Hx.
      rewrite Forall_forall in Hstrip. by apply Hstrip.
Qed.

(** The entry titled "Graphical Abstract", whose title is taken from the
    alt text of its image. *)
Lemma titles_are_trimmed_witness :
  trimmed Ex.headline ∧ strip Ex.headline = Ex.headline.
Proof.
  apply (proj1 (titles_are_trimmed standin_laws (Srt := stable_sorter)) Ex.graphical).
  vm_compute. reflexivity.
Defined.

(** ** What [spider_yesterday.py] writes *)

Section Plain.
Context `{Srt : Sorter}.

(** On the records of a run that kept at least one article, the two
    steps of [spider_yesterday.py]: the rows in ascending order of
    [pub_date], the first of each title as it is written. *)
Lemma plain_frame (arts : list article) :
  arts ≠ [] → Forall (λ a, tzinfo (a_pub_date a) = Some UTC) arts →
  (df_sorted ← sort_values "pub_date" (of_records (to_record <$> arts));
   drop_duplicates "title" df_sorted)
  = Ok (mkdf record_columns
          (to_row <$> drop_dups a_title [] (sort_by (λ a, Some (published_at a)) arts))).
Proof.
  intros Hne Hutc. rewrite of_records_articles by done.
  unfold sort_values. loc_eval. py_step; cbn [rows columns].
  rewrite <- list_fmap_compose.
  rewrite (list_fmap_ext (cell_at 4 ∘ to_row) (λ a, CTime (a_pub_date a)) arts) by done.
  rewrite mixed_zones_utc by done. py_step.
  unfold drop_duplicates. loc_eval. py_step; cbn [rows columns].
  rewrite sort_by_fmap, drop_dups_fmap. f_equal. f_equal. f_equal.
  rewrite <- (drop_dups_inj CStr a_title). apply drop_dups_ext. by intros [? ? ? ? ?] _.
Qed.

End Plain.

(** X16.  [spider_yesterday.py] writes a file only when it kept an
    article.  The file then has the five columns of a record, and its
    rows are articles of yesterday in ascending order of [pub_date], no
    two with the same title as written. *)
Theorem main_plain_rows `{Srt : Sorter} (today : date) (fetched : list (str * feed))
    (files : list written) :
  spider_yesterday.main today fetched = Ok files →
  ∃ y arts,
    add_days today (-1) = Ok y
    ∧ files = [ (spider_yesterday.file_name y, mkdf record_columns (to_row <$> arts)) ]
    ∧ arts ≠ []
    ∧ Forall (in_day y) arts
    ∧ NoDup (a_title <$> arts)
    ∧ Sorted (λ a b, (published_at a ≤ published_at b)%Z) arts.
Proof.
  unfold spider_yesterday.main.
  destruct (add_days today (-1)) as [y|]; [|done]. rewrite py_bind_ok.
  destruct (for_feeds _ fetched) as [rs|] eqn:Ers; [|done]. rewrite py_bind_ok.
  apply (for_feeds_Forall (kept y)) in Ers; [|apply entry_body_plain_kept].
  apply kept_articles in Ers as (arts & -> & Harts).
  destruct arts as [|a arts]; [done|].
  pose proof (plain_frame (a :: arts) ltac:(done) (in_day_utc y _ Harts)) as Hframe.
  revert Hframe. destruct (sort_values _ _) as [sorted|]; [|done].
  rewrite !py_bind_ok. intros ->. rewrite py_bind_ok. intros [= <-].
  set (out := drop_dups a_title [] (sort_by (λ a, Some (published_at a)) (a :: arts))).
  exists y, out. split_and!; [done|done| | | |].
  - destruct (drop_dups_first a_title []
                (sort_by (λ a, Some (published_at a)) (a :: arts)) a)
      as (? & z & ? & _ & _ & _ & Hz).
    + rewrite sort_by_perm. by left.
    + by intros ?%elem_of_nil.
    + fold out in Hz. intros Hnil. rewrite Hnil in Hz. by apply elem_of_nil in Hz.
  - rewrite Forall_forall in Harts |- *. intros x Hx. apply Harts.
    eapply elem_of_sublist in Hx; [|apply drop_dups_sublist].
    by rewrite sort_by_perm in Hx.
  - apply drop_dups_NoDup.
  - apply StronglySorted_Sorted.
    eapply StronglySorted_sublist; [apply drop_dups_sublist|].
    apply (@Sorted_StronglySorted _ _ published_le_trans), sort_by_published.
Qed.

(** The run of 2025-10-11 on the feed of [Ex.blank_titles]. *)
Lemma main_plain_rows_witness :
  ∃ y arts,
    add_days (mkdate 2025 10 11) (-1) = Ok y
    ∧ [ (lit "output/news_2025-10-10.csv",
         mkdf record_columns
           [ [ CStr (lit "Same title"); CStr (lit "http://one");
               CStr (lit "2025-10-10 08:00:00 UTC"); CStr (lit "Feed");
               CTime (Ex.utc 2025 10 10 8 0 0) ];
             [ CStr (lit " Same title"); CStr (lit "http://two");
               CStr (lit "2025-10-10 09:00:00 UTC"); CStr (lit "Feed");
               CTime (Ex.utc 2025 10 10 9 0 0) ] ]) ]
      = [ (spider_yesterday.file_name y, mkdf record_columns (to_row <$> arts)) ]
    ∧ arts ≠ []
    ∧ Forall (in_day y) arts
    ∧ NoDup (a_title <$> arts)
    ∧ Sorted (λ a b, (published_at a ≤ published_at b)%Z) arts.
Proof.
  apply (main_plain_rows (Srt := stable_sorter) (mkdate 2025 10 11) Ex.blank_titles).
  vm_compute. reflexivity.
Defined.

(** ** One file for each day *)


(** X17.  Each day has a file of its own: for two dates that exist,
    the daily file names of the scripts are equal only when the dates
    are. *)
Theorem daily_files_are_distinct (d d' : date) :
  valid_dateb (year d) (month d) (day d) = true →
  valid_dateb (year d') (month d') (day d') = true →
  (weekly_aggregate.daily_file_for d = weekly_aggregate.daily_file_for d' → d = d')
  ∧ (spider_yesterday.file_name d = spider_yesterday.file_name d' → d = d')
  ∧ (spider_yesterday_1012.file_name d = spider_yesterday_1012.file_name d' → d = d').
Proof.
  intros Hd Hd'. split_and!; intros Heq.
  - apply (app_inv_head (lit "output/news_")), (app_inv_tail (lit ".csv")) in Heq.
    by apply ymd_inj.
  - apply (app_inv_head (lit "output/news_")), (app_inv_tail (lit ".csv")) in Heq.
    by apply ymd_inj.
  - apply (app_inv_head (lit "output/news12_")), (app_inv_tail (lit ".csv")) in Heq.
    by apply ymd_inj.
Qed.

(** The files of 2025-10-10 and of 2025-10-11. *)
Lemma daily_files_are_distinct_witness :
  (weekly_aggregate.daily_file_for (mkdate 2025 10 10)
   = weekly_aggregate.daily_file_for (mkdate 2025 10 11) →
   mkdate 2025 10 10 = mkdate 2025 10 11)
  ∧ (spider_yesterday.file_name (mkdate 2025 10 10)
     = spider_yesterday.file_name (mkdate 2025 10 11) →
     mkdate 2025 10 10 = mkdate 2025 10 11)
  ∧ (spider_yesterday_1012.file_name (mkdate 2025 10 10)
     = spider_yesterday_1012.file_name (mkdate 2025 10 11) →
     mkdate 2025 10 10 = mkdate 2025 10 11).
Proof.
  apply (daily_files_are_distinct (mkdate 2025 10 10) (mkdate 2025 10 11));
    vm_compute; reflexivity.
Defined.

(** ** Naive and aware times in [spider_yesterday_matoday.py] *)

Lemma for_entries_elem body src es rs e r x :
  for_entries body src es = Ok rs → e ∈ es → body src e = Ok r → x ∈ r → x ∈ rs.
Proof.
  revert rs. induction es as [|e' es IH]; intros rs Hrs He Hr Hx.
  { by apply elem_of_nil in He. }
  simpl in Hrs. destruct (body src e') as [r'|] eqn:Er'; [|done].
  rewrite py_bind_ok in Hrs.
  destruct (for_entries body src es) as [rest|]; [|done]. rewrite py_bind_ok in Hrs.
  injection Hrs as <-. apply elem_of_app. apply elem_of_cons in He as [->|He].
  - left. congruence.
  - right. by apply IH.
Qed.

Lemma for_feeds_elem body (fetched : list (str * feed)) rs url f e r x :
  for_feeds body fetched = Ok rs → (url, f) ∈ fetched → e ∈ entries f →
  body (source_title_of url f) e = Ok r → x ∈ r → x ∈ rs.
Proof.
  revert rs. induction fetched as [|[url' f'] fetched IH]; intros rs Hrs Hin He Hr Hx.
  { by apply elem_of_nil in Hin. }
  simpl in Hrs. destruct (for_entries body _ (entries f')) as [r'|] eqn:Er'; [|done].
  rewrite py_bind_ok in Hrs.
  destruct (for_feeds body fetched) as [rest|]; [|done]. rewrite py_bind_ok in Hrs.
  injection Hrs as <-. apply elem_of_app. apply elem_of_cons in Hin as [[= <- <-]|Hin].
  - left. by eapply for_entries_elem.
  - right. by apply IH.
Qed.

Section Matoday.
Context `{L : Libs} `{Srt : Sorter}.

Lemma matoday_entry_body_records y src e rs :
  spider_yesterday_matoday.entry_body y src e = Ok rs →
  Forall (λ r, ∃ a, r = to_record a) rs.
Proof.
  unfold spider_yesterday_matoday.entry_body.
  destruct (spider_yesterday_matoday.pub_date_of e) as [[t|]|]; [| |done];
    rewrite py_bind_ok; [|by intros [= <-]].
  destruct (in_window (Some t) y); [|by intros [= <-]].
  destruct (attribute "title" (title e)) as [ti|]; [|done]. rewrite py_bind_ok.
  destruct (attribute "link" (link e)) as [li|]; [|done]. rewrite py_bind_ok.
  intros [= <-]. repeat constructor.
  by exists (mkarticle ti li (Fmt.ymd_hms t) src t).
Qed.

Lemma matoday_entry_body_kept y src e t rs :
  spider_yesterday_matoday.pub_date_of e = Ok (Some t) → dt_date t = y →
  spider_yesterday_matoday.entry_body y src e = Ok rs →
  ∃ a, rs = [to_record a] ∧ a_pub_date a = t.
Proof.
  intros Hpub Hy. unfold spider_yesterday_matoday.entry_body.
  rewrite Hpub, py_bind_ok.
  rewrite (proj2 (in_window_spec (Some t) y)) by (by exists t).
  destruct (attribute "title" (title e)) as [ti|]; [|done]. rewrite py_bind_ok.
  destruct (attribute "link" (link e)) as [li|]; [|done]. rewrite py_bind_ok.
  intros [= <-]. by exists (mkarticle ti li (Fmt.ymd_hms t) src t).
Qed.

Lemma records_articles (rs : list record) :
  Forall (λ r, ∃ a, r = to_record a) rs → ∃ arts, rs = to_record <$> arts.
Proof.
  induction 1 as [|r rs (a & ->) _ (arts & ->)]; [by exists []|]. by exists (a :: arts).
Qed.

Lemma to_record_pub_date (a b : article) :
  to_record a = to_record b → a_pub_date a = a_pub_date b.
Proof. unfold to_record. by intros [= _ _ _ _ ->]. Qed.

End Matoday.

(** X18.  [spider_yesterday_matoday.py] takes the time of the phrase as
    the parser returns it and gives the time of a parsed tuple the zone
    UTC.  When the records of a run hold a time without a zone and a time
    with one, [sort_values] cannot compare them: the run stops with
    [TypeError] and writes no file. *)
Theorem matoday_mixed_times_raise `{L : Libs} `{Srt : Sorter}
    (today yesterday : date) (fetched : list (str * feed))
    (url1 url2 : str) (f1 f2 : feed) (e1 e2 : entry) (t1 t2 : datetime) :
  add_days today (-1) = Ok yesterday →
  (∀ url f e, (url, f) ∈ fetched → e ∈ entries f →
     ∃ rs, spider_yesterday_matoday.entry_body yesterday (source_title_of url f) e = Ok rs) →
  (url1, f1) ∈ fetched → e1 ∈ entries f1 →
  spider_yesterday_matoday.pub_date_of e1 = Ok (Some t1) →
  dt_date t1 = yesterday → tzinfo t1 = None →
  (url2, f2) ∈ fetched → e2 ∈ entries f2 →
  spider_yesterday_matoday.pub_date_of e2 = Ok (Some t2) →
  dt_date t2 = yesterday → tzinfo t2 = Some UTC →
  spider_yesterday_matoday.main today fetched = Raise TypeError.
Proof.
  intros Hy Hok Hin1 He1 Hp1 Hd1 Hz1 Hin2 He2 Hp2 Hd2 Hz2.
  unfold spider_yesterday_matoday.main. rewrite Hy, py_bind_ok.
  destruct (for_feeds_ok (spider_yesterday_matoday.entry_body yesterday) fetched Hok)
    as (rs & Hrs).
  rewrite Hrs, py_bind_ok.
  destruct (Hok url1 f1 e1 Hin1 He1) as (r1 & Hr1).
  destruct (Hok url2 f2 e2 Hin2 He2) as (r2 & Hr2).
  destruct (matoday_entry_body_kept _ _ _ _ _ Hp1 Hd1 Hr1) as (a1 & -> & Ha1).
  destruct (matoday_entry_body_kept _ _ _ _ _ Hp2 Hd2 Hr2) as (a2 & -> & Ha2).
  pose proof (for_feeds_elem _ _ _ _ _ _ _ (to_record a1) Hrs Hin1 He1 Hr1
                ltac:(left)) as Hx1.
  pose proof (for_feeds_elem _ _ _ _ _ _ _ (to_record a2) Hrs Hin2 He2 Hr2
                ltac:(left)) as Hx2.
  apply (for_feeds_Forall (λ r, ∃ a, r = to_record a)) in Hrs;
    [|intros src e r; apply matoday_entry_body_records].
  apply records_articles in Hrs as (arts & ->).
  apply list_elem_of_fmap in Hx1 as (b1 & Hb1%to_record_pub_date & Hin1').
  apply list_elem_of_fmap in Hx2 as (b2 & Hb2%to_record_pub_date & Hin2').
  assert (arts ≠ []) as Hne by (intros ->; by apply elem_of_nil in Hin1').
  rewrite of_records_articles by done.
  assert (empty (mkdf record_columns (to_row <$> arts)) = false) as ->.
  { destruct arts; [done|]. done. }
  cbn [negb]. unfold sort_values. loc_eval. rewrite py_bind_ok. cbn [rows columns].
  rewrite <- list_fmap_compose.
  rewrite (list_fmap_ext (cell_at 4 ∘ to_row) (λ a, CTime (a_pub_date a)) arts) by done.
  assert (mixed_zones ((λ a, CTime (a_pub_date a)) <$> arts) = true) as ->; [|done].
  unfold mixed_zones. apply andb_true_iff. split; apply existsb_exists.
  - exists (CTime (a_pub_date b2)). split.
    + apply list_elem_of_In, list_elem_of_fmap. by exists b2.
    + simpl. rewrite <- Hb2, Ha2, Hz2. apply bool_decide_eq_true. done.
  - exists (CTime (a_pub_date b1)). split.
    + apply list_elem_of_In, list_elem_of_fmap. by exists b1.
    + simpl. rewrite <- Hb1, Ha1, Hz1. apply bool_decide_eq_true.
      split; [by intros [? ?]|done].
Qed.

(** The run of 2025-10-11 on the feed of [Cases.mixed_feed]. *)
Lemma matoday_mixed_times_raise_witness :
  spider_yesterday_matoday.main (L := Standin.libs) (Srt := stable_sorter)
    (mkdate 2025 10 11) Cases.mixed_feed
  = Raise TypeError.
Proof.
  apply (matoday_mixed_times_raise (L := Standin.libs) (Srt := stable_sorter)
           (mkdate 2025 10 11) (mkdate 2025 10 10) Cases.mixed_feed
           (lit "http://feed") (lit "http://feed")
           (mkfeed (Some (lit "Feed")) [ Cases.by_phrase; Cases.by_tuple ])
           (mkfeed (Some (lit "Feed")) [ Cases.by_phrase; Cases.by_tuple ])
           Cases.by_phrase Cases.by_tuple
           (mkdatetime (mkdate 2025 10 10) 0 0 0 0 None) (Ex.utc 2025 10 10 8 0 0)).
  - reflexivity.
  - intros url f e Hin He. apply list_elem_of_singleton in Hin. injection Hin as -> ->.
    cbn [entries] in He. apply elem_of_cons in He as [->|He]; [by eexists|].
    apply list_elem_of_singleton in He as ->. by eexists.
  - left.
  - left.
  - vm_compute. reflexivity.
  - reflexivity.
  - reflexivity.
  - left.
  - right. left.
  - vm_compute. reflexivity.
  - reflexivity.
  - reflexivity.
Defined.

(** ** [normalize_pub_date] *)

Section Normalize.
Context `{L : Libs} (LL : LibsLaws L).
Import weekly_aggregate.

Lemma coerce_datetime_cell_twice (c : cell) :
  coerce_datetime_cell (coerce_datetime_cell c) = coerce_datetime_cell c.
Proof.
  assert (∀ t, tzinfo t = Some UTC → coerce_datetime_cell (CTime t) = CTime t) as Hutc.
  { intros [d hh mm ss us tzi]. simpl. by intros ->. }
  destruct c as [s|t|]; [|reflexivity|done]. cbn [coerce_datetime_cell].
  destruct (pd_to_datetime s) as [t|] eqn:E; [|done].
  apply Hutc. by eapply pd_to_datetime_utc.
Qed.

Lemma normalize_pub_date_rows (df : DataFrame) :
  normalize_pub_date df
  = match index_of "pub_date" (columns df) with
    | Some i =>
        mkdf (columns df)
          ((λ row, <[i := coerce_datetime_cell (cell_at i row)]> row) <$> rows df)
    | None => df
    end.
Proof.
  unfold normalize_pub_date, get_column, loc.
  destruct (index_of "pub_date" (columns df)) as [i|] eqn:Ei; [|done].
  rewrite py_bind_ok, <- list_fmap_compose, set_column_rows, Ei. done.
Qed.

End Normalize.

(** X19.  [normalize_pub_date] keeps the columns and the number of rows
    of a frame, leaves a frame without a column [pub_date] as it is, and
    does nothing more when it is applied a second time. *)
Theorem normalize_pub_date_idempotent `{L : Libs} (LL : LibsLaws L) (df : DataFrame) :
  columns (weekly_aggregate.normalize_pub_date df) = columns df
  ∧ length (rows (weekly_aggregate.normalize_pub_date df)) = length (rows df)
  ∧ ("pub_date"%string ∉ columns df → weekly_aggregate.normalize_pub_date df = df)
  ∧ weekly_aggregate.normalize_pub_date (weekly_aggregate.normalize_pub_date df)
    = weekly_aggregate.normalize_pub_date df.
Proof.
  rewrite !(normalize_pub_date_rows df).
  destruct (index_of "pub_date" (columns df)) as [i|] eqn:Ei.
  - split_and!; [done|cbn [rows]; by rewrite length_fmap| |].
    + intros Hno. apply index_of_None in Hno. congruence.
    + rewrite normalize_pub_date_rows. cbn [columns rows]. rewrite Ei. f_equal.
      rewrite <- list_fmap_compose. apply list_fmap_ext. intros k row _. simpl.
      destruct (decide (i < length row)%nat) as [Hlt|Hge].
      * unfold cell_at at 1. rewrite list_lookup_insert_eq by done. simpl.
        rewrite (coerce_datetime_cell_twice LL). apply list_insert_insert_eq.
      * by rewrite !list_insert_ge by (rewrite ?length_insert; lia).
  - split_and!; [done|done|done|]. rewrite normalize_pub_date_rows. by rewrite Ei.
Qed.

(** The daily file of [Cases.friday], whose times are text. *)
Lemma normalize_pub_date_idempotent_witness :
  weekly_aggregate.normalize_pub_date (L := Standin.libs)
    (weekly_aggregate.normalize_pub_date (L := Standin.libs) Cases.friday)
  = weekly_aggregate.normalize_pub_date (L := Standin.libs) Cases.friday.
Proof.
  apply (proj2 (proj2 (proj2 (normalize_pub_date_idempotent standin_laws Cases.friday)))).
Defined.

(** ** The daily file of a Monday run *)

Section MondayRun.
Local Open Scope Z_scope.

Lemma days_from_elem (a : Z) (n : nat) (k : Z) :
  0 ≤ k < Z.of_nat n → ord2ymd (a + k) ∈ days_from a n.
Proof.
  intros Hk. unfold days_from. apply list_elem_of_fmap. exists (a + k).
  split; [done|]. apply elem_of_seqZ. lia.
Qed.

Lemma days_from_ordinal (a : Z) (n : nat) (d : date) :
  1 ≤ a → d ∈ days_from a n → a ≤ toordinal d < a + Z.of_nat n.
Proof.
  intros Ha (k & -> & Hk)%list_elem_of_fmap. apply elem_of_seqZ in Hk.
  rewrite toordinal_ord2ymd by lia. lia.
Qed.

End MondayRun.

(** X20.  How the daily and the weekly run fit together.  On a Monday
    the file [spider_yesterday.py] writes, that of Sunday, is among the
    seven the aggregator looks for.  On any other day of the week
    yesterday lies after every day of the aggregator's window. *)
Theorem monday_run_covers_sunday (today : date) :
  (8 ≤ toordinal today ≤ MAXORDINAL)%Z →
  let o := toordinal today in
  let monday := (o - (o + 6) mod 7)%Z in
  add_days today (-1) = Ok (ord2ymd (o - 1))
  ∧ (iso_weekday (isocalendar today) = 1%Z →
     spider_yesterday.file_name (ord2ymd (o - 1))
     ∈ weekly_aggregate.daily_file_for <$> days_from (monday - 7) 7)
  ∧ (iso_weekday (isocalendar today) ≠ 1%Z →
     ∀ d, d ∈ days_from (monday - 7) 7 →
       (toordinal d < toordinal (ord2ymd (o - 1)))%Z).
Proof.
  intros Hrange o monday.
  destruct (monday_facts o) as (Hm & Hb & Hlt); [unfold o; lia|]. fold monday in Hm, Hb, Hlt.
  pose proof (iso_weekday_ordinal today) as Hwd. fold o in Hwd.
  split_and!.
  - rewrite add_days_ok by (fold o; lia).
    by replace (toordinal today + -1)%Z with (o - 1)%Z by (unfold o; lia).
  - intros H1. apply list_elem_of_fmap. exists (ord2ymd (o - 1)). split; [done|].
    replace (o - 1)%Z with (monday - 7 + 6)%Z by (unfold monday; lia).
    apply days_from_elem. lia.
  - intros Hn d Hd%days_from_ordinal; [|lia].
    rewrite toordinal_ord2ymd by lia.
    assert (monday ≠ o) by (unfold monday; lia). lia.
Qed.

(** Monday 2025-10-13. *)
Lemma monday_run_covers_sunday_witness :
  spider_yesterday.file_name
    (ord2ymd (toordinal (mkdate 2025 10 13) - 1))
  ∈ weekly_aggregate.daily_file_for
    <$> days_from (toordinal (mkdate 2025 10 13)
                   - (toordinal (mkdate 2025 10 13) + 6) mod 7 - 7) 7.
Proof.
  assert (8 ≤ toordinal (mkdate 2025 10 13) ≤ MAXORDINAL)%Z as Hrange.
  { vm_compute. split; discriminate. }
  apply (proj1 (proj2 (monday_run_covers_sunday (mkdate 2025 10 13) Hrange))).
  vm_compute. reflexivity.
Defined.
